(** * Key Transparency: HTTP/JSON gateway and monitor start-up

    A shallow embedding of two parts of the Key Transparency repository:

    - the generated reverse proxy [keytransparency.pb.gw.go] (package
      [keytransparency_proto]), which turns HTTP requests into calls on a
      [KeyTransparencyClient];
    - [cmd/keytransparency-monitor/main.go], the monitor's start-up code
      (dialling, transport credentials, the retry loop around its first
      remote call).

    Go values are modelled as they are declared: [int], [int64], [uint64]
    and [time.Duration] as [Z] (wrap-around written out where the code can
    overflow), [string] as [string], [map[string]T] as [gmap string T],
    slices as lists, a Go multiple return [(v, err)] as a pair whose last
    component is an [option error] ([None] is [nil]).  *)

From Stdlib Require Import ZArith QArith Lia String Ascii List Bool.
From Stdlib Require Import DecimalString DecimalPos DecimalN DecimalZ DecimalFacts.
From stdpp Require Import base option list strings gmap.

Local Open Scope string_scope.
Local Open Scope Z_scope.

(* ================================================================== *)
(** * google.golang.org/grpc/codes *)
(* ================================================================== *)

Module codes.

Inductive Code :=
| OK | Canceled | Unknown | InvalidArgument | DeadlineExceeded | NotFound
| AlreadyExists | PermissionDenied | ResourceExhausted | FailedPrecondition
| Aborted | OutOfRange | Unimplemented | Internal | Unavailable | DataLoss
| Unauthenticated.

#[global] Instance Code_eq_dec : EqDecision Code.
Proof. solve_decision. Defined.

(** The numeric value of a code on the wire. *)
Definition to_Z (c : Code) : Z :=
  match c with
  | OK => 0 | Canceled => 1 | Unknown => 2 | InvalidArgument => 3
  | DeadlineExceeded => 4 | NotFound => 5 | AlreadyExists => 6
  | PermissionDenied => 7 | ResourceExhausted => 8
  | FailedPrecondition => 9 | Aborted => 10 | OutOfRange => 11
  | Unimplemented => 12 | Internal => 13 | Unavailable => 14
  | DataLoss => 15 | Unauthenticated => 16
  end.

Definition String (c : Code) : string :=
  match c with
  | OK => "OK" | Canceled => "Canceled" | Unknown => "Unknown"
  | InvalidArgument => "InvalidArgument"
  | DeadlineExceeded => "DeadlineExceeded" | NotFound => "NotFound"
  | AlreadyExists => "AlreadyExists"
  | PermissionDenied => "PermissionDenied"
  | ResourceExhausted => "ResourceExhausted"
  | FailedPrecondition => "FailedPrecondition" | Aborted => "Aborted"
  | OutOfRange => "OutOfRange" | Unimplemented => "Unimplemented"
  | Internal => "Internal" | Unavailable => "Unavailable"
  | DataLoss => "DataLoss" | Unauthenticated => "Unauthenticated"
  end.

End codes.

(* ================================================================== *)
(** * Go's [error] values and [fmt.Sprintf] *)
(* ================================================================== *)

(** The two sentinel errors of package [strconv]. *)
Inductive NumErr := ErrSyntax | ErrRange.

#[global] Instance NumErr_eq_dec : EqDecision NumErr.
Proof. solve_decision. Defined.

(** The dynamic types of [error] that the modelled code creates or passes
    on.  [StatusError] is the error made by [status.Errorf]: it carries the
    machine-readable code and the human-readable message. *)
Inductive error :=
| StatusError (code : codes.Code) (message : string)
| NumError (Func Num : string) (Err : NumErr)
| AddrError (Err Addr : string)
| ErrDeadlineExceeded                 (* context.DeadlineExceeded *)
| ErrCanceled                         (* context.Canceled *)
| ErrClientConnClosing                (* grpc.ErrClientConnClosing *)
| ErrorString (msg : string).         (* errors.New(msg) *)

#[global] Instance error_eq_dec : EqDecision error.
Proof. solve_decision. Defined.

Definition quote : ascii := ascii_of_nat 34.
Definition backslash : ascii := ascii_of_nat 92.

(** The lower-case hexadecimal digit of a value below 16. *)
Definition hex_digit (n : nat) : ascii :=
  match String.get n "0123456789abcdef" with
  | Some d => d
  | None => "0"%char
  end.

(** What [strconv.Quote] writes for one byte of ASCII text: a backslash
    before a double quote and a backslash, printable bytes as they are,
    the letter escapes of Go for the seven control bytes that have one,
    and [\x] with two hexadecimal digits for the other control bytes and
    DEL.  Bytes above 0x7f are copied, which is what Go does for
    well-formed UTF-8 text of printable characters (it escapes invalid
    and unprintable sequences, for which the Unicode tables would be
    needed). *)
Definition Quote_byte (c : ascii) : string :=
  let n := nat_of_ascii c in
  if decide (c = quote ∨ c = backslash) then String backslash (String c EmptyString)
  else if ((32 <=? n)%nat && (n <? 127)%nat) || (128 <=? n)%nat then String c EmptyString
  else
    String backslash
      (match n with
       | 7%nat => "a" | 8%nat => "b" | 12%nat => "f" | 10%nat => "n"
       | 13%nat => "r" | 9%nat => "t" | 11%nat => "v"
       | _ => String "x" (String (hex_digit (n / 16)) (String (hex_digit (n mod 16)) EmptyString))
       end).

(** [strconv.Quote(s)]: the quoted bytes between double quotes. *)
Fixpoint Quote_body (s : string) : string :=
  match s with
  | EmptyString => String quote EmptyString
  | String c s' => Quote_byte c +:+ Quote_body s'
  end.

Definition Quote (s : string) : string := String quote (Quote_body s).

Definition NumErr_Error (e : NumErr) : string :=
  match e with
  | ErrSyntax => "invalid syntax"
  | ErrRange => "value out of range"
  end.

(** The method [Error()] of each dynamic type. *)
Definition error_Error (e : error) : string :=
  match e with
  | StatusError c m => "rpc error: code = " +:+ codes.String c +:+ " desc = " +:+ m
  | NumError f n e => "strconv." +:+ f +:+ ": parsing " +:+ Quote n +:+ ": " +:+ NumErr_Error e
  | AddrError e a => if decide (a = "") then e else "address " +:+ a +:+ ": " +:+ e
  | ErrDeadlineExceeded => "context deadline exceeded"
  | ErrCanceled => "context canceled"
  (* the plain error of grpc before 1.12; later versions wrap this text
     in a status error of code Canceled *)
  | ErrClientConnClosing => "grpc: the client connection is closing"
  | ErrorString m => m
  end.

(** An operand of a formatting call: a string for [%s], an error for
    [%v]. *)
Inductive fmt_arg := ArgS (s : string) | ArgE (e : error).

Definition fmt_arg_text (a : fmt_arg) : string :=
  match a with
  | ArgS s => s
  | ArgE e => error_Error e
  end.

(** [fmt.Sprintf] for the verbs [%s] and [%v], the only ones the modelled
    code uses.  A verb without an operand prints [%!v(MISSING)]. *)
Fixpoint Sprintf (format : string) (args : list fmt_arg) : string :=
  match format with
  | EmptyString => EmptyString
  | String "%" (String v rest) =>
      if decide (v = "s"%char ∨ v = "v"%char) then
        match args with
        | a :: args' => fmt_arg_text a +:+ Sprintf rest args'
        | [] => "%!" +:+ String v "(MISSING)" +:+ Sprintf rest []
        end
      else String "%" (String v (Sprintf rest args))
  | String c rest => String c (Sprintf rest args)
  end.

(* ================================================================== *)
(** * google.golang.org/grpc/status *)
(* ================================================================== *)

Module status.

(** [status.Errorf(c, format, a...)]. *)
Definition Errorf (c : codes.Code) (format : string) (a : list fmt_arg) : error :=
  StatusError c (Sprintf format a).

(** [status.Code(err)]: [OK] for [nil], the carried code for a status
    error, [Unknown] for every other error. *)
Definition Code (err : option error) : codes.Code :=
  match err with
  | None => codes.OK
  | Some (StatusError c _) => c
  | Some _ => codes.Unknown
  end.

End status.

(* ================================================================== *)
(** * Go string primitives *)
(* ================================================================== *)

(** Indexing, slicing and searching of Go strings (byte sequences).
    Indices are Go [int]s, hence [Z]; a byte is a [Z] below 256. *)
Module gostring.

Definition byte (c : ascii) : Z := Z.of_N (N_of_ascii c).

(** [len(s)]. *)
Definition len (s : string) : Z := Z.of_nat (String.length s).

Fixpoint nth_byte (n : nat) (s : string) : Z :=
  match s, n with
  | EmptyString, _ => 0
  | String c _, O => byte c
  | String _ s', S n' => nth_byte n' s'
  end.

(** [s[i]], for an index in range (Go panics otherwise; every use below
    is guarded). *)
Definition at_ (s : string) (i : Z) : Z := nth_byte (Z.to_nat i) s.

Fixpoint sdrop (n : nat) (s : string) : string :=
  match n, s with
  | O, _ => s
  | S n', String _ s' => sdrop n' s'
  | S _, EmptyString => EmptyString
  end.

Fixpoint stake (n : nat) (s : string) : string :=
  match n, s with
  | S n', String c s' => String c (stake n' s')
  | _, _ => EmptyString
  end.

(** [s[lo:]], [s[:hi]] and [s[lo:hi]]. *)
Definition from (s : string) (lo : Z) : string := sdrop (Z.to_nat lo) s.
Definition upto (s : string) (hi : Z) : string := stake (Z.to_nat hi) s.
Definition slice (s : string) (lo hi : Z) : string := upto (from s lo) (hi - lo).

(** [len(a)] on a slice. *)
Definition llen {A} (a : list A) : Z := Z.of_nat (length a).

(** [strings.IndexByte(s, c)]: the index of the first [c], or [-1]. *)
Fixpoint IndexByte (s : string) (c : ascii) : Z :=
  match s with
  | EmptyString => -1
  | String a s' =>
      if decide (a = c) then 0
      else let i := IndexByte s' c in if i <? 0 then -1 else i + 1
  end.

(** [strings.LastIndexByte(s, c)]: the index of the last [c], or [-1]. *)
Fixpoint LastIndexByte (s : string) (c : ascii) : Z :=
  match s with
  | EmptyString => -1
  | String a s' =>
      let i := LastIndexByte s' c in
      if 0 <=? i then i + 1 else if decide (a = c) then 0 else -1
  end.

(** [strings.Split(s, sep)] for a one-byte separator. *)
Fixpoint Split_go (cur : string) (s : string) (sep : ascii) : list string :=
  match s with
  | EmptyString => [String.rev cur]
  | String a s' =>
      if decide (a = sep) then String.rev cur :: Split_go EmptyString s' sep
      else Split_go (String a cur) s' sep
  end.

Definition Split (s : string) (sep : ascii) : list string :=
  Split_go EmptyString s sep.

(** [strings.Join(elems, sep)]. *)
Fixpoint Join (elems : list string) (sep : string) : string :=
  match elems with
  | [] => EmptyString
  | [e] => e
  | e :: rest => e +:+ sep +:+ Join rest sep
  end.

End gostring.

(* ================================================================== *)
(** * strconv: [ParseUint] and [ParseInt] *)
(* ================================================================== *)

Module strconv.
Import gostring.

Definition maxUint64 : Z := 2 ^ 64 - 1.
Definition IntSize : Z := 64.

(** Conversions to the fixed-width types, with wrap-around. *)
Definition uint64 (z : Z) : Z := z mod 2 ^ 64.
Definition int64 (z : Z) : Z := (z + 2 ^ 63) mod 2 ^ 64 - 2 ^ 63.
Definition uint8 (z : Z) : Z := z mod 256.

(** [lower(c)] is [c | ('x' - 'X')]. *)
Definition lower (c : Z) : Z := Z.lor c (byte "x" - byte "X").

Definition Itoa (z : Z) : string := NilZero.string_of_int (Z.to_int z).

Definition syntaxError (fn str : string) : error := NumError fn str ErrSyntax.
Definition rangeError (fn str : string) : error := NumError fn str ErrRange.
Definition baseError (fn str : string) (base : Z) : error :=
  ErrorString ("strconv." +:+ fn +:+ ": parsing " +:+ Quote str +:+ ": invalid base " +:+ Itoa base).
Definition bitSizeError (fn str : string) (bitSize : Z) : error :=
  ErrorString ("strconv." +:+ fn +:+ ": parsing " +:+ Quote str +:+ ": invalid bit size " +:+ Itoa bitSize).

(** [underscoreOK(s)]: underscores appear only between digits, or between
    a base prefix and a digit.  [saw] is the class of the last byte. *)
Inductive saw_t := SawStart | SawDigit | SawUnderscore | SawOther.

Fixpoint underscoreOK_loop (hex : bool) (s : string) (saw : saw_t) : bool :=
  match s with
  | EmptyString => negb (if saw is SawUnderscore then true else false)
  | String ch s' =>
      let c := byte ch in
      if ((byte "0" <=? c) && (c <=? byte "9"))
         || (hex && (byte "a" <=? lower c) && (lower c <=? byte "f"))
      then underscoreOK_loop hex s' SawDigit
      else if c =? byte "_" then
        if saw is SawDigit then underscoreOK_loop hex s' SawUnderscore else false
      else if saw is SawUnderscore then false
      else underscoreOK_loop hex s' SawOther
  end.

Definition underscoreOK (s : string) : bool :=
  let s :=
    if (len s >=? 1) && ((at_ s 0 =? byte "-") || (at_ s 0 =? byte "+"))
    then from s 1 else s in
  if (len s >=? 2) && (at_ s 0 =? byte "0")
     && ((lower (at_ s 1) =? byte "b") || (lower (at_ s 1) =? byte "o")
         || (lower (at_ s 1) =? byte "x"))
  then underscoreOK_loop (lower (at_ s 1) =? byte "x") (from s 2) SawDigit
  else underscoreOK_loop false s SawStart.

(** The digit loop of [ParseUint].  [inl] is a [return] from inside the
    loop, [inr (n, underscores)] the state when the loop ends. *)
Fixpoint ParseUint_loop (s0 : string) (base0 : bool) (base cutoff maxVal : Z)
    (s : string) (n : Z) (underscores : bool) : (Z * option error) + (Z * bool) :=
  match s with
  | EmptyString => inr (n, underscores)
  | String ch s' =>
      let c := byte ch in
      if (c =? byte "_") && base0 then
        ParseUint_loop s0 base0 base cutoff maxVal s' n true
      else
        let digit :=
          if (byte "0" <=? c) && (c <=? byte "9") then Some (uint8 (c - byte "0"))
          else if (byte "a" <=? lower c) && (lower c <=? byte "z")
               then Some (uint8 (lower c - byte "a" + 10))
               else None in
        match digit with
        | None => inl (0, Some (syntaxError "ParseUint" s0))
        | Some d =>
            if d >=? uint8 base then inl (0, Some (syntaxError "ParseUint" s0))
            else if n >=? cutoff then inl (maxVal, Some (rangeError "ParseUint" s0))
            else
              let n := uint64 (n * uint64 base) in
              let n1 := uint64 (n + uint64 d) in
              if (n1 <? n) || (n1 >? maxVal)
              then inl (maxVal, Some (rangeError "ParseUint" s0))
              else ParseUint_loop s0 base0 base cutoff maxVal s' n1 underscores
        end
  end.

(** [strconv.ParseUint(s, base, bitSize)]. *)
Definition ParseUint (s : string) (base bitSize : Z) : Z * option error :=
  if decide (s = "") then (0, Some (syntaxError "ParseUint" s)) else
  let base0 := base =? 0 in
  let s0 := s in
  let prefix : option (Z * string) :=
    if (2 <=? base) && (base <=? 36) then Some (base, s)
    else if base =? 0 then
      if at_ s 0 =? byte "0" then
        if (len s >=? 3) && (lower (at_ s 1) =? byte "b") then Some (2, from s 2)
        else if (len s >=? 3) && (lower (at_ s 1) =? byte "o") then Some (8, from s 2)
        else if (len s >=? 3) && (lower (at_ s 1) =? byte "x") then Some (16, from s 2)
        else Some (8, from s 1)
      else Some (10, s)
    else None in
  match prefix with
  | None => (0, Some (baseError "ParseUint" s0 base))
  | Some (base, s) =>
      if (bitSize <? 0) || (bitSize >? 64)
      then (0, Some (bitSizeError "ParseUint" s0 bitSize))
      else
        let bitSize := if bitSize =? 0 then IntSize else bitSize in
        (* the three arms of the cutoff switch compute the same quotient *)
        let cutoff := maxUint64 / uint64 base + 1 in
        let maxVal := uint64 (uint64 (Z.shiftl 1 bitSize) - 1) in
        match ParseUint_loop s0 base0 base cutoff maxVal s 0 false with
        | inl r => r
        | inr (n, underscores) =>
            if underscores && negb (underscoreOK s0)
            then (0, Some (syntaxError "ParseUint" s0))
            else (n, None)
        end
  end.

(** [strconv.ParseInt(s, base, bitSize)]. *)
Definition ParseInt (s : string) (base bitSize : Z) : Z * option error :=
  if decide (s = "") then (0, Some (syntaxError "ParseInt" s)) else
  let s0 := s in
  let '(neg, s) :=
    if at_ s 0 =? byte "+" then (false, from s 1)
    else if at_ s 0 =? byte "-" then (true, from s 1)
    else (false, s) in
  let '(un, err) := ParseUint s base bitSize in
  let early : option error :=
    match err with
    | Some (NumError _ _ e) =>
        if decide (e = ErrRange) then None else Some (NumError "ParseInt" s0 e)
    | Some e => Some e
    | None => None
    end in
  match early with
  | Some e => (0, Some e)
  | None =>
      let bitSize := if bitSize =? 0 then IntSize else bitSize in
      let cutoff := uint64 (Z.shiftl 1 (bitSize - 1)) in
      if negb neg && (un >=? cutoff)
      then (int64 (cutoff - 1), Some (rangeError "ParseInt" s0))
      else if neg && (un >? cutoff)
      then (int64 (- int64 cutoff), Some (rangeError "ParseInt" s0))
      else
        let n := int64 un in
        let n := if neg then int64 (- n) else n in
        (n, None)
  end.

End strconv.

(* ================================================================== *)
(** * net: [SplitHostPort] *)
(* ================================================================== *)

Module net.
Import gostring.

Definition missingPort : string := "missing port in address".
Definition tooManyColons : string := "too many colons in address".

Definition addrErr (addr why : string) : string * string * option error :=
  ("", "", Some (AddrError why addr)).

(** [net.SplitHostPort(hostport)] returns [(host, port, err)]. *)
Definition SplitHostPort (hostport : string) : string * string * option error :=
  (* The port starts after the last colon. *)
  let i := LastIndexByte hostport ":" in
  if i <? 0 then addrErr hostport missingPort else
  let bracketed : (string * string * option error) + (string * Z * Z) :=
    if at_ hostport 0 =? byte "[" then
      (* Expect the first ']' just before the last ':'. *)
      let end_ := IndexByte hostport "]" in
      if end_ <? 0 then inl (addrErr hostport "missing ']' in address")
      else if end_ + 1 =? len hostport then inl (addrErr hostport missingPort)
      else if end_ + 1 =? i then inr (slice hostport 1 end_, 1, end_ + 1)
      else if at_ hostport (end_ + 1) =? byte ":"
           then inl (addrErr hostport tooManyColons)
           else inl (addrErr hostport missingPort)
    else
      let host := upto hostport i in
      if IndexByte host ":" >=? 0 then inl (addrErr hostport tooManyColons)
      else inr (host, 0, 0) in
  match bracketed with
  | inl r => r
  | inr (host, j, k) =>
      if IndexByte (from hostport j) "[" >=? 0
      then addrErr hostport "unexpected '[' in address"
      else if IndexByte (from hostport k) "]" >=? 0
      then addrErr hostport "unexpected ']' in address"
      else (host, from hostport (i + 1), None)
  end.

End net.

(* ================================================================== *)
(** * crypto/tls and google.golang.org/grpc/credentials *)
(* ================================================================== *)

Module tls.
(** The fields of [tls.Config] that the monitor sets.  [RootCAs = None]
    is the nil pool: the host's root CA set is used. *)
Record Config := {
  InsecureSkipVerify : bool;
  ServerName : string;
  RootCAs : option (list string);
}.
End tls.

Module credentials.

Inductive TransportCredentials := tlsCreds (config : tls.Config).

(** [credentials.NewTLS(c)]. *)
Definition NewTLS (c : tls.Config) : TransportCredentials := tlsCreds c.

(** [credentials.NewClientTLSFromCert(cp, serverNameOverride)]. *)
Definition NewClientTLSFromCert (cp : option (list string))
    (serverNameOverride : string) : TransportCredentials :=
  NewTLS {| tls.InsecureSkipVerify := false;
            tls.ServerName := serverNameOverride;
            tls.RootCAs := cp |}.

End credentials.

(* ================================================================== *)
(** * grpc-gateway/utilities: op codes and the double-array trie *)
(* ================================================================== *)

Module utilities.

(** The op codes of the path-template machine. *)
Definition OpNop : Z := 0.
Definition OpPush : Z := 1.
Definition OpLitPush : Z := 2.
Definition OpPushM : Z := 3.
Definition OpConcatN : Z := 4.
Definition OpCapture : Z := 5.

(** A double-array trie over sequences of strings; the gateway uses one
    per endpoint to list the field paths that are bound by the path or
    the body and must not be overwritten from the query string. *)
Record DoubleArray := {
  Encoding : gmap string Z;
  Base : list Z;
  Check : list Z;
}.

(** [a[i]] on a slice of ints ([0] stands for the panic on an index out
    of range; every access below is guarded or lemma-checked). *)
Definition idx (a : list Z) (i : Z) : Z := default 0 (a !! Z.to_nat i).

Fixpoint HasCommonPrefix_walk (da : DoubleArray) (seq : list string) (i : Z) : Z :=
  match seq with
  | [] => i
  | t :: seq' =>
      match Encoding da !! t with
      | None => i
      | Some code =>
          let j := idx (Base da) i + code in
          if (Z.of_nat (length (Check da)) <=? j) || negb (idx (Check da) j =? i + 1)
          then i
          else HasCommonPrefix_walk da seq' j
      end
  end.

(** [da.HasCommonPrefix(seq)]: some sequence registered in [da] is a
    prefix of [seq]. *)
Definition HasCommonPrefix (da : DoubleArray) (seq : list string) : bool :=
  if decide (length (Base da) = 0%nat) then false else
  let i := HasCommonPrefix_walk da seq 0 in
  let j := idx (Base da) i + Z.of_nat (size (Encoding da)) in
  (Z.of_nat (length (Check da)) >? j) && (idx (Check da) j =? i + 1).

End utilities.

(* ================================================================== *)
(** * net/http: the parts of a request the gateway reads *)
(* ================================================================== *)

Module http.
Record Request := {
  Method : string;
  URL_Path : string;
  (** [req.URL.Query()]: keys with their values, in iteration order. *)
  URL_Query : list (string * list string);
  Header : gmap string string;
  Body : string;
}.

Definition StatusBadRequest : Z := 400.
Definition StatusNotFound : Z := 404.
Definition StatusMethodNotAllowed : Z := 405.

Definition StatusText (code : Z) : string :=
  if code =? 400 then "Bad Request"
  else if code =? 404 then "Not Found"
  else if code =? 405 then "Method Not Allowed"
  else "".
End http.

(* ================================================================== *)
(** * grpc-gateway/runtime *)
(* ================================================================== *)

Module runtime.
Import gostring.

Definition ErrInvalidPattern : error := ErrorString "invalid pattern".
Definition ErrNotMatch : error := ErrorString "not match to the path pattern".

Record op := { code : Z; operand : Z }.

(** A compiled path template. *)
Record Pattern := {
  ops : list op;
  pool : list string;
  vars : list string;
  stacksize : Z;
  tailLen : Z;
  verb : string;
}.

(** The local variables of [NewPattern]'s loop. *)
Record compile_state := {
  typedOps : list op;
  stack : Z;
  maxstack : Z;
  cs_tailLen : Z;
  pushMSeen : bool;
  cs_vars : list string;
}.

Definition push_op (o : op) (stack' tail' : Z) (seen' : bool) (vars' : list string)
    (st : compile_state) : compile_state :=
  {| typedOps := typedOps st ++ [o];
     stack := stack';
     maxstack := if maxstack st <? stack' then stack' else maxstack st;
     cs_tailLen := tail';
     pushMSeen := seen';
     cs_vars := vars' |}.

(** One iteration per (code, operand) pair; [None] is the return of
    [ErrInvalidPattern]. *)
Fixpoint NewPattern_loop (ops : list Z) (pool : list string) (st : compile_state)
    : option compile_state :=
  match ops with
  | c :: operand :: rest =>
      let o := {| code := c; operand := operand |} in
      let tail1 := if pushMSeen st then cs_tailLen st + 1 else cs_tailLen st in
      if c =? utilities.OpNop then NewPattern_loop rest pool st
      else if c =? utilities.OpPush then
        NewPattern_loop rest pool
          (push_op o (stack st + 1) tail1 (pushMSeen st) (cs_vars st) st)
      else if c =? utilities.OpPushM then
        if pushMSeen st then None
        else NewPattern_loop rest pool
               (push_op o (stack st + 1) (cs_tailLen st) true (cs_vars st) st)
      else if c =? utilities.OpLitPush then
        if (operand <? 0) || (llen pool <=? operand) then None
        else NewPattern_loop rest pool
               (push_op o (stack st + 1) tail1 (pushMSeen st) (cs_vars st) st)
      else if c =? utilities.OpConcatN then
        if operand <=? 0 then None
        else if stack st - operand <? 0 then None
        else NewPattern_loop rest pool
               (push_op o (stack st - operand + 1) (cs_tailLen st) (pushMSeen st)
                  (cs_vars st) st)
      else if c =? utilities.OpCapture then
        if (operand <? 0) || (llen pool <=? operand) then None
        else
          let v := default "" (pool !! Z.to_nat operand) in
          let o := {| code := c; operand := llen (cs_vars st) |} in
          if stack st - 1 <? 0 then None
          else NewPattern_loop rest pool
                 (push_op o (stack st - 1) (cs_tailLen st) (pushMSeen st)
                    (cs_vars st ++ [v]) st)
      else None
  | _ => Some st
  end.

(** [runtime.NewPattern(version, ops, pool, verb)]. *)
Definition NewPattern (version : Z) (ops : list Z) (pool : list string)
    (verb : string) : option Pattern * option error :=
  if negb (version =? 1) then (None, Some ErrInvalidPattern)
  else if negb (llen ops mod 2 =? 0) then (None, Some ErrInvalidPattern)
  else
    match NewPattern_loop ops pool
            {| typedOps := []; stack := 0; maxstack := 0; cs_tailLen := 0;
               pushMSeen := false; cs_vars := [] |} with
    | None => (None, Some ErrInvalidPattern)
    | Some st =>
        (Some {| ops := typedOps st; pool := pool; vars := cs_vars st;
                 stacksize := maxstack st; tailLen := cs_tailLen st;
                 verb := verb |}, None)
    end.

(** The pattern that no path matches; [MustPattern] returns it where the
    Go function panics.  [patterns_compile] below shows that none of the
    gateway's patterns takes that branch. *)
Definition invalid_pattern : Pattern :=
  {| ops := [ {| code := utilities.OpLitPush; operand := 0 |} ];
     pool := []; vars := []; stacksize := 0; tailLen := 0; verb := "" |}.

(** [runtime.MustPattern(p, err)]. *)
Definition MustPattern (r : option Pattern * option error) : Pattern :=
  match r with
  | (Some p, None) => p
  | _ => invalid_pattern
  end.

(** The local variables of [Match]'s loop. *)
Record match_state := {
  pos : Z;
  mstack : list string;
  captured : list string;
}.

Fixpoint Match_loop (p : Pattern) (components : list string) (os : list op)
    (st : match_state) : option match_state :=
  match os with
  | [] => Some st
  | o :: os' =>
      let l := llen components in
      if code o =? utilities.OpNop then Match_loop p components os' st
      else if (code o =? utilities.OpPush) || (code o =? utilities.OpLitPush) then
        if pos st >=? l then None
        else
          let c := default "" (components !! Z.to_nat (pos st)) in
          if (code o =? utilities.OpLitPush)
             && negb (bool_decide (c = default "" (pool p !! Z.to_nat (operand o))))
          then None
          else Match_loop p components os'
                 {| pos := pos st + 1; mstack := mstack st ++ [c];
                    captured := captured st |}
      else if code o =? utilities.OpPushM then
        let end_ := l in
        if end_ <? pos st + tailLen p then None
        else
          let end_ := end_ - tailLen p in
          let seg := take (Z.to_nat (end_ - pos st)) (drop (Z.to_nat (pos st)) components) in
          Match_loop p components os'
            {| pos := end_; mstack := mstack st ++ [Join seg "/"];
               captured := captured st |}
      else if code o =? utilities.OpConcatN then
        let n := operand o in
        let l' := Z.to_nat (llen (mstack st) - n) in
        Match_loop p components os'
          {| pos := pos st;
             mstack := take l' (mstack st) ++ [Join (drop l' (mstack st)) "/"];
             captured := captured st |}
      else if code o =? utilities.OpCapture then
        let n := (length (mstack st) - 1)%nat in
        Match_loop p components os'
          {| pos := pos st;
             mstack := take n (mstack st);
             captured := <[Z.to_nat (operand o) := default "" (mstack st !! n)]> (captured st) |}
      else Match_loop p components os' st
  end.

(** [for i, val := range captured { bindings[p.vars[i]] = val }]. *)
Definition bindings_of (vars captured : list string) : gmap string string :=
  foldl (λ bindings vc, <[vc.1 := vc.2]> bindings) ∅ (zip vars captured).

(** [p.Match(components, verb)]: the bindings of the template's
    variables, or [ErrNotMatch]. *)
Definition Match (p : Pattern) (components : list string) (verb_ : string)
    : option (gmap string string) * option error :=
  if negb (bool_decide (verb p = verb_)) then (None, Some ErrNotMatch) else
  match Match_loop p components (ops p)
          {| pos := 0; mstack := []; captured := replicate (length (vars p)) "" |} with
  | None => (None, Some ErrNotMatch)
  | Some st =>
      if pos st <? llen components then (None, Some ErrNotMatch)
      else (Some (bindings_of (vars p) (captured st)), None)
  end.

Fixpoint String_loop (p : Pattern) (os : list op) (stack : list string) : list string :=
  match os with
  | [] => stack
  | o :: os' =>
      if code o =? utilities.OpPush then String_loop p os' (stack ++ ["*"])
      else if code o =? utilities.OpLitPush then
        String_loop p os' (stack ++ [default "" (pool p !! Z.to_nat (operand o))])
      else if code o =? utilities.OpPushM then String_loop p os' (stack ++ ["**"])
      else if code o =? utilities.OpConcatN then
        let l := Z.to_nat (llen stack - operand o) in
        String_loop p os' (take l stack ++ [Join (drop l stack) "/"])
      else if code o =? utilities.OpCapture then
        let n := (length stack - 1)%nat in
        String_loop p os'
          (<[n := "{" +:+ default "" (vars p !! Z.to_nat (operand o)) +:+ "="
                   +:+ default "" (stack !! n) +:+ "}"]> stack)
      else String_loop p os' stack
  end.

(** [p.String()]: the template in the syntax of [google.api.http]. *)
Definition Pattern_String (p : Pattern) : string :=
  let segs := Join (String_loop p (ops p) []) "/" in
  if negb (bool_decide (verb p = "")) then "/" +:+ segs +:+ ":" +:+ verb p
  else "/" +:+ segs.

(** ** The request multiplexer *)

Section ServeMux.
(** [W] is what a handler does with its [http.ResponseWriter]. *)
Context {W : Type}.

Definition HandlerFunc : Type := http.Request → gmap string string → W.

Record handler := { pat : Pattern; h : HandlerFunc }.

Record ServeMux := { handlers : gmap string (list handler) }.

Definition NewServeMux : ServeMux := {| handlers := ∅ |}.

(** [s.Handle(meth, pat, h)]:
    [s.handlers[meth] = append(s.handlers[meth], handler{pat, h})]. *)
Definition Handle (s : ServeMux) (meth : string) (pat : Pattern)
    (h : HandlerFunc) : ServeMux :=
  {| handlers :=
       <[meth := (default [] (handlers s !! meth) ++ [{| pat := pat; h := h |}])%list]>
         (handlers s) |}.

(** The first handler of [hs] whose pattern matches, with the bindings. *)
Fixpoint first_match (hs : list handler) (components : list string)
    (verb_ : string) : option (handler * gmap string string) :=
  match hs with
  | [] => None
  | hd :: hs' =>
      match Match (pat hd) components verb_ with
      | (Some pathParams, None) => Some (hd, pathParams)
      | _ => first_match hs' components verb_
      end
  end.

(** [s.ServeHTTP(w, r)] for a request without [X-HTTP-Method-Override]
    that is not a form-encoded POST (the two fallbacks of the library,
    which rewrite the method, are not modelled). *)
Definition ServeHTTP (s : ServeMux) (OtherErrorHandler : string → Z → W)
    (r : http.Request) : W :=
  let path := http.URL_Path r in
  if negb (at_ path 0 =? byte "/") then
    OtherErrorHandler (http.StatusText http.StatusBadRequest) http.StatusBadRequest
  else
    let components := Split (from path 1) "/" in
    let l := length components in
    let last := default "" (components !! (l - 1)%nat) in
    let idx := LastIndexByte last ":" in
    if idx =? 0 then
      OtherErrorHandler (http.StatusText http.StatusNotFound) http.StatusNotFound
    else
      let '(components, verb_) :=
        if idx >? 0
        then (<[(l - 1)%nat := upto last idx]> components, from last (idx + 1))
        else (components, "") in
      match first_match (default [] (handlers s !! http.Method r)) components verb_ with
      | Some (hd, pathParams) => h hd r pathParams
      | None =>
          (* some handler of another method matches *)
          if existsb
               (λ mh, negb (bool_decide (mh.1 = http.Method r))
                      && bool_decide (is_Some (first_match mh.2 components verb_)))
               (map_to_list (handlers s))
          then OtherErrorHandler (http.StatusText http.StatusMethodNotAllowed)
                 http.StatusMethodNotAllowed
          else OtherErrorHandler (http.StatusText http.StatusNotFound)
                 http.StatusNotFound
      end.
End ServeMux.

Arguments HandlerFunc : clear implicits.
Arguments handler : clear implicits.
Arguments ServeMux : clear implicits.

(** ** Query parameters *)

(** A protocol-buffer message that can be filled by field path: the
    reflective [populateFieldValueFromPath(msg, fieldPath, values)] of
    the library, which depends on the message's declaration. *)
Class ProtoMessage (M : Type) := {
  populateFieldValueFromPath : M → list string → list string → M * option error;
}.

(** [runtime.PopulateQueryParameters(msg, values, filter)]: every query
    key whose field path is not covered by [filter] is stored into
    [msg]; the first failure is returned. *)
Fixpoint PopulateQueryParameters `{ProtoMessage M} (msg : M)
    (values : list (string * list string)) (filter : utilities.DoubleArray)
    : M * option error :=
  match values with
  | [] => (msg, None)
  | (key, vals) :: rest =>
      let fieldPath := Split key "." in
      if utilities.HasCommonPrefix filter fieldPath
      then PopulateQueryParameters msg rest filter
      else
        match populateFieldValueFromPath msg fieldPath vals with
        | (msg, Some err) => (msg, Some err)
        | (msg, None) => PopulateQueryParameters msg rest filter
        end
  end.

(** Metadata sent back by the backend. *)
Definition MD : Type := list (string * list string).

Record ServerMetadata := { HeaderMD : MD; TrailerMD : MD }.

(** ** Converters of path parameters *)

(** [runtime.Int64(val)] and [runtime.String(val)]. *)
Definition Int64 (val : string) : Z * option error := strconv.ParseInt val 0 64.
Definition String (val : string) : string * option error := (val, None).

End runtime.

(* ================================================================== *)
(** * context *)
(* ================================================================== *)

Module context.

(** A [context.Context] is named by its place in the tree of contexts:
    [Background] is the root, and the [k]-th context derived from
    [parent] (by [WithCancel], [WithTimeout] and the like) extends the
    path of [parent]. *)
Definition Context : Type := list nat.

Definition Background : Context := [].

Definition derive (parent : Context) (k : nat) : Context := (parent ++ [k])%list.

(** [c] is [ctx] or derived from it: when [ctx] is done, so is [c]. *)
Definition under (ctx c : Context) : bool := bool_decide (ctx `prefix_of` c).

End context.

(* ================================================================== *)
(** * google.golang.org/grpc: client connections *)
(* ================================================================== *)

Module grpc.

Inductive ConnState := Open | Shutdown.

#[global] Instance ConnState_eq_dec : EqDecision ConnState.
Proof. solve_decision. Defined.

(** A [*grpc.ClientConn] is a reference into the store of connections. *)
Definition ClientConn : Type := nat.

(** A goroutine parked on [<-ctx.Done()] that will close [conn]. *)
Record waiter := {
  w_ctx : context.Context;
  w_conn : ClientConn;
  w_endpoint : string;
}.

(** The part of the process state that dialling, closing and the
    parked goroutines act on. *)
Record World := {
  conns : gmap nat ConnState;
  parked : list waiter;
  grpclog : list string;
}.

Definition fresh (w : World) : nat := fresh (dom (conns w)).

Inductive DialOption :=
| WithTransportCredentials (creds : credentials.TransportCredentials)
| WithInsecure.

(** [grpc.Dial(target, opts...)]: [dial_err] says which targets and
    options the dialler refuses. *)
Definition Dial (dial_err : string → list DialOption → option error)
    (endpoint : string) (opts : list DialOption) (w : World)
    : option ClientConn * option error * World :=
  match dial_err endpoint opts with
  | Some e => (None, Some e, w)
  | None =>
      let c := fresh w in
      (Some c, None,
       {| conns := <[c := Open]> (conns w); parked := parked w; grpclog := grpclog w |})
  end.

(** [conn.Close()]: tears the connection down; a second call returns
    [ErrClientConnClosing]. *)
Definition Close (conn : ClientConn) (w : World) : option error * World :=
  match conns w !! conn with
  | Some Open =>
      (None, {| conns := <[conn := Shutdown]> (conns w); parked := parked w;
                grpclog := grpclog w |})
  | _ => (Some ErrClientConnClosing, w)
  end.

(** [grpclog.Printf(format, args...)]. *)
Definition Printf (format : string) (args : list fmt_arg) (w : World) : World :=
  {| conns := conns w; parked := parked w;
     grpclog := (grpclog w ++ [Sprintf format args])%list |}.

(** [go func() { <-ctx.Done(); ... conn.Close() ... }()]. *)
Definition park (g : waiter) (w : World) : World :=
  {| conns := conns w; parked := (parked w ++ [g])%list; grpclog := grpclog w |}.

End grpc.

(* ================================================================== *)
(** * Package keytransparency_proto: the generated gateway *)
(* ================================================================== *)

Module keytransparency_proto.
Import gostring.

(** ** Request messages

    The fields are those the gateway assigns; the full declarations are
    in the generated [.pb.go], and whatever else they hold is reached
    only through [runtime.populateFieldValueFromPath]. *)

Module GetDomainRequest.
Record t := { DomainId : string }.
Definition zero : t := {| DomainId := "" |}.
End GetDomainRequest.

Module GetEpochRequest.
Record t := { DomainId : string; Epoch : Z }.
Definition zero : t := {| DomainId := ""; Epoch := 0 |}.
End GetEpochRequest.

Module GetLatestEpochRequest.
Record t := { DomainId : string }.
Definition zero : t := {| DomainId := "" |}.
End GetLatestEpochRequest.

Module ListMutationsRequest.
Record t := { DomainId : string; Epoch : Z }.
Definition zero : t := {| DomainId := ""; Epoch := 0 |}.
End ListMutationsRequest.

Module GetEntryRequest.
Record t := { DomainId : string; AppId : string; UserId : string }.
Definition zero : t := {| DomainId := ""; AppId := ""; UserId := "" |}.
End GetEntryRequest.

Module ListEntryHistoryRequest.
Record t := { DomainId : string; AppId : string; UserId : string }.
Definition zero : t := {| DomainId := ""; AppId := ""; UserId := "" |}.
End ListEntryHistoryRequest.

Module UpdateEntryRequest.
Record t (EntryUpdate : Type) := {
  DomainId : string; AppId : string; UserId : string;
  EntryUpdate_ : option EntryUpdate;
}.
Arguments DomainId {_}. Arguments AppId {_}. Arguments UserId {_}.
Arguments EntryUpdate_ {_}. Arguments Build_t {_}.
Definition zero {EntryUpdate} : t EntryUpdate :=
  {| DomainId := ""; AppId := ""; UserId := ""; EntryUpdate_ := None |}.
End UpdateEntryRequest.

(** ** The filters of query parameters *)

Definition filter_KeyTransparency_GetDomain_0 : utilities.DoubleArray :=
  {| utilities.Encoding := list_to_map [("domain_id", 0)];
     utilities.Base := [1; 1; 0]; utilities.Check := [0; 1; 2] |}.

Definition filter_KeyTransparency_GetEpoch_0 : utilities.DoubleArray :=
  {| utilities.Encoding := list_to_map [("domain_id", 0); ("epoch", 1)];
     utilities.Base := [1; 1; 2; 0; 0]; utilities.Check := [0; 1; 1; 2; 3] |}.

Definition filter_KeyTransparency_GetLatestEpoch_0 : utilities.DoubleArray :=
  {| utilities.Encoding := list_to_map [("domain_id", 0)];
     utilities.Base := [1; 1; 0]; utilities.Check := [0; 1; 2] |}.

Definition filter_KeyTransparency_GetEpochStream_0 : utilities.DoubleArray :=
  {| utilities.Encoding := list_to_map [("domain_id", 0)];
     utilities.Base := [1; 1; 0]; utilities.Check := [0; 1; 2] |}.

Definition filter_KeyTransparency_ListMutations_0 : utilities.DoubleArray :=
  {| utilities.Encoding := list_to_map [("domain_id", 0); ("epoch", 1)];
     utilities.Base := [1; 1; 2; 0; 0]; utilities.Check := [0; 1; 1; 2; 3] |}.

Definition filter_KeyTransparency_ListMutationsStream_0 : utilities.DoubleArray :=
  {| utilities.Encoding := list_to_map [("domain_id", 0); ("epoch", 1)];
     utilities.Base := [1; 1; 2; 0; 0]; utilities.Check := [0; 1; 1; 2; 3] |}.

Definition filter_KeyTransparency_GetEntry_0 : utilities.DoubleArray :=
  {| utilities.Encoding := list_to_map [("domain_id", 0); ("app_id", 1); ("user_id", 2)];
     utilities.Base := [1; 1; 2; 3; 0; 0; 0];
     utilities.Check := [0; 1; 1; 1; 2; 3; 4] |}.

Definition filter_KeyTransparency_ListEntryHistory_0 : utilities.DoubleArray :=
  {| utilities.Encoding := list_to_map [("domain_id", 0); ("app_id", 1); ("user_id", 2)];
     utilities.Base := [1; 1; 2; 3; 0; 0; 0];
     utilities.Check := [0; 1; 1; 1; 2; 3; 4] |}.

Definition filter_KeyTransparency_UpdateEntry_0 : utilities.DoubleArray :=
  {| utilities.Encoding :=
       list_to_map [("entry_update", 0); ("domain_id", 1); ("app_id", 2); ("user_id", 3)];
     utilities.Base := [1; 1; 2; 3; 4; 0; 0; 0; 0];
     utilities.Check := [0; 1; 1; 1; 1; 2; 3; 4; 5] |}.

(** ** The path templates *)

Definition pattern_KeyTransparency_GetDomain_0 : runtime.Pattern :=
  runtime.MustPattern (runtime.NewPattern 1 [2; 0; 2; 1; 1; 0; 4; 1; 5; 2]
    ["v1"; "domains"; "domain_id"] "").

Definition pattern_KeyTransparency_GetEpoch_0 : runtime.Pattern :=
  runtime.MustPattern (runtime.NewPattern 1
    [2; 0; 2; 1; 1; 0; 4; 1; 5; 2; 2; 3; 1; 0; 4; 1; 5; 4]
    ["v1"; "domains"; "domain_id"; "epochs"; "epoch"] "").

Definition pattern_KeyTransparency_GetLatestEpoch_0 : runtime.Pattern :=
  runtime.MustPattern (runtime.NewPattern 1 [2; 0; 2; 1; 1; 0; 4; 1; 5; 2; 2; 3]
    ["v1"; "domains"; "domain_id"; "epochs"] "latest").

Definition pattern_KeyTransparency_GetEpochStream_0 : runtime.Pattern :=
  runtime.MustPattern (runtime.NewPattern 1 [2; 0; 2; 1; 1; 0; 4; 1; 5; 2; 2; 3]
    ["v1"; "domains"; "domain_id"; "epochs"] "stream").

Definition pattern_KeyTransparency_ListMutations_0 : runtime.Pattern :=
  runtime.MustPattern (runtime.NewPattern 1
    [2; 0; 2; 1; 1; 0; 4; 1; 5; 2; 2; 3; 1; 0; 4; 1; 5; 4; 2; 5]
    ["v1"; "domains"; "domain_id"; "epochs"; "epoch"; "mutations"] "").

Definition pattern_KeyTransparency_ListMutationsStream_0 : runtime.Pattern :=
  runtime.MustPattern (runtime.NewPattern 1
    [2; 0; 2; 1; 1; 0; 4; 1; 5; 2; 2; 3; 1; 0; 4; 1; 5; 4; 2; 5]
    ["v1"; "domains"; "domain_id"; "epochs"; "epoch"; "mutations"] "stream").

Definition pattern_KeyTransparency_GetEntry_0 : runtime.Pattern :=
  runtime.MustPattern (runtime.NewPattern 1
    [2; 0; 2; 1; 1; 0; 4; 1; 5; 2; 2; 3; 1; 0; 4; 1; 5; 4; 2; 5; 1; 0; 4; 1; 5; 6]
    ["v1"; "domains"; "domain_id"; "apps"; "app_id"; "users"; "user_id"] "").

Definition pattern_KeyTransparency_ListEntryHistory_0 : runtime.Pattern :=
  runtime.MustPattern (runtime.NewPattern 1
    [2; 0; 2; 1; 1; 0; 4; 1; 5; 2; 2; 3; 1; 0; 4; 1; 5; 4; 2; 5; 1; 0; 4; 1; 5; 6; 2; 7]
    ["v1"; "domains"; "domain_id"; "apps"; "app_id"; "users"; "user_id"; "history"] "").

Definition pattern_KeyTransparency_UpdateEntry_0 : runtime.Pattern :=
  runtime.MustPattern (runtime.NewPattern 1
    [2; 0; 2; 1; 1; 0; 4; 1; 5; 2; 2; 3; 1; 0; 4; 1; 5; 4; 2; 5; 1; 0; 4; 1; 5; 6]
    ["v1"; "domains"; "domain_id"; "apps"; "app_id"; "users"; "user_id"] "").

(** ** The backend client and the effects of a handler *)

Section Gateway.
(** [EntryUpdate] is the message type of the [entry_update] field,
    [Message] stands for the response messages ([proto.Message]). *)
Context {EntryUpdate Message : Type}.

(** The reply to a unary call: the message, the header and trailer
    metadata written through [grpc.Header] and [grpc.Trailer], and the
    error. *)
Record UnaryReply := {
  msg : option Message;
  header : runtime.MD;
  trailer : runtime.MD;
  err : option error;
}.

(** A server stream as the client sees it. *)
Record ClientStream := {
  Header : runtime.MD * option error;
  Recv : nat → option Message * option error;
}.

Abbreviation UpdateEntryRequest_t := (UpdateEntryRequest.t EntryUpdate).

(** The interface [KeyTransparencyClient]. *)
Record KeyTransparencyClient := {
  GetDomain : GetDomainRequest.t → UnaryReply;
  GetEpoch : GetEpochRequest.t → UnaryReply;
  GetLatestEpoch : GetLatestEpochRequest.t → UnaryReply;
  GetEpochStream : GetEpochRequest.t → option ClientStream * option error;
  ListMutations : ListMutationsRequest.t → UnaryReply;
  ListMutationsStream : ListMutationsRequest.t → option ClientStream * option error;
  GetEntry : GetEntryRequest.t → UnaryReply;
  ListEntryHistory : ListEntryHistoryRequest.t → UnaryReply;
  UpdateEntry : UpdateEntryRequest_t → UnaryReply;
}.

(** A request that was sent to the backend. *)
Inductive ClientCall :=
| CallGetDomain (r : GetDomainRequest.t)
| CallGetEpoch (r : GetEpochRequest.t)
| CallGetLatestEpoch (r : GetLatestEpochRequest.t)
| CallGetEpochStream (r : GetEpochRequest.t)
| CallListMutations (r : ListMutationsRequest.t)
| CallListMutationsStream (r : ListMutationsRequest.t)
| CallGetEntry (r : GetEntryRequest.t)
| CallListEntryHistory (r : ListEntryHistoryRequest.t)
| CallUpdateEntry (r : UpdateEntryRequest_t).

(** Handlers run in a state monad over the log of backend calls. *)
Definition M (A : Type) : Type := list ClientCall → A * list ClientCall.

Definition ret {A} (a : A) : M A := λ log, (a, log).

Definition bind {A B} (m : M A) (k : A → M B) : M B :=
  λ log, let '(a, log') := m log in k a log'.

(** Calling a method of the client records the request. *)
Definition invoke {R} (c : ClientCall) (reply : R) : M R :=
  λ log, (reply, (log ++ [c])%list).

(** The interface [runtime.Marshaler], reduced to what the gateway
    uses: [NewDecoder(body).Decode(&v)] on an [EntryUpdate] returns the
    value stored in [v] and the error. *)
Record Marshaler := {
  Decode : string → option EntryUpdate * option error;
}.

(** The instances of [ProtoMessage], one per request type. *)
Context `{!runtime.ProtoMessage GetDomainRequest.t,
          !runtime.ProtoMessage GetEpochRequest.t,
          !runtime.ProtoMessage GetLatestEpochRequest.t,
          !runtime.ProtoMessage ListMutationsRequest.t,
          !runtime.ProtoMessage GetEntryRequest.t,
          !runtime.ProtoMessage ListEntryHistoryRequest.t,
          !runtime.ProtoMessage UpdateEntryRequest_t}.

Definition metadata0 : runtime.ServerMetadata :=
  {| runtime.HeaderMD := []; runtime.TrailerMD := [] |}.

(** What a request function returns. *)
Definition Result (R : Type) : Type := option R * runtime.ServerMetadata * option error.

(** [val, ok = pathParams[name]; if !ok { return ... "missing parameter" }]. *)
Definition param {R} (pathParams : gmap string string) (name : string)
    (metadata : runtime.ServerMetadata) : Result R + string :=
  match pathParams !! name with
  | None =>
      inl (None, metadata,
           Some (status.Errorf codes.InvalidArgument "missing parameter %s" [ArgS name]))
  | Some val => inr val
  end.

(** [if err != nil { return ... "type mismatch" }] after a conversion. *)
Definition converted {R A} (name : string) (metadata : runtime.ServerMetadata)
    (r : A * option error) : Result R + A :=
  match r with
  | (_, Some err) =>
      inl (None, metadata,
           Some (status.Errorf codes.InvalidArgument
                   "type mismatch, parameter: %s, error: %v" [ArgS name; ArgE err]))
  | (v, None) => inr v
  end.

(** [if err := ...; err != nil { return nil, metadata, status.Errorf(codes.InvalidArgument, "%v", err) }]. *)
Definition checked {R A} (metadata : runtime.ServerMetadata)
    (r : A * option error) : Result R + A :=
  match r with
  | (_, Some err) =>
      inl (None, metadata, Some (status.Errorf codes.InvalidArgument "%v" [ArgE err]))
  | (v, None) => inr v
  end.

Notation "'let?' x := e 'in' k" := (match e with inl r => inl r | inr x => k end)
  (at level 10, x name, e at level 200, k at level 200, only parsing).

(** The last two lines of a unary request function. *)
Definition unary (c : ClientCall) (reply : UnaryReply) : M (Result Message) :=
  bind (invoke c reply) (λ reply,
    ret (msg reply,
         {| runtime.HeaderMD := header reply; runtime.TrailerMD := trailer reply |},
         err reply)).

(** The tail of a streaming request function. *)
Definition streaming (c : ClientCall) (reply : option ClientStream * option error)
    (metadata : runtime.ServerMetadata) : M (Result ClientStream) :=
  bind (invoke c reply) (λ reply,
    match reply with
    | (_, Some err) => ret (None, metadata, Some err)
    | (None, None) => ret (None, metadata, None)
    | (Some stream, None) =>
        match Header stream with
        | (_, Some err) => ret (None, metadata, Some err)
        | (header, None) =>
            ret (Some stream,
                 {| runtime.HeaderMD := header;
                    runtime.TrailerMD := runtime.TrailerMD metadata |},
                 None)
        end
    end).

(** Runs the client call of a request function unless it returned
    before. *)
Definition finish {P R} (prelude : Result R + P) (call : P → M (Result R)) : M (Result R) :=
  match prelude with
  | inl r => ret r
  | inr protoReq => call protoReq
  end.

Definition request_KeyTransparency_GetDomain_0 (marshaler : Marshaler)
    (client : KeyTransparencyClient) (req : http.Request)
    (pathParams : gmap string string) : M (Result Message) :=
  let metadata := metadata0 in
  finish
    (let? val := param pathParams "domain_id" metadata in
     let? DomainId := converted "domain_id" metadata (runtime.String val) in
     let protoReq := {| GetDomainRequest.DomainId := DomainId |} in
     let? protoReq := checked metadata
       (runtime.PopulateQueryParameters protoReq (http.URL_Query req)
          filter_KeyTransparency_GetDomain_0) in
     inr protoReq)
    (λ protoReq, unary (CallGetDomain protoReq) (GetDomain client protoReq)).

Definition request_KeyTransparency_GetEpoch_0 (marshaler : Marshaler)
    (client : KeyTransparencyClient) (req : http.Request)
    (pathParams : gmap string string) : M (Result Message) :=
  let metadata := metadata0 in
  finish
    (let? val := param pathParams "domain_id" metadata in
     let? DomainId := converted "domain_id" metadata (runtime.String val) in
     let? val := param pathParams "epoch" metadata in
     let? Epoch := converted "epoch" metadata (runtime.Int64 val) in
     let protoReq :=
       {| GetEpochRequest.DomainId := DomainId; GetEpochRequest.Epoch := Epoch |} in
     let? protoReq := checked metadata
       (runtime.PopulateQueryParameters protoReq (http.URL_Query req)
          filter_KeyTransparency_GetEpoch_0) in
     inr protoReq)
    (λ protoReq, unary (CallGetEpoch protoReq) (GetEpoch client protoReq)).

Definition request_KeyTransparency_GetLatestEpoch_0 (marshaler : Marshaler)
    (client : KeyTransparencyClient) (req : http.Request)
    (pathParams : gmap string string) : M (Result Message) :=
  let metadata := metadata0 in
  finish
    (let? val := param pathParams "domain_id" metadata in
     let? DomainId := converted "domain_id" metadata (runtime.String val) in
     let protoReq := {| GetLatestEpochRequest.DomainId := DomainId |} in
     let? protoReq := checked metadata
       (runtime.PopulateQueryParameters protoReq (http.URL_Query req)
          filter_KeyTransparency_GetLatestEpoch_0) in
     inr protoReq)
    (λ protoReq, unary (CallGetLatestEpoch protoReq) (GetLatestEpoch client protoReq)).

Definition request_KeyTransparency_GetEpochStream_0 (marshaler : Marshaler)
    (client : KeyTransparencyClient) (req : http.Request)
    (pathParams : gmap string string) : M (Result ClientStream) :=
  let metadata := metadata0 in
  finish
    (let? val := param pathParams "domain_id" metadata in
     let? DomainId := converted "domain_id" metadata (runtime.String val) in
     let protoReq :=
       {| GetEpochRequest.DomainId := DomainId;
          GetEpochRequest.Epoch := GetEpochRequest.Epoch GetEpochRequest.zero |} in
     let? protoReq := checked metadata
       (runtime.PopulateQueryParameters protoReq (http.URL_Query req)
          filter_KeyTransparency_GetEpochStream_0) in
     inr protoReq)
    (λ protoReq,
       streaming (CallGetEpochStream protoReq) (GetEpochStream client protoReq) metadata).

Definition request_KeyTransparency_ListMutations_0 (marshaler : Marshaler)
    (client : KeyTransparencyClient) (req : http.Request)
    (pathParams : gmap string string) : M (Result Message) :=
  let metadata := metadata0 in
  finish
    (let? val := param pathParams "domain_id" metadata in
     let? DomainId := converted "domain_id" metadata (runtime.String val) in
     let? val := param pathParams "epoch" metadata in
     let? Epoch := converted "epoch" metadata (runtime.Int64 val) in
     let protoReq :=
       {| ListMutationsRequest.DomainId := DomainId;
          ListMutationsRequest.Epoch := Epoch |} in
     let? protoReq := checked metadata
       (runtime.PopulateQueryParameters protoReq (http.URL_Query req)
          filter_KeyTransparency_ListMutations_0) in
     inr protoReq)
    (λ protoReq, unary (CallListMutations protoReq) (ListMutations client protoReq)).

Definition request_KeyTransparency_ListMutationsStream_0 (marshaler : Marshaler)
    (client : KeyTransparencyClient) (req : http.Request)
    (pathParams : gmap string string) : M (Result ClientStream) :=
  let metadata := metadata0 in
  finish
    (let? val := param pathParams "domain_id" metadata in
     let? DomainId := converted "domain_id" metadata (runtime.String val) in
     let? val := param pathParams "epoch" metadata in
     let? Epoch := converted "epoch" metadata (runtime.Int64 val) in
     let protoReq :=
       {| ListMutationsRequest.DomainId := DomainId;
          ListMutationsRequest.Epoch := Epoch |} in
     let? protoReq := checked metadata
       (runtime.PopulateQueryParameters protoReq (http.URL_Query req)
          filter_KeyTransparency_ListMutationsStream_0) in
     inr protoReq)
    (λ protoReq,
       streaming (CallListMutationsStream protoReq)
         (ListMutationsStream client protoReq) metadata).

Definition request_KeyTransparency_GetEntry_0 (marshaler : Marshaler)
    (client : KeyTransparencyClient) (req : http.Request)
    (pathParams : gmap string string) : M (Result Message) :=
  let metadata := metadata0 in
  finish
    (let? val := param pathParams "domain_id" metadata in
     let? DomainId := converted "domain_id" metadata (runtime.String val) in
     let? val := param pathParams "app_id" metadata in
     let? AppId := converted "app_id" metadata (runtime.String val) in
     let? val := param pathParams "user_id" metadata in
     let? UserId := converted "user_id" metadata (runtime.String val) in
     let protoReq :=
       {| GetEntryRequest.DomainId := DomainId; GetEntryRequest.AppId := AppId;
          GetEntryRequest.UserId := UserId |} in
     let? protoReq := checked metadata
       (runtime.PopulateQueryParameters protoReq (http.URL_Query req)
          filter_KeyTransparency_GetEntry_0) in
     inr protoReq)
    (λ protoReq, unary (CallGetEntry protoReq) (GetEntry client protoReq)).

Definition request_KeyTransparency_ListEntryHistory_0 (marshaler : Marshaler)
    (client : KeyTransparencyClient) (req : http.Request)
    (pathParams : gmap string string) : M (Result Message) :=
  let metadata := metadata0 in
  finish
    (let? val := param pathParams "domain_id" metadata in
     let? DomainId := converted "domain_id" metadata (runtime.String val) in
     let? val := param pathParams "app_id" metadata in
     let? AppId := converted "app_id" metadata (runtime.String val) in
     let? val := param pathParams "user_id" metadata in
     let? UserId := converted "user_id" metadata (runtime.String val) in
     let protoReq :=
       {| ListEntryHistoryRequest.DomainId := DomainId;
          ListEntryHistoryRequest.AppId := AppId;
          ListEntryHistoryRequest.UserId := UserId |} in
     let? protoReq := checked metadata
       (runtime.PopulateQueryParameters protoReq (http.URL_Query req)
          filter_KeyTransparency_ListEntryHistory_0) in
     inr protoReq)
    (λ protoReq, unary (CallListEntryHistory protoReq) (ListEntryHistory client protoReq)).

Definition request_KeyTransparency_UpdateEntry_0 (marshaler : Marshaler)
    (client : KeyTransparencyClient) (req : http.Request)
    (pathParams : gmap string string) : M (Result Message) :=
  let metadata := metadata0 in
  finish
    (let? EntryUpdate_ := checked metadata (Decode marshaler (http.Body req)) in
     let? val := param pathParams "domain_id" metadata in
     let? DomainId := converted "domain_id" metadata (runtime.String val) in
     let? val := param pathParams "app_id" metadata in
     let? AppId := converted "app_id" metadata (runtime.String val) in
     let? val := param pathParams "user_id" metadata in
     let? UserId := converted "user_id" metadata (runtime.String val) in
     let protoReq :=
       {| UpdateEntryRequest.DomainId := DomainId;
          UpdateEntryRequest.AppId := AppId;
          UpdateEntryRequest.UserId := UserId;
          UpdateEntryRequest.EntryUpdate_ := EntryUpdate_ |} in
     let? protoReq := checked metadata
       (runtime.PopulateQueryParameters protoReq (http.URL_Query req)
          filter_KeyTransparency_UpdateEntry_0) in
     inr protoReq)
    (λ protoReq, unary (CallUpdateEntry protoReq) (UpdateEntry client protoReq)).

(** ** Handlers *)

(** What a handler writes: [runtime.HTTPError] with the error, one of
    the two forwarders with the response, or the multiplexer's own
    plain-text error.  The metadata is the one put into the context by
    [runtime.NewServerMetadataContext]. *)
Inductive HTTPResponse :=
| HTTPError (md : option runtime.ServerMetadata) (err : error)
| ForwardResponseMessage (md : runtime.ServerMetadata) (resp : option Message)
| ForwardResponseStream (md : runtime.ServerMetadata) (resp : option ClientStream)
| OtherError (msg : string) (code : Z).

Definition forward_KeyTransparency_GetDomain_0 := ForwardResponseMessage.
Definition forward_KeyTransparency_GetEpoch_0 := ForwardResponseMessage.
Definition forward_KeyTransparency_GetLatestEpoch_0 := ForwardResponseMessage.
Definition forward_KeyTransparency_GetEpochStream_0 := ForwardResponseStream.
Definition forward_KeyTransparency_ListMutations_0 := ForwardResponseMessage.
Definition forward_KeyTransparency_ListMutationsStream_0 := ForwardResponseStream.
Definition forward_KeyTransparency_GetEntry_0 := ForwardResponseMessage.
Definition forward_KeyTransparency_ListEntryHistory_0 := ForwardResponseMessage.
Definition forward_KeyTransparency_UpdateEntry_0 := ForwardResponseMessage.

(** The two library calls at the head of every handler:
    [runtime.MarshalerForRequest(mux, req)] gives the inbound and the
    outbound marshaler, [runtime.AnnotateContext(ctx, mux, req)] may
    refuse the request. *)
Context (MarshalerForRequest : http.Request → Marshaler * Marshaler)
        (AnnotateContext : http.Request → option error).

(** The body shared by the nine closures of
    [RegisterKeyTransparencyHandlerClient] (cancellation on a closed
    connection has no counterpart here). *)
Definition handler_body {R}
    (request : Marshaler → KeyTransparencyClient → http.Request →
               gmap string string → M (Result R))
    (forward : runtime.ServerMetadata → option R → HTTPResponse)
    (client : KeyTransparencyClient)
    : runtime.HandlerFunc (M HTTPResponse) :=
  λ req pathParams,
    let '(inboundMarshaler, outboundMarshaler) := MarshalerForRequest req in
    match AnnotateContext req with
    | Some err => ret (HTTPError None err)
    | None =>
        bind (request inboundMarshaler client req pathParams) (λ r,
          let '(resp, md, err) := r in
          match err with
          | Some err => ret (HTTPError (Some md) err)
          | None => ret (forward md resp)
          end)
    end.

Abbreviation Mux := (runtime.ServeMux (M HTTPResponse)).

(** [RegisterKeyTransparencyHandlerClient(ctx, mux, client)]. *)
Definition RegisterKeyTransparencyHandlerClient (mux : Mux)
    (client : KeyTransparencyClient) : Mux * option error :=
  let mux := runtime.Handle mux "GET" pattern_KeyTransparency_GetDomain_0
    (handler_body request_KeyTransparency_GetDomain_0
       forward_KeyTransparency_GetDomain_0 client) in
  let mux := runtime.Handle mux "GET" pattern_KeyTransparency_GetEpoch_0
    (handler_body request_KeyTransparency_GetEpoch_0
       forward_KeyTransparency_GetEpoch_0 client) in
  let mux := runtime.Handle mux "GET" pattern_KeyTransparency_GetLatestEpoch_0
    (handler_body request_KeyTransparency_GetLatestEpoch_0
       forward_KeyTransparency_GetLatestEpoch_0 client) in
  let mux := runtime.Handle mux "GET" pattern_KeyTransparency_GetEpochStream_0
    (handler_body request_KeyTransparency_GetEpochStream_0
       forward_KeyTransparency_GetEpochStream_0 client) in
  let mux := runtime.Handle mux "GET" pattern_KeyTransparency_ListMutations_0
    (handler_body request_KeyTransparency_ListMutations_0
       forward_KeyTransparency_ListMutations_0 client) in
  let mux := runtime.Handle mux "GET" pattern_KeyTransparency_ListMutationsStream_0
    (handler_body request_KeyTransparency_ListMutationsStream_0
       forward_KeyTransparency_ListMutationsStream_0 client) in
  let mux := runtime.Handle mux "GET" pattern_KeyTransparency_GetEntry_0
    (handler_body request_KeyTransparency_GetEntry_0
       forward_KeyTransparency_GetEntry_0 client) in
  let mux := runtime.Handle mux "GET" pattern_KeyTransparency_ListEntryHistory_0
    (handler_body request_KeyTransparency_ListEntryHistory_0
       forward_KeyTransparency_ListEntryHistory_0 client) in
  let mux := runtime.Handle mux "PUT" pattern_KeyTransparency_UpdateEntry_0
    (handler_body request_KeyTransparency_UpdateEntry_0
       forward_KeyTransparency_UpdateEntry_0 client) in
  (mux, None).

(** [NewKeyTransparencyClient(conn)]: the generated stub over a
    connection. *)
Context (NewKeyTransparencyClient : grpc.ClientConn → KeyTransparencyClient).

(** [RegisterKeyTransparencyHandler(ctx, mux, conn)]. *)
Definition RegisterKeyTransparencyHandler (mux : Mux) (conn : grpc.ClientConn)
    : Mux * option error :=
  RegisterKeyTransparencyHandlerClient mux (NewKeyTransparencyClient conn).

(** [RegisterKeyTransparencyHandlerFromEndpoint(ctx, mux, endpoint, opts)].
    [err] is the named result: the [return] statement assigns it, then
    the deferred function reads it. *)
Definition RegisterKeyTransparencyHandlerFromEndpoint
    (dial_err : string → list grpc.DialOption → option error)
    (ctx : context.Context) (mux : Mux) (endpoint : string)
    (opts : list grpc.DialOption) (w : grpc.World)
    : option error * Mux * grpc.World :=
  match grpc.Dial dial_err endpoint opts w with
  | (_, Some err, w) => (Some err, mux, w)
  | (None, None, w) => (None, mux, w)
  | (Some conn, None, w) =>
      let '(mux, err) := RegisterKeyTransparencyHandler mux conn in
      let w :=
        match err with
        | Some _ =>
            match grpc.Close conn w with
            | (Some cerr, w) =>
                grpc.Printf "Failed to close conn to %s: %v"
                  [ArgS endpoint; ArgE cerr] w
            | (None, w) => w
            end
        | None =>
            grpc.park
              {| grpc.w_ctx := ctx; grpc.w_conn := conn; grpc.w_endpoint := endpoint |} w
        end in
      (err, mux, w)
  end.

End Gateway.

(** [ctx] is done and the goroutines waiting for it see it: those
    parked on [ctx], or on a context derived from it, run in the order
    in which they were parked, each closing its connection and logging a
    failure to close; the goroutines parked on other contexts stay
    parked.  (A goroutine parked on a context that was done before sees
    it at once: the event follows the call that parked it.) *)
Definition ctx_Done (ctx : context.Context) (w : grpc.World) : grpc.World :=
  foldl
    (λ w g,
       match grpc.Close (grpc.w_conn g) w with
       | (Some cerr, w) =>
           grpc.Printf "Failed to close conn to %s: %v"
             [ArgS (grpc.w_endpoint g); ArgE cerr] w
       | (None, w) => w
       end)
    {| grpc.conns := grpc.conns w;
       grpc.parked := List.filter (λ g, negb (context.under ctx (grpc.w_ctx g))) (grpc.parked w);
       grpc.grpclog := grpc.grpclog w |}
    (List.filter (λ g, context.under ctx (grpc.w_ctx g)) (grpc.parked w)).

End keytransparency_proto.

(* ================================================================== *)
(** * time *)
(* ================================================================== *)

Module time.
(** A [time.Duration] is a count of nanoseconds. *)
Definition Nanosecond : Z := 1.
Definition Microsecond : Z := 1000 * Nanosecond.
Definition Millisecond : Z := 1000 * Microsecond.
Definition Second : Z := 1000 * Millisecond.
Definition Minute : Z := 60 * Second.
End time.

(* ================================================================== *)
(** * internal/backoff *)
(* ================================================================== *)

Module backoff.

(** Modelled from the spec: package [internal/backoff] ([Backoff],
    [Duration], [Retry]) is not among the sources, only its caller is.
    The spec's words are: errors of the retried classes are "retried with
    exponential backoff (base 1 ms, factor 1.5, cap 1 s) up to a
    per-operation deadline".  [Min] is the base delay, [Factor] the
    ratio of one delay to the previous one, [Max] the cap; [delta] is
    the current delay less [Min].  [Factor] is a [float64] in the
    caller; it is kept as the rational it denotes, and a product is
    truncated to whole nanoseconds. *)
Record Backoff := {
  Min : Z;
  Max : Z;
  Factor : Q;
  delta : Z;
}.

(** [time.Duration(float64(d) * factor)]. *)
Definition scale (d : Z) (factor : Q) : Z :=
  Z.quot (d * Qnum factor) (Z.pos (Qden factor)).

(** Modelled from the spec: [b.Duration()] returns the delay to wait
    now and steps to the next one, [Factor] times longer and at most
    [Max]. *)
Definition Duration (b : Backoff) : Z * Backoff :=
  let base := Min b + delta b in
  let pause := base in
  let nextPause := scale base (Factor b) in
  let nextPause :=
    if (nextPause >? Max b) || (nextPause <? Min b) then Max b else nextPause in
  (pause, {| Min := Min b; Max := Max b; Factor := Factor b;
             delta := nextPause - Min b |}).

(** Modelled from the spec: the error classes that are "retried with
    backoff" are UNAVAILABLE, DEADLINE and CONFLICT, that is the status
    codes [Unavailable], [DeadlineExceeded] and [Aborted]. *)
Definition transient : list codes.Code :=
  [codes.Unavailable; codes.DeadlineExceeded; codes.Aborted].

(** Modelled from the spec: an error is retried when its status code is
    of a transient class or is one of the further codes that the caller
    hands to [Retry]; [nil] and every other error end the loop. *)
Definition IsRetryable (err : option error) (retry : list codes.Code) : bool :=
  bool_decide (status.Code err ∈ (transient ++ retry)%list).

Section Retry.
(** [St] is the state of the variables captured by the retried
    closure.  One call of the closure takes some time and returns an
    error or [nil]. *)
Context {St : Type}.

Record outcome := {
  err : option error;      (** what [Retry] returns *)
  st : St;                 (** the captured variables afterwards *)
  now : Z;                 (** the time of the return *)
  starts : list Z;         (** the time at which each call of [f] began *)
}.

(** Modelled from the spec: the loop of [Retry].  After a retried
    error the loop waits for the delay or for the deadline of [ctx],
    whichever comes first; at the deadline it returns the error of the
    context. *)
Fixpoint Retry_loop (fuel : nat) (b : Backoff) (deadline : Z)
    (f : St → Z * option error * St) (retry : list codes.Code)
    (s : St) (t : Z) (started : list Z) : option outcome :=
  match fuel with
  | O => None
  | S fuel' =>
      let '(took, e, s) := f s in
      let started := (started ++ [t])%list in
      let t := t + took in
      if negb (IsRetryable e retry)
      then Some {| err := e; st := s; now := t; starts := started |}
      else
        let '(pause, b) := Duration b in
        if t + pause <? deadline
        then Retry_loop fuel' b deadline f retry s (t + pause) started
        else Some {| err := Some ErrDeadlineExceeded; st := s;
                     now := Z.max t deadline; starts := started |}
  end.

(** Modelled from the spec: [b.Retry(ctx, f, retry...)] at time [t],
    where [ctx] expires at [deadline]. *)
Definition Retry (fuel : nat) (b : Backoff) (deadline : Z)
    (f : St → Z * option error * St) (retry : list codes.Code)
    (s : St) (t : Z) : option outcome :=
  if deadline <=? t
  then Some {| err := Some ErrDeadlineExceeded; st := s; now := t; starts := [] |}
  else Retry_loop fuel b deadline f retry s t [].
End Retry.

Arguments outcome : clear implicits.

End backoff.

(* ================================================================== *)
(** * cmd/keytransparency-monitor: package main *)
(* ================================================================== *)

Module monitor_main.

(** The command-line flags that the modelled code reads. *)
Record flags := {
  ktURL : string;
  insecure : bool;
  directoryID : string;
}.

Definition default_flags : flags :=
  {| ktURL := "localhost:443"; insecure := false; directoryID := "" |}.

Record GetDirectoryRequest := { DirectoryId : string }.

Section Main.
(** [Directory] is the message returned by [GetDirectory]. *)
Context {Directory : Type}.

(** The stub [pb.KeyTransparencyClient], reduced to the method the
    start-up code calls: the [n]-th call with a request takes some
    time and returns a directory or an error. *)
Record KeyTransparencyClient := {
  GetDirectory : GetDirectoryRequest → nat → Z * option Directory * option error;
}.

(** The variables captured by the closure handed to [Retry], and
    glog's error log. *)
Record vars := {
  calls : nat;
  config : option Directory;
  glog : list string;
}.

(** [func() (err error) { config, err = ktClient.GetDirectory(...); ... }]. *)
Definition closure (fl : flags) (ktClient : KeyTransparencyClient) (v : vars)
    : Z * option error * vars :=
  let '(took, cfg, err) :=
    GetDirectory ktClient {| DirectoryId := directoryID fl |} (calls v) in
  let log :=
    match err with
    | Some e =>
        (glog v ++ [Sprintf "GetDirectory(%v/%v): %v"
                      [ArgS (ktURL fl); ArgS (directoryID fl); ArgE e]])%list
    | None => glog v
    end in
  (took, err, {| calls := S (calls v); config := cfg; glog := log |}).

(** The backoff of [main]. *)
Definition b : backoff.Backoff :=
  {| backoff.Min := time.Millisecond;
     backoff.Max := time.Second;
     backoff.Factor := Qmake 3 2;
     backoff.delta := 0 |}.

(** The retried first remote call of [main], started at time [t]:
    [cctx] is [ctx] with a timeout of one minute. *)
Definition read_directory (fuel : nat) (fl : flags)
    (ktClient : KeyTransparencyClient) (t : Z) : option (backoff.outcome vars) :=
  let cctx := t + time.Minute in
  backoff.Retry fuel b cctx (closure fl ktClient) [codes.Unavailable]
    {| calls := 0; config := None; glog := [] |} t.

(** What [main] does with the result: [glog.Exitf] on an error. *)
Definition after_read_directory (o : backoff.outcome vars) : string + option Directory :=
  match backoff.err o with
  | Some e => inl (Sprintf "Could not read directory info %v:" [ArgE e])
  | None => inr (config (backoff.st o))
  end.
End Main.

(** [transportCreds(ktURL, insecure)]. *)
Definition transportCreds (ktURL : string) (insecure : bool)
    : option credentials.TransportCredentials * option error :=
  match net.SplitHostPort ktURL with
  | (_, _, Some err) => (None, Some err)
  | (host, _, None) =>
      if insecure then
        (Some (credentials.NewTLS
                 {| tls.InsecureSkipVerify := true; tls.ServerName := "";
                    tls.RootCAs := None |}), None)
      else (Some (credentials.NewClientTLSFromCert None host), None)
  end.

(** [dial(url, insecure)]. *)
Definition dial (dial_err : string → list grpc.DialOption → option error)
    (url : string) (insecure : bool) (w : grpc.World)
    : option grpc.ClientConn * option error * grpc.World :=
  match transportCreds url insecure with
  | (_, Some err) => (None, Some err, w)
  | (None, None) => (None, None, w)
  | (Some tcreds, None) =>
      grpc.Dial dial_err url [grpc.WithTransportCredentials tcreds] w
  end.

End monitor_main.


(* ================================================================== *)
(** * Notions used to state the properties *)
(* ================================================================== *)

Module spec.
Import monitor_main.

(** The backoff after [n] calls of [Duration], and the delay that the
    next call returns. *)
Fixpoint nth_backoff (n : nat) (b : backoff.Backoff) : backoff.Backoff :=
  match n with
  | O => b
  | S n' => nth_backoff n' (backoff.Duration b).2
  end.

Definition pause (n : nat) (b : backoff.Backoff) : Z :=
  (backoff.Duration (nth_backoff n b)).1.

(** The parameters for which the delays are well defined. *)
Definition good (b : backoff.Backoff) : Prop :=
  0 < backoff.Min b ∧ backoff.Min b ≤ backoff.Max b ∧ 0 ≤ backoff.delta b
  ∧ backoff.Min b + backoff.delta b ≤ backoff.Max b.

(** Fuel that suffices for the retry loop of [main]: one iteration per
    millisecond of the minute, and one more. *)
Definition enough : nat := Z.to_nat 60001.

Section Retried.
Context {Directory : Type}.

(** How long the [k]-th call of [GetDirectory] in the retry loop of
    [main] takes, and the error it returns. *)
Definition took (fl : flags) (client : @KeyTransparencyClient Directory) (k : nat) : Z :=
  (GetDirectory client {| DirectoryId := directoryID fl |} k).1.1.

Definition failure (fl : flags) (client : @KeyTransparencyClient Directory) (k : nat)
    : option error :=
  (GetDirectory client {| DirectoryId := directoryID fl |} k).2.



End Retried.

End spec.

Module gateway_spec.
Import keytransparency_proto.

(** The nine methods of the service, as the gateway names them. *)
Inductive endpoint :=
| GetDomain_ | GetEpoch_ | GetLatestEpoch_ | GetEpochStream_ | ListMutations_
| ListMutationsStream_ | GetEntry_ | ListEntryHistory_ | UpdateEntry_.

#[global] Instance endpoint_eq_dec : EqDecision endpoint.
Proof. solve_decision. Defined.

Definition endpoints : list endpoint :=
  [GetDomain_; GetEpoch_; GetLatestEpoch_; GetEpochStream_; ListMutations_;
   ListMutationsStream_; GetEntry_; ListEntryHistory_; UpdateEntry_].

(** The name of the method on the wire. *)
Definition method_name (e : endpoint) : string :=
  match e with
  | GetDomain_ => "GetDomain" | GetEpoch_ => "GetEpoch"
  | GetLatestEpoch_ => "GetLatestEpoch" | GetEpochStream_ => "GetEpochStream"
  | ListMutations_ => "ListMutations"
  | ListMutationsStream_ => "ListMutationsStream" | GetEntry_ => "GetEntry"
  | ListEntryHistory_ => "ListEntryHistory" | UpdateEntry_ => "UpdateEntry"
  end.

(** The path template under which the gateway registers each method. *)
Definition pattern (e : endpoint) : runtime.Pattern :=
  match e with
  | GetDomain_ => pattern_KeyTransparency_GetDomain_0
  | GetEpoch_ => pattern_KeyTransparency_GetEpoch_0
  | GetLatestEpoch_ => pattern_KeyTransparency_GetLatestEpoch_0
  | GetEpochStream_ => pattern_KeyTransparency_GetEpochStream_0
  | ListMutations_ => pattern_KeyTransparency_ListMutations_0
  | ListMutationsStream_ => pattern_KeyTransparency_ListMutationsStream_0
  | GetEntry_ => pattern_KeyTransparency_GetEntry_0
  | ListEntryHistory_ => pattern_KeyTransparency_ListEntryHistory_0
  | UpdateEntry_ => pattern_KeyTransparency_UpdateEntry_0
  end.

(** The path parameters that a request to the endpoint must carry: the
    variables of its template. *)
Definition required (e : endpoint) : list string := runtime.vars (pattern e).

(** The path parameter [name] with text [val] does not convert to the
    type of its field: [epoch] is the one parameter that is not a
    string. *)
Definition conversion_fails (name val : string) : Prop :=
  name = "epoch" ∧ (runtime.Int64 val).2 ≠ None.

Section Outcome.
Context {EntryUpdate Message : Type}
        `{!runtime.ProtoMessage GetDomainRequest.t,
          !runtime.ProtoMessage GetEpochRequest.t,
          !runtime.ProtoMessage GetLatestEpochRequest.t,
          !runtime.ProtoMessage ListMutationsRequest.t,
          !runtime.ProtoMessage GetEntryRequest.t,
          !runtime.ProtoMessage ListEntryHistoryRequest.t,
          !runtime.ProtoMessage (UpdateEntryRequest.t EntryUpdate)}.

Definition outcome {R} (r : @Result R * list (@ClientCall EntryUpdate))
    : option error * list (@ClientCall EntryUpdate) :=
  (r.1.2, r.2).

(** The error returned by the request function of an endpoint, and the
    log of backend calls afterwards. *)
Definition request_outcome (e : endpoint) (marshaler : @Marshaler EntryUpdate)
    (client : @KeyTransparencyClient EntryUpdate Message) (req : http.Request)
    (pathParams : gmap string string) (log : list (@ClientCall EntryUpdate))
    : option error * list (@ClientCall EntryUpdate) :=
  match e with
  | GetDomain_ =>
      outcome (request_KeyTransparency_GetDomain_0 marshaler client req pathParams log)
  | GetEpoch_ =>
      outcome (request_KeyTransparency_GetEpoch_0 marshaler client req pathParams log)
  | GetLatestEpoch_ =>
      outcome (request_KeyTransparency_GetLatestEpoch_0 marshaler client req pathParams log)
  | GetEpochStream_ =>
      outcome (request_KeyTransparency_GetEpochStream_0 marshaler client req pathParams log)
  | ListMutations_ =>
      outcome (request_KeyTransparency_ListMutations_0 marshaler client req pathParams log)
  | ListMutationsStream_ =>
      outcome (request_KeyTransparency_ListMutationsStream_0 marshaler client req
                 pathParams log)
  | GetEntry_ =>
      outcome (request_KeyTransparency_GetEntry_0 marshaler client req pathParams log)
  | ListEntryHistory_ =>
      outcome (request_KeyTransparency_ListEntryHistory_0 marshaler client req
                 pathParams log)
  | UpdateEntry_ =>
      outcome (request_KeyTransparency_UpdateEntry_0 marshaler client req pathParams log)
  end.

(** The method that a backend call belongs to. *)
Definition call_endpoint (c : @ClientCall EntryUpdate) : endpoint :=
  match c with
  | CallGetDomain _ => GetDomain_
  | CallGetEpoch _ => GetEpoch_
  | CallGetLatestEpoch _ => GetLatestEpoch_
  | CallGetEpochStream _ => GetEpochStream_
  | CallListMutations _ => ListMutations_
  | CallListMutationsStream _ => ListMutationsStream_
  | CallGetEntry _ => GetEntry_
  | CallListEntryHistory _ => ListEntryHistory_
  | CallUpdateEntry _ => UpdateEntry_
  end.

(** The messages with which a request function rejects a request
    before it builds the call: a path parameter is missing, [epoch] is
    not an [int64], or (for [UpdateEntry], which reads the body first)
    the body does not decode. *)
Definition rejection_message (e : endpoint) (marshaler : @Marshaler EntryUpdate)
    (req : http.Request) (pathParams : gmap string string) (message : string) : Prop :=
  (∃ name, name ∈ required e ∧ pathParams !! name = None
           ∧ message = "missing parameter " +:+ name)
  ∨ (∃ val err, "epoch" ∈ required e ∧ pathParams !! "epoch" = Some val
                ∧ (runtime.Int64 val).2 = Some err
                ∧ message = "type mismatch, parameter: epoch, error: " +:+ error_Error err)
  ∨ (e = UpdateEntry_
     ∧ ∃ err, (Decode marshaler (http.Body req)).2 = Some err
              ∧ message = error_Error err).

(** What a handler writes for an error [e] of its request function
    that came with the metadata [metadata0], unless
    [runtime.AnnotateContext] has refused the request before. *)
Definition surfaced (AnnotateContext : http.Request → option error)
    (req : http.Request) (e : error) : @HTTPResponse Message :=
  match AnnotateContext req with
  | Some err => HTTPError None err
  | None => HTTPError (Some metadata0) e
  end.

(** The closure that [RegisterKeyTransparencyHandlerClient] registers
    for an endpoint. *)
Definition handler (e : endpoint)
    (MarshalerForRequest : http.Request → @Marshaler EntryUpdate * @Marshaler EntryUpdate)
    (AnnotateContext : http.Request → option error)
    (client : @KeyTransparencyClient EntryUpdate Message)
    : runtime.HandlerFunc (M (@HTTPResponse Message)) :=
  match e with
  | GetDomain_ =>
      handler_body MarshalerForRequest AnnotateContext
        request_KeyTransparency_GetDomain_0 forward_KeyTransparency_GetDomain_0 client
  | GetEpoch_ =>
      handler_body MarshalerForRequest AnnotateContext
        request_KeyTransparency_GetEpoch_0 forward_KeyTransparency_GetEpoch_0 client
  | GetLatestEpoch_ =>
      handler_body MarshalerForRequest AnnotateContext
        request_KeyTransparency_GetLatestEpoch_0
        forward_KeyTransparency_GetLatestEpoch_0 client
  | GetEpochStream_ =>
      handler_body MarshalerForRequest AnnotateContext
        request_KeyTransparency_GetEpochStream_0
        forward_KeyTransparency_GetEpochStream_0 client
  | ListMutations_ =>
      handler_body MarshalerForRequest AnnotateContext
        request_KeyTransparency_ListMutations_0
        forward_KeyTransparency_ListMutations_0 client
  | ListMutationsStream_ =>
      handler_body MarshalerForRequest AnnotateContext
        request_KeyTransparency_ListMutationsStream_0
        forward_KeyTransparency_ListMutationsStream_0 client
  | GetEntry_ =>
      handler_body MarshalerForRequest AnnotateContext
        request_KeyTransparency_GetEntry_0 forward_KeyTransparency_GetEntry_0 client
  | ListEntryHistory_ =>
      handler_body MarshalerForRequest AnnotateContext
        request_KeyTransparency_ListEntryHistory_0
        forward_KeyTransparency_ListEntryHistory_0 client
  | UpdateEntry_ =>
      handler_body MarshalerForRequest AnnotateContext
        request_KeyTransparency_UpdateEntry_0 forward_KeyTransparency_UpdateEntry_0
        client
  end.

(** The multiplexer of a gateway whose only registration is that of
    the Key Transparency service. *)
Definition gateway
    (MarshalerForRequest : http.Request → @Marshaler EntryUpdate * @Marshaler EntryUpdate)
    (AnnotateContext : http.Request → option error)
    (client : @KeyTransparencyClient EntryUpdate Message)
    : runtime.ServeMux (M (@HTTPResponse Message)) :=
  (RegisterKeyTransparencyHandlerClient MarshalerForRequest AnnotateContext
     runtime.NewServeMux client).1.

(** Serving one request on that multiplexer. *)
Definition serve
    (MarshalerForRequest : http.Request → @Marshaler EntryUpdate * @Marshaler EntryUpdate)
    (AnnotateContext : http.Request → option error)
    (client : @KeyTransparencyClient EntryUpdate Message)
    (r : http.Request) : M (@HTTPResponse Message) :=
  runtime.ServeHTTP (gateway MarshalerForRequest AnnotateContext client)
    (λ m c, ret (OtherError m c)) r.
End Outcome.

(** The byte [c] occurs in [s]. *)
Fixpoint has_byte (c : ascii) (s : string) : bool :=
  match s with
  | EmptyString => false
  | String a s' => bool_decide (a = c) || has_byte c s'
  end.

(** A request with the given method, path and body, and nothing else. *)
Definition plain_request (method path body : string) : http.Request :=
  {| http.Method := method; http.URL_Path := path; http.URL_Query := [];
     http.Header := ∅; http.Body := body |}.

End gateway_spec.

(* ================================================================== *)
(** * Decimal numerals and the addresses that split *)
(* ================================================================== *)

Module strconv_spec.

(** The number that the digits [d] denote after the digits read so far
    gave [acc]. *)
Fixpoint uint_val (acc : Z) (d : Decimal.uint) : Z :=
  match d with
  | Decimal.Nil => acc
  | Decimal.D0 l => uint_val (acc * 10 + 0) l
  | Decimal.D1 l => uint_val (acc * 10 + 1) l
  | Decimal.D2 l => uint_val (acc * 10 + 2) l
  | Decimal.D3 l => uint_val (acc * 10 + 3) l
  | Decimal.D4 l => uint_val (acc * 10 + 4) l
  | Decimal.D5 l => uint_val (acc * 10 + 5) l
  | Decimal.D6 l => uint_val (acc * 10 + 6) l
  | Decimal.D7 l => uint_val (acc * 10 + 7) l
  | Decimal.D8 l => uint_val (acc * 10 + 8) l
  | Decimal.D9 l => uint_val (acc * 10 + 9) l
  end.

(** The values of the Go type [int64]. *)
Definition is_int64 (z : Z) : Prop := - 2 ^ 63 ≤ z < 2 ^ 63.

End strconv_spec.

Module net_spec.
Import gateway_spec.

(** The addresses that split: [host:port] with a host and a port free
    of colons and brackets, or [[host]:port] with a host free of
    brackets (it may hold colons, as an IPv6 literal does) and such a
    port. *)
Definition host_port (s host port : string) : Prop :=
  has_byte ":" port = false ∧ has_byte "[" port = false ∧ has_byte "]" port = false
  ∧ has_byte "[" host = false ∧ has_byte "]" host = false
  ∧ ((s = host +:+ String ":" port ∧ has_byte ":" host = false)
     ∨ s = String "[" (host +:+ String "]" (String ":" port))).

End net_spec.

(* ================================================================== *)
(** * Routes, templates and bound fields *)
(* ================================================================== *)

Module route_spec.
Import keytransparency_proto gateway_spec.

(** A segment of a path template: a literal, or a variable given by
    its index among the template's variables. *)
Inductive segment := Literal (s : string) | Param (i : nat).

(** Reads a compiled op list back as a template, for op lists in which
    every variable spans one path component (a push, a concatenation of
    one item and a capture). *)
Fixpoint decompile (pool : list string) (os : list runtime.op) : option (list segment) :=
  match os with
  | [] => Some []
  | o1 :: os1 =>
      if runtime.code o1 =? utilities.OpLitPush then
        match pool !! Z.to_nat (runtime.operand o1), decompile pool os1 with
        | Some s, Some segs => Some (Literal s :: segs)
        | _, _ => None
        end
      else if runtime.code o1 =? utilities.OpPush then
        match os1 with
        | o2 :: o3 :: os3 =>
            if (runtime.code o2 =? utilities.OpConcatN) && (runtime.operand o2 =? 1)
               && (runtime.code o3 =? utilities.OpCapture) && (0 <=? runtime.operand o3)
            then
              match decompile pool os3 with
              | Some segs => Some (Param (Z.to_nat (runtime.operand o3)) :: segs)
              | None => None
              end
            else None
        | _ => None
        end
      else None
  end.

(** Matching a template against path components: the captured values
    and the components left over. *)
Fixpoint walk (segs : list segment) (comps : list string) (cap : list string)
    : option (list string * list string) :=
  match segs, comps with
  | [], _ => Some (cap, comps)
  | Literal s :: segs', c :: comps' =>
      if decide (c = s) then walk segs' comps' cap else None
  | Param i :: segs', c :: comps' => walk segs' comps' (<[i := c]> cap)
  | _ :: _, [] => None
  end.

(** The values of the path parameters of a request. *)
Record ids := { domain : string; app : string; user : string; epoch : string }.

(** The HTTP method of each endpoint. *)
Definition http_method (e : endpoint) : string :=
  match e with UpdateEntry_ => "PUT" | _ => "GET" end.

(** The verb (the part after the last colon) of each endpoint. *)
Definition verb_of (e : endpoint) : string :=
  match e with
  | GetLatestEpoch_ => "latest"
  | GetEpochStream_ | ListMutationsStream_ => "stream"
  | _ => ""
  end.

(** The path components of a request to an endpoint. *)
Definition components (e : endpoint) (v : ids) : list string :=
  match e with
  | GetDomain_ => ["v1"; "domains"; domain v]
  | GetEpoch_ => ["v1"; "domains"; domain v; "epochs"; epoch v]
  | GetLatestEpoch_ | GetEpochStream_ => ["v1"; "domains"; domain v; "epochs"]
  | ListMutations_ | ListMutationsStream_ =>
      ["v1"; "domains"; domain v; "epochs"; epoch v; "mutations"]
  | GetEntry_ | UpdateEntry_ =>
      ["v1"; "domains"; domain v; "apps"; app v; "users"; user v]
  | ListEntryHistory_ =>
      ["v1"; "domains"; domain v; "apps"; app v; "users"; user v; "history"]
  end.

(** The path parameters that a match binds. *)
Definition bindings (e : endpoint) (v : ids) : gmap string string :=
  match e with
  | GetDomain_ | GetLatestEpoch_ | GetEpochStream_ => {["domain_id" := domain v]}
  | GetEpoch_ | ListMutations_ | ListMutationsStream_ =>
      {["domain_id" := domain v; "epoch" := epoch v]}
  | GetEntry_ | ListEntryHistory_ | UpdateEntry_ =>
      {["domain_id" := domain v; "app_id" := app v; "user_id" := user v]}
  end.

(** The URL path of a request to an endpoint. *)
Definition path_of (e : endpoint) (v : ids) : string :=
  match e with
  | GetDomain_ => "/v1/domains/" +:+ domain v
  | GetEpoch_ => "/v1/domains/" +:+ domain v +:+ "/epochs/" +:+ epoch v
  | GetLatestEpoch_ => "/v1/domains/" +:+ domain v +:+ "/epochs:latest"
  | GetEpochStream_ => "/v1/domains/" +:+ domain v +:+ "/epochs:stream"
  | ListMutations_ =>
      "/v1/domains/" +:+ domain v +:+ "/epochs/" +:+ epoch v +:+ "/mutations"
  | ListMutationsStream_ =>
      "/v1/domains/" +:+ domain v +:+ "/epochs/" +:+ epoch v +:+ "/mutations:stream"
  | GetEntry_ | UpdateEntry_ =>
      "/v1/domains/" +:+ domain v +:+ "/apps/" +:+ app v +:+ "/users/" +:+ user v
  | ListEntryHistory_ =>
      "/v1/domains/" +:+ domain v +:+ "/apps/" +:+ app v +:+ "/users/" +:+ user v
      +:+ "/history"
  end.

(** The values that a path can carry: no slash in any of them, and no
    colon in the one that ends the path. *)
Definition addressable (e : endpoint) (v : ids) : Prop :=
  has_byte "/" (domain v) = false ∧ has_byte "/" (app v) = false
  ∧ has_byte "/" (user v) = false ∧ has_byte "/" (epoch v) = false
  ∧ match e with
    | GetDomain_ => has_byte ":" (domain v) = false
    | GetEpoch_ => has_byte ":" (epoch v) = false
    | GetEntry_ | UpdateEntry_ => has_byte ":" (user v) = false
    | _ => True
    end.

(** The nine templates. *)
Definition template (e : endpoint) : list segment :=
  match e with
  | GetDomain_ => [Literal "v1"; Literal "domains"; Param 0]
  | GetEpoch_ => [Literal "v1"; Literal "domains"; Param 0; Literal "epochs"; Param 1]
  | GetLatestEpoch_ | GetEpochStream_ =>
      [Literal "v1"; Literal "domains"; Param 0; Literal "epochs"]
  | ListMutations_ | ListMutationsStream_ =>
      [Literal "v1"; Literal "domains"; Param 0; Literal "epochs"; Param 1;
       Literal "mutations"]
  | GetEntry_ | UpdateEntry_ =>
      [Literal "v1"; Literal "domains"; Param 0; Literal "apps"; Param 1;
       Literal "users"; Param 2]
  | ListEntryHistory_ =>
      [Literal "v1"; Literal "domains"; Param 0; Literal "apps"; Param 1;
       Literal "users"; Param 2; Literal "history"]
  end.

(** The pieces of the path between the slashes, the verb still
    attached to the last one. *)
Definition raw_components (e : endpoint) (v : ids) : list string :=
  match e with
  | GetLatestEpoch_ => ["v1"; "domains"; domain v; "epochs:latest"]
  | GetEpochStream_ => ["v1"; "domains"; domain v; "epochs:stream"]
  | ListMutationsStream_ =>
      ["v1"; "domains"; domain v; "epochs"; epoch v; "mutations:stream"]
  | _ => components e v
  end.

(** The head of [ServeMux.ServeHTTP]: the components and the verb of a
    path, or the status with which the path is refused. *)
Definition parse_path (path : string) : Z + (list string * string) :=
  if negb (gostring.at_ path 0 =? gostring.byte "/") then inl http.StatusBadRequest
  else
    let components := gostring.Split (gostring.from path 1) "/" in
    let l := length components in
    let last := default "" (components !! (l - 1)%nat) in
    let idx := gostring.LastIndexByte last ":" in
    if idx =? 0 then inl http.StatusNotFound
    else if idx >? 0
         then inr (<[(l - 1)%nat := gostring.upto last idx]> components,
                   gostring.from last (idx + 1))
         else inr (components, "").

(** The endpoints registered under an HTTP method, in the order of
    registration. *)
Definition registered (method : string) : list endpoint :=
  if decide (method = "GET")
  then [GetDomain_; GetEpoch_; GetLatestEpoch_; GetEpochStream_; ListMutations_;
        ListMutationsStream_; GetEntry_; ListEntryHistory_]
  else if decide (method = "PUT") then [UpdateEntry_] else [].

(** [isPathLengthFallback(r)]: a form-encoded POST, which the library's
    multiplexer may serve under another method (the one named by
    [X-HTTP-Method-Override], or the GET handler of the path). *)
Definition falls_back (r : http.Request) : Prop :=
  http.Method r = "POST"
  ∧ http.Header r !! "Content-Type" = Some "application/x-www-form-urlencoded".

Section Entries.
Context {EntryUpdate Message : Type}
        `{!runtime.ProtoMessage GetDomainRequest.t,
          !runtime.ProtoMessage GetEpochRequest.t,
          !runtime.ProtoMessage GetLatestEpochRequest.t,
          !runtime.ProtoMessage ListMutationsRequest.t,
          !runtime.ProtoMessage GetEntryRequest.t,
          !runtime.ProtoMessage ListEntryHistoryRequest.t,
          !runtime.ProtoMessage (UpdateEntryRequest.t EntryUpdate)}.

(** The pair that [mux.Handle] stores for an endpoint. *)
Definition entry (e : endpoint)
    (MarshalerForRequest : http.Request → @Marshaler EntryUpdate * @Marshaler EntryUpdate)
    (AnnotateContext : http.Request → option error)
    (client : @KeyTransparencyClient EntryUpdate Message)
    : runtime.handler (M (@HTTPResponse Message)) :=
  {| runtime.pat := pattern e;
     runtime.h := handler e MarshalerForRequest AnnotateContext client |}.
End Entries.

End route_spec.

Module filter_spec.
Import keytransparency_proto gateway_spec.

(** The filter that the request function of each endpoint hands to
    [runtime.PopulateQueryParameters]. *)
Definition filter_of (e : endpoint) : utilities.DoubleArray :=
  match e with
  | GetDomain_ => filter_KeyTransparency_GetDomain_0
  | GetEpoch_ => filter_KeyTransparency_GetEpoch_0
  | GetLatestEpoch_ => filter_KeyTransparency_GetLatestEpoch_0
  | GetEpochStream_ => filter_KeyTransparency_GetEpochStream_0
  | ListMutations_ => filter_KeyTransparency_ListMutations_0
  | ListMutationsStream_ => filter_KeyTransparency_ListMutationsStream_0
  | GetEntry_ => filter_KeyTransparency_GetEntry_0
  | ListEntryHistory_ => filter_KeyTransparency_ListEntryHistory_0
  | UpdateEntry_ => filter_KeyTransparency_UpdateEntry_0
  end.

(** The fields of the request message that the path or the body
    binds. *)
Definition bound_fields (e : endpoint) : list string :=
  match e with
  | GetDomain_ | GetLatestEpoch_ | GetEpochStream_ => ["domain_id"]
  | GetEpoch_ | ListMutations_ | ListMutationsStream_ => ["domain_id"; "epoch"]
  | GetEntry_ | ListEntryHistory_ => ["domain_id"; "app_id"; "user_id"]
  | UpdateEntry_ => ["entry_update"; "domain_id"; "app_id"; "user_id"]
  end.

(** A field path begins with a bound field. *)
Definition bound_path (e : endpoint) (fieldPath : list string) : bool :=
  match fieldPath with
  | [] => false
  | name :: _ => bool_decide (name ∈ bound_fields e)
  end.

(** The query without the keys that address a bound field. *)
Definition unbound_query (e : endpoint) (values : list (string * list string))
    : list (string * list string) :=
  List.filter (λ kv, negb (bound_path e (gostring.Split kv.1 "."))) values.

(** The request with only the query keys that can take effect. *)
Definition strip_query (e : endpoint) (req : http.Request) : http.Request :=
  {| http.Method := http.Method req; http.URL_Path := http.URL_Path req;
     http.URL_Query := unbound_query e (http.URL_Query req);
     http.Header := http.Header req; http.Body := http.Body req |}.

End filter_spec.

Module handler_spec.
Import keytransparency_proto gateway_spec route_spec filter_spec.

Section Uniform.
Context {EntryUpdate Message : Type}
        `{!runtime.ProtoMessage GetDomainRequest.t,
          !runtime.ProtoMessage GetEpochRequest.t,
          !runtime.ProtoMessage GetLatestEpochRequest.t,
          !runtime.ProtoMessage ListMutationsRequest.t,
          !runtime.ProtoMessage GetEntryRequest.t,
          !runtime.ProtoMessage ListEntryHistoryRequest.t,
          !runtime.ProtoMessage (UpdateEntryRequest.t EntryUpdate)}.

(** What a request function returns, unary or streaming. *)
Definition answer_t : Type := @Result (Message + @ClientStream Message).

Definition as_message (r : @Result Message) : answer_t :=
  let '(resp, md, err) := r in (inl <$> resp, md, err).

Definition as_stream (r : @Result (@ClientStream Message)) : answer_t :=
  let '(resp, md, err) := r in (inr <$> resp, md, err).

(** The request function of an endpoint. *)
Definition request (e : endpoint) (marshaler : @Marshaler EntryUpdate)
    (client : @KeyTransparencyClient EntryUpdate Message) (req : http.Request)
    (pathParams : gmap string string) (log : list (@ClientCall EntryUpdate))
    : answer_t * list (@ClientCall EntryUpdate) :=
  match e with
  | GetDomain_ =>
      prod_map as_message id
        (request_KeyTransparency_GetDomain_0 marshaler client req pathParams log)
  | GetEpoch_ =>
      prod_map as_message id
        (request_KeyTransparency_GetEpoch_0 marshaler client req pathParams log)
  | GetLatestEpoch_ =>
      prod_map as_message id
        (request_KeyTransparency_GetLatestEpoch_0 marshaler client req pathParams log)
  | GetEpochStream_ =>
      prod_map as_stream id
        (request_KeyTransparency_GetEpochStream_0 marshaler client req pathParams log)
  | ListMutations_ =>
      prod_map as_message id
        (request_KeyTransparency_ListMutations_0 marshaler client req pathParams log)
  | ListMutationsStream_ =>
      prod_map as_stream id
        (request_KeyTransparency_ListMutationsStream_0 marshaler client req pathParams log)
  | GetEntry_ =>
      prod_map as_message id
        (request_KeyTransparency_GetEntry_0 marshaler client req pathParams log)
  | ListEntryHistory_ =>
      prod_map as_message id
        (request_KeyTransparency_ListEntryHistory_0 marshaler client req pathParams log)
  | UpdateEntry_ =>
      prod_map as_message id
        (request_KeyTransparency_UpdateEntry_0 marshaler client req pathParams log)
  end.

(** What a unary and a streaming request function make of the
    backend's reply. *)
Definition unary_answer (r : @UnaryReply Message) : answer_t :=
  (inl <$> msg r,
   {| runtime.HeaderMD := header r; runtime.TrailerMD := trailer r |}, err r).

Definition stream_answer (r : option (@ClientStream Message) * option error) : answer_t :=
  match r with
  | (_, Some err) => (None, metadata0, Some err)
  | (None, None) => (None, metadata0, None)
  | (Some stream, None) =>
      match Header stream with
      | (_, Some err) => (None, metadata0, Some err)
      | (hdr, None) =>
          (Some (inr stream), {| runtime.HeaderMD := hdr; runtime.TrailerMD := [] |}, None)
      end
  end.

(** A client whose streaming methods return a stream whenever they
    return no error, as the generated stub does.  The request functions
    call [stream.Header()] without a check, which panics on a nil
    stream. *)
Definition streams_or_fails (client : @KeyTransparencyClient EntryUpdate Message) : Prop :=
  (∀ r, GetEpochStream client r ≠ (None, None))
  ∧ (∀ r, ListMutationsStream client r ≠ (None, None)).

(** The backend's reply to a call, as the request function returns
    it. *)
Definition answer (client : @KeyTransparencyClient EntryUpdate Message)
    (c : @ClientCall EntryUpdate) : answer_t :=
  match c with
  | CallGetDomain r => unary_answer (GetDomain client r)
  | CallGetEpoch r => unary_answer (GetEpoch client r)
  | CallGetLatestEpoch r => unary_answer (GetLatestEpoch client r)
  | CallGetEpochStream r => stream_answer (GetEpochStream client r)
  | CallListMutations r => unary_answer (ListMutations client r)
  | CallListMutationsStream r => stream_answer (ListMutationsStream client r)
  | CallGetEntry r => unary_answer (GetEntry client r)
  | CallListEntryHistory r => unary_answer (ListEntryHistory client r)
  | CallUpdateEntry r => unary_answer (UpdateEntry client r)
  end.

(** The names that come before [name] in a list of parameters. *)
Fixpoint earlier (names : list string) (name : string) : list string :=
  match names with
  | [] => []
  | n :: names' => if decide (n = name) then [] else n :: earlier names' name
  end.

(** The answer with which a request function refuses a request. *)
Definition refusal (message : string) : answer_t :=
  (None, metadata0, Some (StatusError codes.InvalidArgument message)).

(** What the handler of an endpoint writes for an answer of its
    request function. *)
Definition written (e : endpoint) (a : answer_t) : @HTTPResponse Message :=
  match a with
  | (_, md, Some err) => HTTPError (Some md) err
  | (resp, md, None) =>
      match e with
      | GetEpochStream_ | ListMutationsStream_ =>
          ForwardResponseStream md
            (resp ≫= λ r, match r with inr s => Some s | inl _ => None end)
      | _ =>
          ForwardResponseMessage md
            (resp ≫= λ r, match r with inl m => Some m | inr _ => None end)
      end
  end.

(** The call that carries the message built from the path parameters
    [v], the epoch [z] and the decoded body [upd], before the query is
    applied. *)
Definition prepared (e : endpoint) (v : ids) (z : Z) (upd : option EntryUpdate)
    : @ClientCall EntryUpdate :=
  match e with
  | GetDomain_ => CallGetDomain {| GetDomainRequest.DomainId := domain v |}
  | GetEpoch_ =>
      CallGetEpoch {| GetEpochRequest.DomainId := domain v; GetEpochRequest.Epoch := z |}
  | GetLatestEpoch_ =>
      CallGetLatestEpoch {| GetLatestEpochRequest.DomainId := domain v |}
  | GetEpochStream_ =>
      CallGetEpochStream
        {| GetEpochRequest.DomainId := domain v; GetEpochRequest.Epoch := 0 |}
  | ListMutations_ =>
      CallListMutations
        {| ListMutationsRequest.DomainId := domain v; ListMutationsRequest.Epoch := z |}
  | ListMutationsStream_ =>
      CallListMutationsStream
        {| ListMutationsRequest.DomainId := domain v; ListMutationsRequest.Epoch := z |}
  | GetEntry_ =>
      CallGetEntry
        {| GetEntryRequest.DomainId := domain v; GetEntryRequest.AppId := app v;
           GetEntryRequest.UserId := user v |}
  | ListEntryHistory_ =>
      CallListEntryHistory
        {| ListEntryHistoryRequest.DomainId := domain v;
           ListEntryHistoryRequest.AppId := app v;
           ListEntryHistoryRequest.UserId := user v |}
  | UpdateEntry_ =>
      CallUpdateEntry
        {| UpdateEntryRequest.DomainId := domain v; UpdateEntryRequest.AppId := app v;
           UpdateEntryRequest.UserId := user v; UpdateEntryRequest.EntryUpdate_ := upd |}
  end.

(** [runtime.PopulateQueryParameters] on the message of a call. *)
Definition populate (c : @ClientCall EntryUpdate) (values : list (string * list string))
    (filter : utilities.DoubleArray) : @ClientCall EntryUpdate * option error :=
  match c with
  | CallGetDomain r =>
      prod_map CallGetDomain id (runtime.PopulateQueryParameters r values filter)
  | CallGetEpoch r =>
      prod_map CallGetEpoch id (runtime.PopulateQueryParameters r values filter)
  | CallGetLatestEpoch r =>
      prod_map CallGetLatestEpoch id (runtime.PopulateQueryParameters r values filter)
  | CallGetEpochStream r =>
      prod_map CallGetEpochStream id (runtime.PopulateQueryParameters r values filter)
  | CallListMutations r =>
      prod_map CallListMutations id (runtime.PopulateQueryParameters r values filter)
  | CallListMutationsStream r =>
      prod_map CallListMutationsStream id
        (runtime.PopulateQueryParameters r values filter)
  | CallGetEntry r =>
      prod_map CallGetEntry id (runtime.PopulateQueryParameters r values filter)
  | CallListEntryHistory r =>
      prod_map CallListEntryHistory id (runtime.PopulateQueryParameters r values filter)
  | CallUpdateEntry r =>
      prod_map CallUpdateEntry id (runtime.PopulateQueryParameters r values filter)
  end.

End Uniform.

End handler_spec.

Module lifecycle_spec.
Import keytransparency_proto.

(** What [conn.Close()] leaves of the state of a connection. *)
Definition closed (s : option grpc.ConnState) : option grpc.ConnState :=
  (λ _, grpc.Shutdown) <$> s.

(** The goroutines that run when [ctx] is done, and the connections
    that they wait to close. *)
Definition woken (ctx : context.Context) (w : grpc.World) : list grpc.waiter :=
  List.filter (λ g, context.under ctx (grpc.w_ctx g)) (grpc.parked w).

Definition awaited (ctx : context.Context) (w : grpc.World) : list grpc.ClientConn :=
  map grpc.w_conn (woken ctx w).

(** The goroutines that stay parked when [ctx] is done. *)
Definition asleep (ctx : context.Context) (w : grpc.World) : list grpc.waiter :=
  List.filter (λ g, negb (context.under ctx (grpc.w_ctx g))) (grpc.parked w).

(** One parked goroutine runs: the body of the function that
    [ctx_Done] folds over the parked goroutines. *)
Definition wake (w : grpc.World) (g : grpc.waiter) : grpc.World :=
  match grpc.Close (grpc.w_conn g) w with
  | (Some cerr, w) =>
      grpc.Printf "Failed to close conn to %s: %v"
        [ArgS (grpc.w_endpoint g); ArgE cerr] w
  | (None, w) => w
  end.

End lifecycle_spec.

(* ================================================================== *)
(** * Concrete instances used to exercise the theorems *)
(* ================================================================== *)

Module fixtures.
Import keytransparency_proto.

(** Messages are kept as text. *)
Definition EntryUpdate : Type := string.
Definition Message : Type := string.

(** Setters by field name, the proto name or the JSON name as the
    library takes both; a name that the message does not declare is
    skipped, as the library does. *)
Definition names (proto json : string) (path : list string) : bool :=
  bool_decide (path = [proto] ∨ path = [json]).

#[export] Instance GetDomainRequest_proto : runtime.ProtoMessage GetDomainRequest.t :=
  {| runtime.populateFieldValueFromPath m path vals :=
       match vals with
       | v :: _ =>
           if names "domain_id" "domainId" path
           then ({| GetDomainRequest.DomainId := v |}, None)
           else (m, None)
       | [] => (m, None)
       end |}.

#[export] Instance GetEpochRequest_proto : runtime.ProtoMessage GetEpochRequest.t :=
  {| runtime.populateFieldValueFromPath m path vals :=
       match vals with
       | v :: _ =>
           if names "domain_id" "domainId" path then
             ({| GetEpochRequest.DomainId := v;
                 GetEpochRequest.Epoch := GetEpochRequest.Epoch m |}, None)
           else if names "epoch" "epoch" path then
             match runtime.Int64 v with
             | (z, None) =>
                 ({| GetEpochRequest.DomainId := GetEpochRequest.DomainId m;
                     GetEpochRequest.Epoch := z |}, None)
             | (_, Some e) => (m, Some e)
             end
           else (m, None)
       | [] => (m, None)
       end |}.

#[export] Instance GetLatestEpochRequest_proto
    : runtime.ProtoMessage GetLatestEpochRequest.t :=
  {| runtime.populateFieldValueFromPath m path vals :=
       match vals with
       | v :: _ =>
           if names "domain_id" "domainId" path
           then ({| GetLatestEpochRequest.DomainId := v |}, None)
           else (m, None)
       | [] => (m, None)
       end |}.

#[export] Instance ListMutationsRequest_proto
    : runtime.ProtoMessage ListMutationsRequest.t :=
  {| runtime.populateFieldValueFromPath m path vals :=
       match vals with
       | v :: _ =>
           if names "domain_id" "domainId" path then
             ({| ListMutationsRequest.DomainId := v;
                 ListMutationsRequest.Epoch := ListMutationsRequest.Epoch m |}, None)
           else (m, None)
       | [] => (m, None)
       end |}.

#[export] Instance GetEntryRequest_proto : runtime.ProtoMessage GetEntryRequest.t :=
  {| runtime.populateFieldValueFromPath m path vals :=
       match vals with
       | v :: _ =>
           if names "domain_id" "domainId" path then
             ({| GetEntryRequest.DomainId := v;
                 GetEntryRequest.AppId := GetEntryRequest.AppId m;
                 GetEntryRequest.UserId := GetEntryRequest.UserId m |}, None)
           else if names "user_id" "userId" path then
             ({| GetEntryRequest.DomainId := GetEntryRequest.DomainId m;
                 GetEntryRequest.AppId := GetEntryRequest.AppId m;
                 GetEntryRequest.UserId := v |}, None)
           else (m, None)
       | [] => (m, None)
       end |}.

#[export] Instance ListEntryHistoryRequest_proto
    : runtime.ProtoMessage ListEntryHistoryRequest.t :=
  {| runtime.populateFieldValueFromPath m _ _ := (m, None) |}.

#[export] Instance UpdateEntryRequest_proto
    : runtime.ProtoMessage (UpdateEntryRequest.t EntryUpdate) :=
  {| runtime.populateFieldValueFromPath m _ _ := (m, None) |}.

Definition reply (text : string) : @UnaryReply Message :=
  {| msg := Some text; header := []; trailer := []; err := None |}.

Definition stream (text : string) : @ClientStream Message :=
  {| Header := ([], None); Recv := λ _, (Some text, None) |}.

(** A backend that answers every call with the name of its method. *)
Definition client : @KeyTransparencyClient EntryUpdate Message :=
  {| GetDomain _ := reply "GetDomain";
     GetEpoch _ := reply "GetEpoch";
     GetLatestEpoch _ := reply "GetLatestEpoch";
     GetEpochStream _ := (Some (stream "GetEpochStream"), None);
     ListMutations _ := reply "ListMutations";
     ListMutationsStream _ := (Some (stream "ListMutationsStream"), None);
     GetEntry _ := reply "GetEntry";
     ListEntryHistory _ := reply "ListEntryHistory";
     UpdateEntry _ := reply "UpdateEntry" |}.

(** A marshaler that takes any non-empty body as an [EntryUpdate]. *)
Definition marshaler : @Marshaler EntryUpdate :=
  {| Decode body :=
       if decide (body = "") then (None, Some (ErrorString "EOF"))
       else (Some body, None) |}.

Definition MarshalerForRequest (_ : http.Request) := (marshaler, marshaler).
Definition AnnotateContext (_ : http.Request) : option error := None.

Definition Mux : Type :=
  runtime.ServeMux (@M EntryUpdate (@HTTPResponse Message)).

(** The multiplexer after registration. *)
Definition mux : Mux :=
  gateway_spec.gateway MarshalerForRequest AnnotateContext client.

Definition world0 : grpc.World :=
  {| grpc.conns := ∅; grpc.parked := []; grpc.grpclog := [] |}.

(** A key server that is unavailable for its first [n] calls, each
    taking one millisecond, and then answers. *)
Definition starting_up (n : nat) : @monitor_main.KeyTransparencyClient string :=
  {| monitor_main.GetDirectory req k :=
       if (k <? n)%nat
       then (time.Millisecond, None,
             Some (StatusError codes.Unavailable "connection refused"))
       else (time.Millisecond, Some (monitor_main.DirectoryId req), None) |}.


End fixtures.

(* ================================================================== *)
(** * Sample requests and worlds *)
(* ================================================================== *)

Module sample.
Import keytransparency_proto gateway_spec route_spec fixtures.

(** The epoch 7 of the directory [default]. *)
Definition epoch7 : ids :=
  {| domain := "default"; app := ""; user := ""; epoch := "7" |}.

Definition get_epoch7 : http.Request :=
  plain_request "GET" "/v1/domains/default/epochs/7" "".

(** The same path with a method that the gateway does not serve. *)
Definition delete_epoch7 : http.Request :=
  plain_request "DELETE" "/v1/domains/default/epochs/7" "".

(** A request for the directory [default] with one query parameter. *)
Definition get_default_with (key value : string) : http.Request :=
  {| http.Method := "GET"; http.URL_Path := "/v1/domains/default";
     http.URL_Query := [(key, [value])]; http.Header := ∅; http.Body := "" |}.

(** Path parameters without the epoch, and with a binding that no
    template has. *)
Definition no_epoch : gmap string string := {["domain_id" := "default"]}.

Definition with_extra : gmap string string :=
  {["domain_id" := "default"; "epoch" := "7"; "extra" := "x"]}.

(** A stub that ignores the connection. *)
Definition new_client (_ : grpc.ClientConn) := client.

(** A dialler that accepts every target. *)
Definition dial_ok (_ : string) (_ : list grpc.DialOption) : option error := None.

(** Two contexts derived from the background context. *)
Definition ctx1 : context.Context := context.derive context.Background 1.
Definition ctx2 : context.Context := context.derive context.Background 2.

(** A world with two open connections and a goroutine parked on each,
    under different contexts. *)
Definition world1 : grpc.World :=
  {| grpc.conns := {[0%nat := grpc.Open; 1%nat := grpc.Open]};
     grpc.parked :=
       [{| grpc.w_ctx := ctx1; grpc.w_conn := 0%nat; grpc.w_endpoint := "localhost:8080" |};
        {| grpc.w_ctx := ctx2; grpc.w_conn := 1%nat; grpc.w_endpoint := "localhost:8081" |}];
     grpc.grpclog := [] |}.

End sample.

(* ================================================================== *)
(** * Facts about the backoff and the monitor's retry loop *)
(* ================================================================== *)

Module backoff_facts.
Import backoff.

Lemma Duration_good b : spec.good b → spec.good (Duration b).2.
Proof.
  intros (Hmin & Hmax & Hd & Hle). unfold Duration, spec.good. simpl.
  destruct ((scale (Min b + delta b) (Factor b) >? Max b)
            || (scale (Min b + delta b) (Factor b) <? Min b)) eqn:E.
  - lia.
  - apply orb_false_iff in E as [E1 E2]. lia.
Qed.

Lemma Duration_pause b : (Duration b).1 = Min b + delta b.
Proof. reflexivity. Qed.

Lemma Duration_Min b : Min (Duration b).2 = Min b.
Proof. reflexivity. Qed.

Section Loop.
Context {St : Type} (f : St → Z * option error * St).
Hypothesis took_nonneg : ∀ s, 0 ≤ (f s).1.1.

(** The loop returns once the fuel covers the time left, counted in
    base delays. *)
Lemma Retry_loop_returns fuel : ∀ b deadline retry s t started,
  spec.good b → t < deadline → deadline - t < Z.of_nat fuel * Min b →
  is_Some (Retry_loop fuel b deadline f retry s t started).
Proof using took_nonneg.
  induction fuel as [|fuel IH]; intros b deadline retry s t started Hg Ht Hfuel.
  - destruct Hg as (? & _). lia.
  - simpl. specialize (took_nonneg s).
    destruct (f s) as [[took e] s'] eqn:Ef. simpl in took_nonneg.
    destruct (IsRetryable e retry); simpl; [|eauto].
    destruct (Z.ltb_spec (t + took + (Min b + delta b)) deadline); [|eauto].
    apply IH.
    + apply (Duration_good b Hg).
    + lia.
    + destruct Hg as (? & ? & ? & ?). simpl. lia.
Qed.

(** More fuel does not change a result. *)
Lemma Retry_loop_fuel fuel : ∀ fuel' b deadline retry s t started o,
  Retry_loop fuel b deadline f retry s t started = Some o →
  (fuel ≤ fuel')%nat →
  Retry_loop fuel' b deadline f retry s t started = Some o.
Proof.
  induction fuel as [|fuel IH]; intros fuel' b deadline retry s t started o H Hle;
    [discriminate|].
  destruct fuel' as [|fuel']; [lia|].
  simpl in *. destruct (f s) as [[took e] s'].
  destruct (IsRetryable e retry); simpl in *; [|done].
  destruct (t + took + (Min b + delta b) <? deadline); [|done].
  apply IH; [done|lia].
Qed.

(** Every call of [f] begins before the deadline. *)
Lemma Retry_loop_starts fuel : ∀ b deadline retry s t started o,
  Retry_loop fuel b deadline f retry s t started = Some o →
  t < deadline → Forall (λ x, x < deadline) started →
  Forall (λ x, x < deadline) (starts o).
Proof.
  induction fuel as [|fuel IH]; intros b deadline retry s t started o H Ht Hs;
    [discriminate|].
  simpl in H. destruct (f s) as [[took e] s'].
  assert (Forall (λ x, x < deadline) (started ++ [t])).
  { apply Forall_app; split; [done|]. by constructor. }
  destruct (IsRetryable e retry); simpl in H.
  - destruct (Z.ltb_spec (t + took + (Min b + delta b)) deadline).
    + eapply IH; eauto.
    + by inversion H; subst.
  - by inversion H; subst.
Qed.

End Loop.

End backoff_facts.

Module monitor_facts.
Import backoff backoff_facts monitor_main.

Lemma b_good : spec.good b.
Proof. unfold spec.good, b. simpl. unfold time.Second, time.Millisecond, time.Microsecond, time.Nanosecond. lia. Qed.

Lemma nth_backoff_good n : ∀ b0, spec.good b0 → spec.good (spec.nth_backoff n b0).
Proof. induction n as [|n IH]; intros b0 Hg; simpl; [done|]. apply IH, Duration_good, Hg. Qed.

Lemma nth_backoff_S n : ∀ b0,
  spec.nth_backoff (S n) b0 = (Duration (spec.nth_backoff n b0)).2.
Proof. induction n as [|n IH]; intros b0; [done|]. simpl in *. by rewrite <- IH. Qed.

Lemma nth_backoff_params n : ∀ b0,
  Min (spec.nth_backoff n b0) = Min b0 ∧ Max (spec.nth_backoff n b0) = Max b0
  ∧ Factor (spec.nth_backoff n b0) = Factor b0.
Proof.
  induction n as [|n IH]; intros b0; [done|].
  change (spec.nth_backoff (S n) b0) with (spec.nth_backoff n (Duration b0).2).
  destruct (IH (Duration b0).2) as (H1 & H2 & H3). by rewrite H1, H2, H3.
Qed.

(** Each delay of [main]'s backoff is one and a half times the previous
    one, cut to whole nanoseconds and capped at one second. *)
Lemma pause_step n :
  spec.pause (S n) b = Z.min (spec.pause n b * 3 / 2) time.Second.
Proof.
  unfold spec.pause. rewrite nth_backoff_S, !Duration_pause.
  pose proof (nth_backoff_good n b b_good) as (Hmin & Hmax & Hd & Hle).
  destruct (nth_backoff_params n b) as (EMin & EMax & EF).
  set (bn := spec.nth_backoff n b) in *.
  unfold Duration. simpl. rewrite EMin, EMax, EF in *. simpl in *.
  unfold scale. simpl.
  change (Min b) with time.Millisecond in *. change (Max b) with time.Second in *.
  unfold time.Second, time.Millisecond, time.Microsecond, time.Nanosecond in *.
  rewrite Z.quot_div_nonneg by lia.
  destruct (Z.gtb_spec ((1000 * (1000 * 1) + delta bn) * 3 / 2) (1000 * (1000 * (1000 * 1))));
    destruct (Z.ltb_spec ((1000 * (1000 * 1) + delta bn) * 3 / 2) (1000 * (1000 * 1)));
    simpl; Z.div_mod_to_equations; lia.
Qed.

(** From the eighteenth delay on, the delay is the cap. *)
Lemma pause_capped n : (18 ≤ n)%nat → spec.pause n b = time.Second.
Proof.
  induction 1 as [|n Hn IH].
  - vm_compute. reflexivity.
  - rewrite pause_step, IH. reflexivity.
Qed.

Lemma closure_calls {Directory} fl (client : @KeyTransparencyClient Directory) v :
  calls (closure fl client v).2 = S (calls v).
Proof. unfold closure. by destruct (GetDirectory _ _ _) as [[? ?] ?]. Qed.

Lemma closure_result {Directory} fl (client : @KeyTransparencyClient Directory) v :
  (closure fl client v).1 = (spec.took fl client (calls v), spec.failure fl client (calls v)).
Proof.
  unfold closure, spec.took, spec.failure. by destruct (GetDirectory _ _ _) as [[? ?] ?].
Qed.


Lemma closure_took_nonneg {Directory} fl (client : @KeyTransparencyClient Directory) :
  (∀ req k, 0 ≤ (GetDirectory client req k).1.1) →
  ∀ v, 0 ≤ (closure fl client v).1.1.
Proof.
  intros H v. unfold closure.
  specialize (H {| DirectoryId := directoryID fl |} (calls v)).
  by destruct (GetDirectory _ _ _) as [[? ?] ?].
Qed.

(** The retry loop of [main] returns, and the result does not depend on
    the fuel beyond [spec.enough]. *)
Lemma read_directory_returns {Directory} fl (client : @KeyTransparencyClient Directory) t :
  (∀ req k, 0 ≤ (GetDirectory client req k).1.1) →
  ∃ o, ∀ fuel, (spec.enough ≤ fuel)%nat → read_directory fuel fl client t = Some o.
Proof.
  intros Hnn. unfold read_directory, Retry.
  assert (time.Minute = 60000000000) as HM by reflexivity.
  destruct (Z.leb_spec (t + time.Minute) t); [lia|].
  destruct (Retry_loop_returns (closure fl client) (closure_took_nonneg fl client Hnn)
              spec.enough b (t + time.Minute) [codes.Unavailable]
              {| calls := 0; config := None; glog := [] |} t []) as [o Ho].
  - apply b_good.
  - lia.
  - rewrite HM. unfold spec.enough. rewrite Z2Nat.id by lia.
    change (Min b) with 1000000. lia.
  - exists o. intros fuel Hf. by eapply Retry_loop_fuel.
Qed.

(** The trace of the loop, from its [k]-th iteration on: the calls
    follow one another at the delays of the backoff, every one but the
    last has failed with a retried error, and the loop ends at a result
    that is not retried or when the next delay would pass the
    deadline. *)
Lemma Retry_loop_trace {Directory} fl (client : @KeyTransparencyClient Directory)
    b0 deadline retry fuel :
  ∀ k s tk started o,
    Retry_loop fuel (spec.nth_backoff k b0) deadline (closure fl client) retry s tk started
    = Some o →
    calls s = k → length started = k →
    ∃ n, (k ≤ n)%nat
      ∧ length (starts o) = S n ∧ calls (st o) = S n
      ∧ starts o !! k = Some tk
      ∧ (∀ j, (j < k)%nat → starts o !! j = started !! j)
      ∧ (∀ j sj, (k ≤ j < n)%nat → starts o !! j = Some sj →
           IsRetryable (spec.failure fl client j) retry = true
           ∧ sj + spec.took fl client j + spec.pause j b0 < deadline
           ∧ starts o !! S j = Some (sj + spec.took fl client j + spec.pause j b0))
      ∧ (∀ sn, starts o !! n = Some sn →
           if IsRetryable (spec.failure fl client n) retry
           then deadline ≤ sn + spec.took fl client n + spec.pause n b0
                ∧ err o = Some ErrDeadlineExceeded
                ∧ now o = Z.max (sn + spec.took fl client n) deadline
           else err o = spec.failure fl client n
                ∧ now o = sn + spec.took fl client n).
Proof.
  induction fuel as [|fuel IH]; intros k s tk started o H Hk Hlen; [discriminate|].
  cbn [Retry_loop] in H.
  pose proof (closure_calls fl client s) as Hc.
  pose proof (closure_result fl client s) as Hr.
  destruct (closure fl client s) as [[took e] s']. cbn [fst snd] in Hc, Hr.
  rewrite Hk in Hc, Hr. injection Hr as -> ->.
  destruct (IsRetryable (spec.failure fl client k) retry) eqn:Eretry; cbn [negb] in H.
  - change (Duration (spec.nth_backoff k b0)) with
      (spec.pause k b0, (Duration (spec.nth_backoff k b0)).2) in H.
    rewrite <- nth_backoff_S in H. cbv beta iota in H.
    destruct (Z.ltb_spec (tk + spec.took fl client k + spec.pause k b0) deadline)
      as [Hlt|Hge].
    + apply IH in H as (n & Hn & Hl & Hcalls & Hat & Hpre & Hmid & Hend);
        [|done|rewrite length_app; cbn; lia].
      assert (starts o !! k = Some tk) as Hatk.
      { rewrite Hpre by lia. rewrite lookup_app_r by lia.
        by replace (k - length started)%nat with 0%nat by lia. }
      exists n. split; [lia|]. split; [done|]. split; [done|]. split; [done|].
      split; [|split; [|done]].
      * intros j Hj. rewrite Hpre by lia. apply lookup_app_l. lia.
      * intros j sj Hj Hsj. destruct (decide (j = k)) as [->|Hne].
        -- rewrite Hatk in Hsj. injection Hsj as <-. done.
        -- apply Hmid; [lia|done].
    + injection H as <-. cbn [starts st err now].
      exists k. split; [lia|]. split; [rewrite length_app; cbn; lia|].
      split; [done|]. split; [by rewrite lookup_app_r, Hlen, Nat.sub_diag by lia|].
      split; [intros j Hj; apply lookup_app_l; lia|]. split; [intros j sj Hj; lia|].
      intros sn. rewrite lookup_app_r, Hlen, Nat.sub_diag by lia. intros [= <-].
      by rewrite Eretry.
  - injection H as <-. cbn [starts st err now].
    exists k. split; [lia|]. split; [rewrite length_app; cbn; lia|].
    split; [done|]. split; [by rewrite lookup_app_r, Hlen, Nat.sub_diag by lia|].
    split; [intros j Hj; apply lookup_app_l; lia|]. split; [intros j sj Hj; lia|].
    intros sn. rewrite lookup_app_r, Hlen, Nat.sub_diag by lia. intros [= <-].
    by rewrite Eretry.
Qed.

(** C4: the retry loop of the monitor waits between its calls of
    [GetDirectory] for the delays of an exponential backoff with base
    one millisecond (10^6 ns), factor 1.5 and cap one second (10^9 ns),
    and stops at the deadline of the context, one minute after the
    start.  The delays are 1 ms first, then each one and a half times
    the previous one cut to whole nanoseconds, at most 1 s, which they
    reach at the eighteenth.  The loop returns; it makes its first call
    at the start; every call but the last failed with a retried error
    and is followed, after exactly its own delay, by the next call,
    which begins before the deadline; and the last call either returned
    a result that is not retried, which the loop returns, or was
    followed by a delay that would end at or after the deadline, and
    then the loop returns the error of the context at the deadline. *)
Theorem monitor_backoff_exponential_until_deadline :
  (spec.pause 0 b = 1000000
   ∧ (∀ n, spec.pause (S n) b = Z.min (spec.pause n b * 3 / 2) 1000000000)
   ∧ (∀ n, (18 ≤ n)%nat → spec.pause n b = 1000000000))
  ∧ (∀ Directory fl (client : @KeyTransparencyClient Directory) t,
       (∀ req k, 0 ≤ (GetDirectory client req k).1.1) →
       ∃ o n,
         (∀ fuel, (spec.enough ≤ fuel)%nat → read_directory fuel fl client t = Some o)
         ∧ length (starts o) = S n ∧ calls (st o) = S n
         ∧ starts o !! 0%nat = Some t
         ∧ (∀ k sk, (k < n)%nat → starts o !! k = Some sk →
              IsRetryable (spec.failure fl client k) [codes.Unavailable] = true
              ∧ sk + spec.took fl client k + spec.pause k b < t + 60 * 1000000000
              ∧ starts o !! S k = Some (sk + spec.took fl client k + spec.pause k b))
         ∧ (∀ sn, starts o !! n = Some sn →
              if IsRetryable (spec.failure fl client n) [codes.Unavailable]
              then t + 60 * 1000000000 ≤ sn + spec.took fl client n + spec.pause n b
                   ∧ err o = Some ErrDeadlineExceeded
                   ∧ now o = Z.max (sn + spec.took fl client n) (t + 60 * 1000000000)
              else err o = spec.failure fl client n
                   ∧ now o = sn + spec.took fl client n)).
Proof.
  split; [split; [reflexivity|split]|].
  - intros n. apply pause_step.
  - intros n Hn. by apply pause_capped.
  - intros Directory fl client t Hnn.
    destruct (read_directory_returns fl client t Hnn) as [o Ho].
    pose proof (Ho spec.enough (le_n _)) as Hrun.
    unfold read_directory, Retry in Hrun.
    assert (time.Minute = 60 * 1000000000) as HM by reflexivity.
    destruct (Z.leb_spec (t + time.Minute) t); [lia|].
    rewrite HM in Hrun.
    apply (Retry_loop_trace fl client b _ _ _ 0%nat) in Hrun
      as (n & _ & Hl & Hcalls & Hat & _ & Hmid & Hend); [|done..].
    exists o, n. repeat (split; [done|]). split; [|done].
    intros k sk Hk. apply Hmid. lia.
Qed.

Lemma monitor_backoff_exponential_until_deadline_witness :
  (∀ req k, 0 ≤ (GetDirectory (fixtures.starting_up 3) req k).1.1)
  ∧ ∃ o,
      (∀ fuel, (spec.enough ≤ fuel)%nat →
         read_directory fuel default_flags (fixtures.starting_up 3) 0 = Some o)
      ∧ calls (st o) = 4%nat
      ∧ starts o = [0; 2000000; 4500000; 7750000]
      ∧ err o = None.
Proof.
  assert (∀ req k, 0 ≤ (GetDirectory (fixtures.starting_up 3) req k).1.1) as H.
  { intros req k. simpl. destruct (k <? 3)%nat; simpl; vm_compute; discriminate. }
  split; [exact H|].
  destruct (proj2 monitor_backoff_exponential_until_deadline
              string default_flags (fixtures.starting_up 3) 0 H)
    as (o & n & Ho & _).
  exists o. split; [exact Ho|].
  specialize (Ho spec.enough (le_n _)).
  vm_compute in Ho. injection Ho as <-.
  repeat split.
Defined.

End monitor_facts.

Module monitor_retry.
Import backoff backoff_facts monitor_main monitor_facts.



Section Classes.
Context {Directory : Type}.


End Classes.




End monitor_retry.

(* ================================================================== *)
(** * Facts about the gateway *)
(* ================================================================== *)

Module endpoint_registration.
Import keytransparency_proto.

Lemma fresh_not_in w : grpc.conns w !! grpc.fresh w = None.
Proof. apply not_elem_of_dom. unfold grpc.fresh. apply is_fresh. Qed.

Section FromEndpoint.
Context {EntryUpdate Message : Type}
        `{!runtime.ProtoMessage GetDomainRequest.t,
          !runtime.ProtoMessage GetEpochRequest.t,
          !runtime.ProtoMessage GetLatestEpochRequest.t,
          !runtime.ProtoMessage ListMutationsRequest.t,
          !runtime.ProtoMessage GetEntryRequest.t,
          !runtime.ProtoMessage ListEntryHistoryRequest.t,
          !runtime.ProtoMessage (UpdateEntryRequest.t EntryUpdate)}.
Context (MarshalerForRequest : http.Request → @Marshaler EntryUpdate * @Marshaler EntryUpdate)
        (AnnotateContext : http.Request → option error)
        (NewKeyTransparencyClient : grpc.ClientConn → @KeyTransparencyClient EntryUpdate Message).

(** The registration step never fails. *)
Lemma RegisterKeyTransparencyHandler_nil mux conn :
  (RegisterKeyTransparencyHandler MarshalerForRequest AnnotateContext
     NewKeyTransparencyClient mux conn).2 = None.
Proof. reflexivity. Qed.

(** So after a successful dial the deferred function of
    [RegisterKeyTransparencyHandlerFromEndpoint] always takes its second
    branch: the function returns [nil], the connection is left open, and
    the goroutine that closes it when [ctx] is done is parked. *)
Lemma FromEndpoint_success_parks dial_err ctx mux endpoint opts w :
  dial_err endpoint opts = None →
  ∃ mux' w',
    RegisterKeyTransparencyHandlerFromEndpoint MarshalerForRequest AnnotateContext
      NewKeyTransparencyClient dial_err ctx mux endpoint opts w = (None, mux', w')
    ∧ grpc.conns w' !! grpc.fresh w = Some grpc.Open
    ∧ grpc.parked w'
      = (grpc.parked w
         ++ [{| grpc.w_ctx := ctx; grpc.w_conn := grpc.fresh w;
                grpc.w_endpoint := endpoint |}])%list.
Proof.
  intros Hdial.
  unfold RegisterKeyTransparencyHandlerFromEndpoint, grpc.Dial.
  rewrite Hdial. simpl. eexists _, _. split; [reflexivity|]. simpl.
  split; [by rewrite lookup_insert_eq|reflexivity].
Qed.

(** A failed dial is returned as it is, and nothing has changed. *)
Lemma FromEndpoint_dial_error dial_err ctx mux endpoint opts w e :
  dial_err endpoint opts = Some e →
  RegisterKeyTransparencyHandlerFromEndpoint MarshalerForRequest AnnotateContext
    NewKeyTransparencyClient dial_err ctx mux endpoint opts w = (Some e, mux, w).
Proof.
  intros Hdial. unfold RegisterKeyTransparencyHandlerFromEndpoint, grpc.Dial.
  by rewrite Hdial.
Qed.
End FromEndpoint.

End endpoint_registration.

(* ================================================================== *)
(** * Facts about the string primitives *)
(* ================================================================== *)

Module gostring_facts.
Import gostring gateway_spec.

Lemma append_nil_r (s : string) : s +:+ "" = s.
Proof.
  induction s as [|a s IH]; [reflexivity|].
  change (String a s +:+ "") with (String a (s +:+ "")). by rewrite IH.
Qed.

Lemma append_cons a (s t : string) : String a s +:+ t = String a (s +:+ t).
Proof. reflexivity. Qed.

Lemma append_assoc (s t u : string) : (s +:+ t) +:+ u = s +:+ (t +:+ u).
Proof.
  induction s as [|a s IH]; [reflexivity|]. rewrite !append_cons. by rewrite IH.
Qed.

Lemma rev_app_append (s t : string) : String.rev_app s t = String.rev s +:+ t.
Proof.
  unfold String.rev. revert t.
  induction s as [|a s IH]; intros t; [reflexivity|].
  simpl. rewrite IH, (IH (String a "")), append_assoc. reflexivity.
Qed.

(** Splitting consumes a segment free of the separator up to the next
    separator. *)
Lemma Split_go_segment sep (seg rest cur : string) :
  has_byte sep seg = false →
  Split_go cur (seg +:+ String sep rest) sep
  = (String.rev cur +:+ seg) :: Split_go "" rest sep.
Proof.
  revert cur. induction seg as [|a seg IH]; intros cur Hfree.
  - change ("" +:+ String sep rest) with (String sep rest). simpl.
    rewrite decide_True by done. by rewrite append_nil_r.
  - simpl in Hfree. apply orb_false_iff in Hfree as [Ha Hseg].
    apply bool_decide_eq_false in Ha.
    rewrite append_cons. simpl. rewrite decide_False by done.
    rewrite IH by done. f_equal.
    unfold String.rev at 1. simpl. rewrite rev_app_append, append_assoc. reflexivity.
Qed.

Lemma Split_go_last sep (seg cur : string) :
  has_byte sep seg = false →
  Split_go cur seg sep = [String.rev cur +:+ seg].
Proof.
  revert cur. induction seg as [|a seg IH]; intros cur Hfree.
  - simpl. by rewrite append_nil_r.
  - simpl in Hfree. apply orb_false_iff in Hfree as [Ha Hseg].
    apply bool_decide_eq_false in Ha.
    simpl. rewrite decide_False by done. rewrite IH by done. f_equal.
    unfold String.rev at 1. simpl. rewrite rev_app_append, append_assoc. reflexivity.
Qed.

Lemma LastIndexByte_absent c s : has_byte c s = false → LastIndexByte s c = -1.
Proof.
  induction s as [|a s IH]; [reflexivity|]. simpl. intros H.
  apply orb_false_iff in H as [Ha Hs]. apply bool_decide_eq_false in Ha.
  rewrite IH by done. simpl. by rewrite decide_False.
Qed.

Lemma IndexByte_absent c s : has_byte c s = false → IndexByte s c = -1.
Proof.
  induction s as [|a s IH]; [reflexivity|]. simpl. intros H.
  apply orb_false_iff in H as [Ha Hs]. apply bool_decide_eq_false in Ha.
  rewrite decide_False by done. by rewrite IH.
Qed.

(** The components of a per-user path. *)
Lemma Split_user_path root d a u :
  has_byte "/" root = false → has_byte "/" d = false → has_byte "/" a = false →
  has_byte "/" u = false →
  Split (from ("/v1/" +:+ root +:+ "/" +:+ d +:+ "/apps/" +:+ a +:+ "/users/" +:+ u) 1) "/"
  = ["v1"; root; d; "apps"; a; "users"; u].
Proof.
  intros Hr Hd Ha Hu.
  change (Split_go ""
            ("v1" +:+ String "/" (root +:+ String "/" (d +:+ String "/"
               ("apps" +:+ String "/" (a +:+ String "/" ("users" +:+ String "/" u))))))
            "/"
          = ["v1"; root; d; "apps"; a; "users"; u]).
  rewrite !Split_go_segment by done.
  rewrite Split_go_last by done. reflexivity.
Qed.

(** The components of the path of a directory. *)
Lemma Split_root_path root d :
  has_byte "/" root = false → has_byte "/" d = false →
  Split (from ("/v1/" +:+ root +:+ "/" +:+ d) 1) "/" = ["v1"; root; d].
Proof.
  intros Hr Hd.
  change (Split_go "" ("v1" +:+ String "/" (root +:+ String "/" d)) "/"
          = ["v1"; root; d]).
  rewrite !Split_go_segment by done.
  rewrite Split_go_last by done. reflexivity.
Qed.

End gostring_facts.

(* ================================================================== *)
(** * Facts about [strconv.ParseInt] *)
(* ================================================================== *)

Module strconv_facts.
Import gostring strconv strconv_spec.

Lemma uint_val_ge d : ∀ acc, 0 ≤ acc → acc ≤ uint_val acc d.
Proof.
induction d; intros acc Hacc; simpl; [lia|..];
  (etrans; [|apply IHd]; lia).
Qed.

Lemma of_uint_acc_val d : ∀ acc, Z.pos (Pos.of_uint_acc d acc) = uint_val (Z.pos acc) d.
Proof.
induction d; intros acc; simpl; [reflexivity|..]; rewrite IHd; f_equal; lia.
Qed.

Lemma of_uint_val d : Z.of_N (Pos.of_uint d) = uint_val 0 d.
Proof.
induction d; simpl; [reflexivity|assumption|..]; apply of_uint_acc_val.
Qed.

Lemma to_uint_val p : uint_val 0 (Pos.to_uint p) = Z.pos p.
Proof. rewrite <- of_uint_val, DecimalPos.Unsigned.of_to. reflexivity. Qed.

Lemma to_uint_nzhead p : Decimal.nzhead (Pos.to_uint p) = Pos.to_uint p.
Proof.
pose proof (DecimalPos.Unsigned.to_of (Pos.to_uint p)) as Hn.
rewrite DecimalPos.Unsigned.of_to in Hn. simpl in Hn.
rewrite Hn at 2. symmetry. apply DecimalFacts.unorm_nzhead.
intros Hnil. apply DecimalFacts.unorm_0 in Hnil.
apply (DecimalPos.Unsigned.to_uint_nonzero p). congruence.
Qed.

Lemma to_uint_head p d : Pos.to_uint p ≠ Decimal.D0 d.
Proof.
rewrite <- to_uint_nzhead. apply DecimalFacts.nzhead_nonzero.
Qed.

(** One iteration of the digit loop on the decimal digit [k]. *)
Lemma ParseUint_loop_digit s0 ch k rest n :
  byte ch = 48 + k → 0 ≤ k ≤ 9 → 0 ≤ n ≤ maxUint64 →
  ParseUint_loop s0 true 10 (maxUint64 / uint64 10 + 1) maxUint64 (String ch rest) n false
  = if n * 10 + k <=? maxUint64
    then ParseUint_loop s0 true 10 (maxUint64 / uint64 10 + 1) maxUint64 rest
           (n * 10 + k) false
    else inl (maxUint64, Some (rangeError "ParseUint" s0)).
Proof.
intros Hc Hk Hn. cbn [ParseUint_loop]. rewrite Hc.
change (byte "_") with 95. change (byte "0") with 48. change (byte "9") with 57.
change (maxUint64 / uint64 10 + 1) with 1844674407370955162.
change (uint8 10) with 10. change (uint64 10) with 10.
unfold uint8, uint64, maxUint64 in *.
change (2 ^ 64 - 1) with 18446744073709551615 in *.
change (2 ^ 64) with 18446744073709551616 in *.
replace (48 + k =? 95) with false by lia. cbn [andb].
replace ((48 <=? 48 + k) && (48 + k <=? 57)) with true by lia.
replace ((48 + k - 48) mod 256) with k by (Z.div_mod_to_equations; lia).
replace (k >=? 10) with false by lia.
replace (k mod 18446744073709551616) with k by (Z.div_mod_to_equations; lia).
destruct (Z.geb_spec n 1844674407370955162) as [Hcut|Hcut].
- replace (n * 10 + k <=? 18446744073709551615) with false by lia. reflexivity.
- replace ((n * 10) mod 18446744073709551616) with (n * 10)
    by (Z.div_mod_to_equations; lia).
  destruct (Z.leb_spec (n * 10 + k) 18446744073709551615) as [Hfit|Hfit].
  + replace ((n * 10 + k) mod 18446744073709551616) with (n * 10 + k)
      by (Z.div_mod_to_equations; lia).
    replace ((n * 10 + k <? n * 10) || (n * 10 + k >? 18446744073709551615))
      with false by lia.
    reflexivity.
  + replace ((n * 10 + k) mod 18446744073709551616)
      with (n * 10 + k - 18446744073709551616) by (Z.div_mod_to_equations; lia).
    replace (n * 10 + k - 18446744073709551616 <? n * 10) with true by lia.
    reflexivity.
Qed.

(** The digit loop on a decimal numeral: the number it denotes when
    that fits 64 bits, the range error otherwise. *)
Lemma ParseUint_loop_decimal s0 d : ∀ n,
  0 ≤ n ≤ maxUint64 →
  ParseUint_loop s0 true 10 (maxUint64 / uint64 10 + 1) maxUint64
    (NilEmpty.string_of_uint d) n false
  = if uint_val n d <=? maxUint64 then inr (uint_val n d, false)
    else inl (maxUint64, Some (rangeError "ParseUint" s0)).
Proof.
induction d; intros n Hn;
  [ simpl; destruct (Z.leb_spec n maxUint64); [reflexivity|lia] | .. ];
  cbn [NilEmpty.string_of_uint uint_val];
  match goal with
  | |- context [uint_val (n * 10 + ?k) d] =>
      rewrite (ParseUint_loop_digit s0 _ k) by (first [reflexivity | lia]);
      destruct (Z.leb_spec (n * 10 + k) maxUint64) as [Hfit|Hfit];
      [ apply IHd; lia
      | pose proof (uint_val_ge d (n * 10 + k) ltac:(lia));
        destruct (Z.leb_spec (uint_val (n * 10 + k) d) maxUint64); [lia|reflexivity] ]
  end.
Qed.

Lemma ParseUint_loop_decimal_0 s0 d :
  ParseUint_loop s0 true 10 1844674407370955162 18446744073709551615
    (NilEmpty.string_of_uint d) 0 false
  = if uint_val 0 d <=? 18446744073709551615 then inr (uint_val 0 d, false)
    else inl (18446744073709551615, Some (NumError "ParseUint" s0 ErrRange)).
Proof. apply (ParseUint_loop_decimal s0 d 0). done. Qed.

(** A numeral without leading zero begins with one of the digits 1-9. *)
Lemma numeral_head d :
  d ≠ Decimal.Nil → (∀ d', d ≠ Decimal.D0 d') →
  NilEmpty.string_of_uint d ≠ ""
  ∧ (at_ (NilEmpty.string_of_uint d) 0 =? byte "0") = false
  ∧ (at_ (NilEmpty.string_of_uint d) 0 =? byte "+") = false
  ∧ (at_ (NilEmpty.string_of_uint d) 0 =? byte "-") = false.
Proof.
intros Hnil H0. destruct d; try done.
by destruct (H0 d).
Qed.

(** [ParseUint] on the decimal numeral of a positive number. *)
Lemma ParseUint_decimal p :
  ParseUint (NilEmpty.string_of_uint (Pos.to_uint p)) 0 64
  = if Z.pos p <=? 18446744073709551615 then (Z.pos p, None)
    else (18446744073709551615,
          Some (NumError "ParseUint" (NilEmpty.string_of_uint (Pos.to_uint p)) ErrRange)).
Proof.
destruct (numeral_head (Pos.to_uint p) (DecimalPos.Unsigned.to_uint_nonnil p)
            (to_uint_head p)) as (Hne & H0 & _).
pose proof (ParseUint_loop_decimal_0 (NilEmpty.string_of_uint (Pos.to_uint p))
              (Pos.to_uint p)) as Hloop.
rewrite to_uint_val in Hloop.
remember (NilEmpty.string_of_uint (Pos.to_uint p)) as s eqn:Es. clear Es.
unfold ParseUint. rewrite decide_False by done.
cbv zeta.
change (0 =? 0) with true. change ((2 <=? 0) && (0 <=? 36)) with false. cbv iota.
rewrite H0.
change ((64 <? 0) || (64 >? 64)) with false. cbv iota.
change (64 =? 0) with false. cbv iota.
change (maxUint64 / uint64 10 + 1) with 1844674407370955162.
change (uint64 (uint64 (Z.shiftl 1 64) - 1)) with 18446744073709551615.
rewrite Hloop.
by destruct (Z.pos p <=? 18446744073709551615).
Qed.

Lemma Itoa_pos p : Itoa (Z.pos p) = NilEmpty.string_of_uint (Pos.to_uint p).
Proof.
unfold Itoa. simpl. pose proof (DecimalPos.Unsigned.to_uint_nonnil p).
by destruct (Pos.to_uint p).
Qed.

Lemma Itoa_neg p :
  Itoa (Z.neg p) = String "-" (NilEmpty.string_of_uint (Pos.to_uint p)).
Proof.
unfold Itoa. simpl. pose proof (DecimalPos.Unsigned.to_uint_nonnil p).
by destruct (Pos.to_uint p).
Qed.

Ltac order_cases :=
  repeat match goal with
  | |- context [?a >=? ?b] => rewrite (Z.geb_leb a b)
  | |- context [?a >? ?b] => rewrite (Z.gtb_ltb a b)
  | |- context [?a <=? ?b] => destruct (Z.leb_spec a b)
  | |- context [?a <? ?b] => destruct (Z.ltb_spec a b)
  end.

(** [ParseInt] on the decimal numeral of a number: the number itself
    when it is an [int64], the range error otherwise. *)
Lemma ParseInt_Itoa z :
  ParseInt (Itoa z) 0 64
  = if (- 2 ^ 63 <=? z) && (z <? 2 ^ 63) then (z, None)
    else (if z <? 0 then - 2 ^ 63 else 2 ^ 63 - 1,
          Some (NumError "ParseInt" (Itoa z) ErrRange)).
Proof.
destruct z as [|p|p].
- reflexivity.
- rewrite Itoa_pos.
  destruct (numeral_head (Pos.to_uint p) (DecimalPos.Unsigned.to_uint_nonnil p)
              (to_uint_head p)) as (Hne & _ & Hplus & Hminus).
  pose proof (ParseUint_decimal p) as HU.
  remember (NilEmpty.string_of_uint (Pos.to_uint p)) as s eqn:Es. clear Es.
  unfold ParseInt. rewrite decide_False by done. cbv zeta.
  rewrite Hplus, Hminus, HU.
  change (64 =? 0) with false. cbv iota.
  change (uint64 (Z.shiftl 1 (64 - 1))) with 9223372036854775808.
  change (2 ^ 63) with 9223372036854775808.
  unfold int64, rangeError. change (2 ^ 63) with 9223372036854775808.
  change (2 ^ 64) with 18446744073709551616.
  order_cases; cbn [andb negb decide fst snd]; try lia; try reflexivity;
    f_equal; Z.div_mod_to_equations; lia.
- rewrite Itoa_neg.
  destruct (numeral_head (Pos.to_uint p) (DecimalPos.Unsigned.to_uint_nonnil p)
              (to_uint_head p)) as (Hne & _ & Hplus & Hminus).
  pose proof (ParseUint_decimal p) as HU.
  remember (NilEmpty.string_of_uint (Pos.to_uint p)) as s eqn:Es. clear Es.
  unfold ParseInt. rewrite decide_False by done. cbv zeta.
  change (at_ (String "-" s) 0 =? byte "+") with false.
  change (at_ (String "-" s) 0 =? byte "-") with true. cbv iota.
  change (from (String "-" s) 1) with s. rewrite HU.
  change (64 =? 0) with false. cbv iota.
  change (uint64 (Z.shiftl 1 (64 - 1))) with 9223372036854775808.
  change (2 ^ 63) with 9223372036854775808.
  unfold int64, rangeError. change (2 ^ 63) with 9223372036854775808.
  change (2 ^ 64) with 18446744073709551616.
  order_cases; cbn [andb negb decide fst snd]; try lia; try reflexivity;
    f_equal; Z.div_mod_to_equations; lia.
Qed.

Lemma int64_range z : is_int64 (int64 z).
Proof.
unfold is_int64, int64. change (2 ^ 63) with 9223372036854775808.
change (2 ^ 64) with 18446744073709551616. Z.div_mod_to_equations; lia.
Qed.

(** Whatever [ParseInt] returns for 64 bits is an [int64]. *)
Lemma ParseInt_range s : is_int64 (ParseInt s 0 64).1.
Proof.
unfold ParseInt.
repeat case_match; simpl; try apply int64_range; unfold is_int64; lia.
Qed.

End strconv_facts.

(* ================================================================== *)
(** * Facts about [net.SplitHostPort] and the transport credentials *)
(* ================================================================== *)

Module net_facts.
Import gostring gateway_spec gostring_facts net_spec.

Lemma len_nonneg s : 0 ≤ len s.
Proof. unfold len. lia. Qed.

Lemma len_cons a s : len (String a s) = len s + 1.
Proof. unfold len. cbn [String.length]. lia. Qed.

Lemma len_append s t : len (s +:+ t) = len s + len t.
Proof.
induction s as [|a s IH]; [reflexivity|].
rewrite append_cons, !len_cons, IH. lia.
Qed.

Lemma has_byte_append c s t : has_byte c (s +:+ t) = has_byte c s || has_byte c t.
Proof.
induction s as [|a s IH]; [reflexivity|].
rewrite append_cons. simpl. rewrite IH. apply orb_assoc.
Qed.

Lemma byte_inj a c : byte a = byte c → a = c.
Proof.
unfold byte. intros H. apply N2Z.inj in H.
rewrite <- (ascii_N_embedding a), <- (ascii_N_embedding c). by rewrite H.
Qed.

Lemma byte_eqb a c : (byte a =? byte c) = bool_decide (a = c).
Proof.
destruct (Z.eqb_spec (byte a) (byte c)) as [E|E].
- apply byte_inj in E. by rewrite bool_decide_eq_true_2.
- rewrite bool_decide_eq_false_2; [done|]. intros ->. done.
Qed.

Lemma from_append s t : from (s +:+ t) (len s) = t.
Proof.
unfold from, len. rewrite Nat2Z.id.
induction s as [|a s IH]; [reflexivity|]. rewrite append_cons. exact IH.
Qed.

Lemma upto_append s t : upto (s +:+ t) (len s) = s.
Proof.
unfold upto, len. rewrite Nat2Z.id.
induction s as [|a s IH]; [by destruct t|]. rewrite append_cons. simpl. by rewrite IH.
Qed.

(** The first occurrence of a byte splits the string. *)
Lemma IndexByte_spec s c :
  (has_byte c s = false ∧ IndexByte s c = -1)
  ∨ ∃ pre post, s = pre +:+ String c post ∧ has_byte c pre = false
                ∧ IndexByte s c = len pre.
Proof.
induction s as [|a s IH]; [by left|].
simpl. destruct (decide (a = c)) as [->|Hne].
- right. by exists "", s.
- rewrite bool_decide_eq_false_2 by done. simpl.
  destruct IH as [[Hf ->]|(pre & post & -> & Hf & ->)]; [by left|].
  right. exists (String a pre), post. rewrite append_cons. split; [done|].
  simpl. rewrite bool_decide_eq_false_2 by done. split; [done|].
  pose proof (len_nonneg pre). rewrite len_cons.
  destruct (Z.ltb_spec (len pre) 0); [lia|done].
Qed.

(** The last occurrence of a byte splits the string. *)
Lemma LastIndexByte_spec s c :
  (has_byte c s = false ∧ LastIndexByte s c = -1)
  ∨ ∃ pre post, s = pre +:+ String c post ∧ has_byte c post = false
                ∧ LastIndexByte s c = len pre.
Proof.
induction s as [|a s IH]; [by left|].
simpl. destruct IH as [[Hf ->]|(pre & post & -> & Hf & ->)].
- simpl. destruct (decide (a = c)) as [->|Hne].
  + right. by exists "", s.
  + left. by rewrite bool_decide_eq_false_2.
- right. exists (String a pre), post. rewrite append_cons. split; [done|].
  split; [done|]. pose proof (len_nonneg pre). rewrite len_cons.
  destruct (Z.leb_spec 0 (len pre)); [done|lia].
Qed.

Lemma IndexByte_present s c : (IndexByte s c >=? 0) = has_byte c s.
Proof.
destruct (IndexByte_spec s c) as [[Hf ->]|(pre & post & -> & Hf & ->)].
- by rewrite Hf.
- rewrite has_byte_append. simpl. rewrite bool_decide_eq_true_2 by done.
  rewrite orb_true_r. pose proof (len_nonneg pre). rewrite Z.geb_leb.
  by destruct (Z.leb_spec 0 (len pre)); [|lia].
Qed.

Lemma LastIndexByte_append pre post c :
  has_byte c post = false → LastIndexByte (pre +:+ String c post) c = len pre.
Proof.
intros Hf. induction pre as [|a pre IH].
- change ("" +:+ String c post) with (String c post). simpl.
  rewrite LastIndexByte_absent by done. simpl. by rewrite decide_True.
- rewrite append_cons. simpl. rewrite IH. pose proof (len_nonneg pre).
  rewrite len_cons. by destruct (Z.leb_spec 0 (len pre)); [|lia].
Qed.

Lemma IndexByte_append pre post c :
  has_byte c pre = false → IndexByte (pre +:+ String c post) c = len pre.
Proof.
intros Hf. induction pre as [|a pre IH].
- change ("" +:+ String c post) with (String c post). simpl. by rewrite decide_True.
- rewrite append_cons. simpl in *. apply orb_false_iff in Hf as [Ha Hf].
  apply bool_decide_eq_false in Ha. rewrite decide_False by done.
  rewrite IH by done. pose proof (len_nonneg pre). rewrite len_cons.
  by destruct (Z.ltb_spec (len pre) 0); [lia|].
Qed.

Lemma len_ltb0 s : (len s <? 0) = false.
Proof. pose proof (len_nonneg s). by destruct (Z.ltb_spec (len s) 0); [lia|]. Qed.

Lemma from_append_cons s c t : from (s +:+ String c t) (len s + 1) = t.
Proof.
unfold from, len.
replace (Z.to_nat (Z.of_nat (String.length s) + 1)) with (S (String.length s)) by lia.
induction s as [|a s IH]; [reflexivity|]. rewrite append_cons. exact IH.
Qed.

Lemma append_cons_assoc (s : string) c t : s +:+ String c t = (s +:+ String c "") +:+ t.
Proof. by rewrite append_assoc. Qed.

Lemma head_byte s c t :
  has_byte c s = false → c ≠ ":"%char → (at_ (s +:+ String ":" t) 0 =? byte c) = false.
Proof.
intros Hf Hc. destruct s as [|a s].
- change (at_ ("" +:+ String ":" t) 0) with (byte ":"). rewrite byte_eqb.
  by rewrite bool_decide_eq_false_2.
- rewrite append_cons. change (at_ (String a (s +:+ String ":" t)) 0) with (byte a).
  rewrite byte_eqb. simpl in Hf. by apply orb_false_iff in Hf as [-> _].
Qed.

(** An address of one of the two forms splits into its host and its
    port. *)
Lemma SplitHostPort_host_port s h p :
  host_port s h p → net.SplitHostPort s = (h, p, None).
Proof.
intros (Hpc & Hpo & Hpe & Hho & Hhe & [[-> Hhc]| ->]);
  unfold net.SplitHostPort; cbv zeta.
- rewrite LastIndexByte_append, len_ltb0, head_byte by done.
  rewrite upto_append, IndexByte_present, Hhc.
  change (from (h +:+ String ":" p) 0) with (h +:+ String ":" p).
  rewrite !IndexByte_present, !has_byte_append. simpl.
  rewrite Hpo, Hpe, Hho, Hhe. simpl. by rewrite from_append_cons.
- change (String "[" (h +:+ String "]" (String ":" p)))
    with (String "[" h +:+ String "]" (String ":" p)).
  rewrite (append_cons_assoc (String "[" h) "]").
  rewrite LastIndexByte_append by done.
  rewrite len_ltb0.
  change (at_ ((String "[" h +:+ "]") +:+ String ":" p) 0) with (byte "[").
  change (byte "[" =? byte "[") with true. cbv iota.
  rewrite <- (append_cons_assoc (String "[" h) "]").
  rewrite IndexByte_append by (simpl; by rewrite Hhe).
  rewrite len_ltb0, !len_append, !len_cons.
  change (len "") with 0.
  pose proof (len_nonneg h). pose proof (len_nonneg p).
  destruct (Z.eqb_spec (len h + 1 + 1) (len h + 1 + (len p + 1 + 1))) as [|_]; [lia|].
  destruct (Z.eqb_spec (len h + 1 + 1) (len h + 1 + (0 + 1))) as [_|]; [|lia].
  assert (from (String "[" h +:+ String "]" (String ":" p)) (len h + 1 + 1)
          = String ":" p) as ->.
  { rewrite <- (len_cons "[" h). apply from_append_cons. }
  assert (from (String "[" h +:+ String "]" (String ":" p)) (len h + 1 + (0 + 1) + 1)
          = p) as ->.
  { rewrite (append_cons_assoc (String "[" h) "]").
    replace (len h + 1 + (0 + 1)) with (len (String "[" h +:+ "]"))
      by (rewrite len_append, !len_cons; reflexivity).
    apply from_append_cons. }
  assert (slice (String "[" h +:+ String "]" (String ":" p)) 1 (len h + 1) = h) as ->.
  { unfold slice.
    change (from (String "[" h +:+ String "]" (String ":" p)) 1)
      with (h +:+ String "]" (String ":" p)).
    replace (len h + 1 - 1) with (len h) by lia. apply upto_append. }
  change (from (String "[" h +:+ String "]" (String ":" p)) 1)
    with (h +:+ String "]" (String ":" p)).
  rewrite !IndexByte_present, has_byte_append. simpl.
  by rewrite Hho, Hpo, Hpe.
Qed.

(** An address that splits has one of the two forms. *)
Lemma SplitHostPort_form s h p :
  net.SplitHostPort s = (h, p, None) → ∃ h' p', host_port s h' p'.
Proof.
unfold net.SplitHostPort, net.addrErr. cbv zeta.
destruct (LastIndexByte_spec s ":") as [[_ ->]|(pre & post & -> & Hpost & ->)]; [done|].
rewrite len_ltb0.
destruct (at_ (pre +:+ String ":" post) 0 =? byte "[") eqn:Hopen.
- destruct (IndexByte_spec (pre +:+ String ":" post) "]")
    as [[_ ->]|(pre2 & post2 & Hs & Hpre2 & ->)]; [done|].
  rewrite len_ltb0.
  destruct (len pre2 + 1 =? len (pre +:+ String ":" post)); [done|].
  destruct (Z.eqb_spec (len pre2 + 1) (len pre)) as [Hlen|_];
    [|by destruct (at_ _ (len pre2 + 1) =? _)].
  assert (pre = pre2 +:+ "]") as ->.
  { rewrite <- (upto_append pre (String ":" post)), Hs, append_cons_assoc.
    rewrite <- Hlen. rewrite <- (upto_append (pre2 +:+ "]") post2) at 2.
    by rewrite len_append. }
  destruct pre2 as [|a h'].
  { discriminate Hopen. }
  rewrite !append_cons in Hopen.
  change (at_ (String a ((h' +:+ "]") +:+ String ":" post)) 0) with (byte a) in Hopen.
  rewrite byte_eqb in Hopen. apply bool_decide_eq_true in Hopen as ->.
  change (from ((String "[" h' +:+ "]") +:+ String ":" post) 1)
    with ((h' +:+ "]") +:+ String ":" post).
  rewrite Hlen, from_append, !IndexByte_present, !has_byte_append.
  simpl in Hpre2. simpl.
  destruct (has_byte "[" h') eqn:Hho; [done|].
  destruct (has_byte "[" post) eqn:Hpo; [done|].
  destruct (has_byte "]" post) eqn:Hpe; [done|]. simpl.
  intros _. exists h', post. repeat (split; [done|]).
  right. by rewrite <- append_cons_assoc.
- destruct (IndexByte (upto (pre +:+ String ":" post) (len pre)) ":" >=? 0) eqn:Hhc;
    [done|].
  rewrite upto_append, IndexByte_present in Hhc. rewrite upto_append.
  change (from (pre +:+ String ":" post) 0) with (pre +:+ String ":" post).
  rewrite !IndexByte_present, !has_byte_append. simpl.
  destruct (has_byte "[" pre) eqn:Hho; [done|].
  destruct (has_byte "[" post) eqn:Hpo; [done|].
  destruct (has_byte "]" pre) eqn:Hhe; [done|].
  destruct (has_byte "]" post) eqn:Hpe; [done|]. simpl.
  intros _. exists pre, post. repeat (split; [done|]). by left.
Qed.

(** [net.SplitHostPort] succeeds exactly on the addresses of the two
    forms, with the host and the port of the form. *)
Lemma SplitHostPort_spec s h p :
  net.SplitHostPort s = (h, p, None) ↔ host_port s h p.
Proof.
split; [|apply SplitHostPort_host_port].
intros Hs. destruct (SplitHostPort_form s h p Hs) as (h' & p' & Hf).
pose proof (SplitHostPort_host_port _ _ _ Hf) as Hs'.
rewrite Hs in Hs'. by simplify_eq.
Qed.

(** Every failure is an [AddrError] that carries the address, with
    no host and no port. *)
Lemma SplitHostPort_error s h p err :
  net.SplitHostPort s = (h, p, Some err) →
  h = "" ∧ p = "" ∧ ∃ why, err = AddrError why s.
Proof.
unfold net.SplitHostPort, net.addrErr. cbv zeta.
repeat case_match; intros; simplify_eq; eauto.
Qed.

End net_facts.

Module monitor_creds.
Import net_spec net_facts.

(** C9: for every kt-url that is not of the form [host:port],
    [transportCreds] returns the error of [net.SplitHostPort] and no
    credentials, whatever the insecure flag; for a kt-url of that form
    it returns, when the flag is set, TLS credentials that skip the
    verification of the certificate, and otherwise credentials that
    verify the certificate against the extracted host. *)
Theorem transportCreds_by_address_form (ktURL : string) (insecure : bool) :
  ((¬ ∃ host port, host_port ktURL host port) →
   ∃ why, (net.SplitHostPort ktURL).2 = Some (AddrError why ktURL)
          ∧ monitor_main.transportCreds ktURL insecure
            = (None, Some (AddrError why ktURL)))
  ∧ (∀ host port, host_port ktURL host port →
       monitor_main.transportCreds ktURL insecure
       = (Some (if insecure
                then credentials.NewTLS
                       {| tls.InsecureSkipVerify := true; tls.ServerName := "";
                          tls.RootCAs := None |}
                else credentials.NewClientTLSFromCert None host), None)
       ∧ credentials.NewClientTLSFromCert None host
         = credentials.tlsCreds
             {| tls.InsecureSkipVerify := false; tls.ServerName := host;
                tls.RootCAs := None |}).
Proof.
split.
- intros Hform. unfold monitor_main.transportCreds.
  destruct (net.SplitHostPort ktURL) as [[h p] [err|]] eqn:Hs.
  + apply SplitHostPort_error in Hs as (_ & _ & why & ->). by exists why.
  + destruct Hform. exists h, p. by apply SplitHostPort_spec.
- intros host port Hform. apply SplitHostPort_spec in Hform.
  unfold monitor_main.transportCreds. rewrite Hform.
  by destruct insecure.
Qed.

Lemma transportCreds_by_address_form_witness :
  (¬ ∃ host port, host_port "localhost" host port)
  ∧ host_port "localhost:443" "localhost" "443"
  ∧ monitor_main.transportCreds "localhost" true
    = (None, Some (AddrError "missing port in address" "localhost"))
  ∧ monitor_main.transportCreds "localhost:443" false
    = (Some (credentials.NewClientTLSFromCert None "localhost"), None).
Proof.
assert (¬ ∃ host port, host_port "localhost" host port) as Hbad.
{ intros (host & port & Hform). apply SplitHostPort_spec in Hform. discriminate Hform. }
assert (host_port "localhost:443" "localhost" "443") as Hgood.
{ repeat (split; [reflexivity|]). left. split; reflexivity. }
split; [exact Hbad|]. split; [exact Hgood|]. split.
- destruct (proj1 (transportCreds_by_address_form "localhost" true) Hbad)
    as (why & Hwhy & ->).
  vm_compute in Hwhy. by simplify_eq.
- exact (proj1 (proj2 (transportCreds_by_address_form "localhost:443" false)
                  "localhost" "443" Hgood)).
Defined.

End monitor_creds.

(* ================================================================== *)
(** * Facts about the request functions and the routes *)
(* ================================================================== *)

Module gateway_facts.
Import keytransparency_proto gateway_spec gostring_facts.
Import strconv_spec strconv_facts.

Lemma Errorf_missing name :
  status.Errorf codes.InvalidArgument "missing parameter %s" [ArgS name]
  = StatusError codes.InvalidArgument ("missing parameter " +:+ name).
Proof. unfold status.Errorf. f_equal. cbn. rewrite append_nil_r. reflexivity. Qed.

Lemma Errorf_mismatch name err :
  status.Errorf codes.InvalidArgument "type mismatch, parameter: %s, error: %v"
    [ArgS name; ArgE err]
  = StatusError codes.InvalidArgument
      ("type mismatch, parameter: " +:+ name +:+ ", error: " +:+ error_Error err).
Proof. unfold status.Errorf. f_equal. cbn. rewrite append_nil_r. reflexivity. Qed.

Lemma Errorf_v err :
  status.Errorf codes.InvalidArgument "%v" [ArgE err]
  = StatusError codes.InvalidArgument (error_Error err).
Proof. unfold status.Errorf. f_equal. cbn. apply append_nil_r. Qed.

(** Case analysis along a request function: each path parameter is
    present or not, each conversion succeeds or not. *)
Ltac unfold_request :=
  unfold request_outcome, outcome, handler, handler_body,
    request_KeyTransparency_GetDomain_0, request_KeyTransparency_GetEpoch_0,
    request_KeyTransparency_GetLatestEpoch_0, request_KeyTransparency_GetEpochStream_0,
    request_KeyTransparency_ListMutations_0, request_KeyTransparency_ListMutationsStream_0,
    request_KeyTransparency_GetEntry_0, request_KeyTransparency_ListEntryHistory_0,
    request_KeyTransparency_UpdateEntry_0,
    finish, param, converted, checked, runtime.String in *;
  rewrite ?Errorf_missing, ?Errorf_mismatch, ?Errorf_v in *.

Lemma required_eq e :
  required e =
  match e with
  | GetDomain_ | GetLatestEpoch_ | GetEpochStream_ => ["domain_id"]
  | GetEpoch_ | ListMutations_ | ListMutationsStream_ => ["domain_id"; "epoch"]
  | GetEntry_ | ListEntryHistory_ | UpdateEntry_ => ["domain_id"; "app_id"; "user_id"]
  end.
Proof. destruct e; reflexivity. Qed.

Ltac elem_cases H :=
  repeat (rewrite elem_of_cons in H; destruct H as [?|H]);
  [..|by rewrite elem_of_nil in H].

Ltac elem_here :=
  repeat first [apply list_elem_of_here | apply list_elem_of_further].

Ltac request_cases pathParams :=
  repeat match goal with
         | |- context [Decode ?m ?b] =>
             destruct (Decode m b) as [? [?|]] eqn:?; simpl
         | |- context [pathParams !! ?k] =>
             destruct (pathParams !! k) eqn:?; simpl
         | |- context [runtime.Int64 ?v] =>
             destruct (runtime.Int64 v) as [? [?|]] eqn:?; simpl
         end.

(** Every parameter is there and converts: the premise is false. *)
Ltac request_contra Hin Hbad :=
  exfalso; unfold conversion_fails in Hbad;
  destruct Hbad as [Hbad|(? & Hbad & ? & Hf)];
  elem_cases Hin; simplify_eq;
  try match goal with
      | H : runtime.Int64 ?v = _, Hf : (runtime.Int64 ?v).2 ≠ None |- _ =>
          rewrite H in Hf
      end;
  simpl in *; congruence.

(** The request function returned early. *)
Ltac request_rejected AnnotateContext req :=
  rewrite ?Errorf_mismatch, ?Errorf_v;
  eexists; split; [reflexivity|]; split;
  [ destruct (AnnotateContext req); reflexivity
  | unfold rejection_message; rewrite required_eq;
    first [ left; eexists; split; [|split; [eassumption|reflexivity]]; elem_here
          | right; left; eexists _, _; split; [elem_here|];
            split; [eassumption|]; split; [|reflexivity];
            match goal with H : runtime.Int64 _ = _ |- _ => by rewrite H end
          | right; right; split; [reflexivity|]; eexists; split; [|reflexivity];
            match goal with H : Decode _ _ = _ |- _ => by rewrite H end ] ].

Lemma Handle_lookup_eq {W} (s : runtime.ServeMux W) meth pat h :
  runtime.handlers (runtime.Handle s meth pat h) !! meth
  = Some (default [] (runtime.handlers s !! meth)
          ++ [{| runtime.pat := pat; runtime.h := h |}])%list.
Proof. unfold runtime.Handle. simpl. apply lookup_insert_eq. Qed.

Lemma Handle_lookup_ne {W} (s : runtime.ServeMux W) meth pat h meth' :
  meth ≠ meth' →
  runtime.handlers (runtime.Handle s meth pat h) !! meth'
  = runtime.handlers s !! meth'.
Proof. intros. unfold runtime.Handle. simpl. by apply lookup_insert_ne. Qed.

Section Requests.
Context {EntryUpdate Message : Type}
        `{!runtime.ProtoMessage GetDomainRequest.t,
          !runtime.ProtoMessage GetEpochRequest.t,
          !runtime.ProtoMessage GetLatestEpochRequest.t,
          !runtime.ProtoMessage ListMutationsRequest.t,
          !runtime.ProtoMessage GetEntryRequest.t,
          !runtime.ProtoMessage ListEntryHistoryRequest.t,
          !runtime.ProtoMessage (UpdateEntryRequest.t EntryUpdate)}.
Implicit Types (marshaler : @Marshaler EntryUpdate)
               (client : @KeyTransparencyClient EntryUpdate Message)
               (log : list (@ClientCall EntryUpdate)).
Context (MarshalerForRequest : http.Request → @Marshaler EntryUpdate * @Marshaler EntryUpdate)
        (AnnotateContext : http.Request → option error).

(** C6: when a path parameter that the endpoint requires is missing,
    or does not convert to the type of its field, the request function
    returns a status error with code [InvalidArgument] and a message
    that names the failure, the handler writes that error, and no
    request is sent to the backend. *)
Theorem path_parameter_errors_are_invalid_argument
    (e : endpoint) client req pathParams log name :
  name ∈ required e →
  (pathParams !! name = None
   ∨ ∃ val, pathParams !! name = Some val ∧ conversion_fails name val) →
  ∃ message,
    request_outcome e (MarshalerForRequest req).1 client req pathParams log
    = (Some (StatusError codes.InvalidArgument message), log)
    ∧ handler e MarshalerForRequest AnnotateContext client req pathParams log
      = (surfaced AnnotateContext req (StatusError codes.InvalidArgument message), log)
    ∧ rejection_message e (MarshalerForRequest req).1 req pathParams message.
Proof.
  intros Hin Hbad. unfold surfaced.
  destruct (MarshalerForRequest req) as [inbound outbound] eqn:EM. simpl.
  destruct e; rewrite required_eq in Hin; unfold_request; rewrite EM;
    request_cases pathParams;
    first [ request_contra Hin Hbad | request_rejected AnnotateContext req ].
Qed.

Ltac finish_cases :=
  repeat match goal with
         | |- context [runtime.PopulateQueryParameters ?m ?q ?f] =>
             destruct (runtime.PopulateQueryParameters m q f) as [? [?|]]; simpl
         end;
  unfold unary, streaming, bind, invoke, ret; simpl;
  repeat case_match; simpl; eauto.

(** A handler calls the backend at most once, and only the method it
    was registered for. *)
Lemma handler_calls_own_method (e : endpoint) client req pathParams log :
  (handler e MarshalerForRequest AnnotateContext client req pathParams log).2 = log
  ∨ ∃ c, (handler e MarshalerForRequest AnnotateContext client req pathParams log).2
         = (log ++ [c])%list
         ∧ call_endpoint c = e.
Proof.
  destruct e; unfold_request;
    destruct (MarshalerForRequest req) as [inbound outbound];
    (destruct (AnnotateContext req); [by left|]);
    request_cases pathParams; unfold bind, ret; simpl; try (by left);
    finish_cases; simplify_eq/=;
    first [by left | right; eexists; split; reflexivity].
Qed.

(** The registrations made by [RegisterKeyTransparencyHandlerClient]:
    eight templates under GET, one under PUT, nothing else. *)
Lemma gateway_handlers client :
  runtime.handlers (gateway MarshalerForRequest AnnotateContext client) !! "GET"
  = Some (map (λ e, {| runtime.pat := pattern e;
                       runtime.h := handler e MarshalerForRequest AnnotateContext client |})
            [GetDomain_; GetEpoch_; GetLatestEpoch_; GetEpochStream_; ListMutations_;
             ListMutationsStream_; GetEntry_; ListEntryHistory_])
  ∧ runtime.handlers (gateway MarshalerForRequest AnnotateContext client) !! "PUT"
    = Some [{| runtime.pat := pattern UpdateEntry_;
               runtime.h := handler UpdateEntry_ MarshalerForRequest AnnotateContext client |}]
  ∧ ∀ m, m ≠ "GET" → m ≠ "PUT" →
         runtime.handlers (gateway MarshalerForRequest AnnotateContext client) !! m = None.
Proof.
  unfold gateway, RegisterKeyTransparencyHandlerClient. unfold fst.
  split; [|split].
  - rewrite Handle_lookup_ne by done.
    repeat rewrite Handle_lookup_eq.
    unfold runtime.NewServeMux; cbn [runtime.handlers]; rewrite lookup_empty.
    cbv [from_option id app map pattern handler]. reflexivity.
  - rewrite Handle_lookup_eq.
    repeat rewrite Handle_lookup_ne by done.
    unfold runtime.NewServeMux; cbn [runtime.handlers]; rewrite lookup_empty.
    cbv [from_option id app map pattern handler]. reflexivity.
  - intros m Hget Hput.
    repeat rewrite Handle_lookup_ne by done. reflexivity.
Qed.

Lemma Match_user_path e d a u :
  e = GetEntry_ ∨ e = UpdateEntry_ →
  runtime.Match (pattern e) ["v1"; "domains"; d; "apps"; a; "users"; u] ""
  = (Some {["domain_id" := d; "app_id" := a; "user_id" := u]}, None).
Proof. intros [-> | ->]; vm_compute; reflexivity. Qed.

(** A PUT on the per-user path reaches the handler of [UpdateEntry]
    with the three identifiers as path parameters. *)
Lemma serve_put_user_path client d a u query hdr body :
  has_byte "/" d = false → has_byte "/" a = false → has_byte "/" u = false →
  has_byte ":" u = false →
  let req :=
    {| http.Method := "PUT";
       http.URL_Path := "/v1/domains/" +:+ d +:+ "/apps/" +:+ a +:+ "/users/" +:+ u;
       http.URL_Query := query; http.Header := hdr; http.Body := body |} in
  serve MarshalerForRequest AnnotateContext client req
  = handler UpdateEntry_ MarshalerForRequest AnnotateContext client req
      {["domain_id" := d; "app_id" := a; "user_id" := u]}.
Proof.
  intros Hd Ha Hu Hc req.
  unfold serve, runtime.ServeHTTP. subst req. cbn [http.URL_Path http.Method].
  set (p := "/v1/domains/" +:+ d +:+ "/apps/" +:+ a +:+ "/users/" +:+ u).
  assert (gostring.at_ p 0 = gostring.byte "/") as -> by reflexivity.
  assert (gostring.Split (gostring.from p 1) "/"
          = ["v1"; "domains"; d; "apps"; a; "users"; u]) as ->.
  { apply (Split_user_path "domains"); done. }
  cbn [length Nat.sub lookup list_lookup default from_option id].
  rewrite (LastIndexByte_absent ":" u Hc).
  destruct (gateway_handlers client) as (_ & -> & _).
  cbn [Z.eqb Z.gtb Z.compare negb default from_option id runtime.first_match
       runtime.pat runtime.h].
  rewrite (Match_user_path UpdateEntry_) by auto.
  reflexivity.
Qed.

Lemma Match_root_path d :
  runtime.Match (pattern GetDomain_) ["v1"; "domains"; d] ""
  = (Some {["domain_id" := d]}, None).
Proof. vm_compute; reflexivity. Qed.

(** ** UpdateEntry *)

Lemma UpdateEntry_body_rejected marshaler client req pathParams log v e :
  Decode marshaler (http.Body req) = (v, Some e) →
  request_KeyTransparency_UpdateEntry_0 marshaler client req pathParams log
  = ((None, metadata0, Some (StatusError codes.InvalidArgument (error_Error e))), log).
Proof.
  intros HD. unfold request_KeyTransparency_UpdateEntry_0, finish, checked.
  rewrite HD, Errorf_v. reflexivity.
Qed.

Lemma UpdateEntry_forwarded marshaler client req pathParams log v d a u m :
  Decode marshaler (http.Body req) = (v, None) →
  pathParams !! "domain_id" = Some d → pathParams !! "app_id" = Some a →
  pathParams !! "user_id" = Some u →
  runtime.PopulateQueryParameters
    {| UpdateEntryRequest.DomainId := d; UpdateEntryRequest.AppId := a;
       UpdateEntryRequest.UserId := u; UpdateEntryRequest.EntryUpdate_ := v |}
    (http.URL_Query req) filter_KeyTransparency_UpdateEntry_0 = (m, None) →
  request_KeyTransparency_UpdateEntry_0 marshaler client req pathParams log
  = ((msg (UpdateEntry client m),
      {| runtime.HeaderMD := header (UpdateEntry client m);
         runtime.TrailerMD := trailer (UpdateEntry client m) |},
      err (UpdateEntry client m)),
     (log ++ [CallUpdateEntry m])%list).
Proof.
  intros HD Hd Ha Hu HP. unfold_request. rewrite HD, Hd, Ha, Hu. simpl.
  rewrite HP. reflexivity.
Qed.

(** C5: an EntryUpdate is submitted with PUT on the per-user path
    [.../apps/{app}/users/{u}]: such a request reaches the handler of
    [UpdateEntry].  The body is decoded into the [EntryUpdate] field of
    the request message; when it does not decode, the gateway answers
    with an [InvalidArgument] status and the backend is not called. *)
Theorem UpdateEntry_put_decodes_body client d a u query hdr body log :
  has_byte "/" d = false → has_byte "/" a = false → has_byte "/" u = false →
  has_byte ":" u = false →
  let req :=
    {| http.Method := "PUT";
       http.URL_Path := "/v1/domains/" +:+ d +:+ "/apps/" +:+ a +:+ "/users/" +:+ u;
       http.URL_Query := query; http.Header := hdr; http.Body := body |} in
  let pathParams : gmap string string :=
    {["domain_id" := d; "app_id" := a; "user_id" := u]} in
  let marshaler := (MarshalerForRequest req).1 in
  serve MarshalerForRequest AnnotateContext client req log
  = handler UpdateEntry_ MarshalerForRequest AnnotateContext client req pathParams log
  ∧ (∀ v e, Decode marshaler body = (v, Some e) →
       request_KeyTransparency_UpdateEntry_0 marshaler client req pathParams log
       = ((None, metadata0,
           Some (StatusError codes.InvalidArgument (error_Error e))), log)
       ∧ serve MarshalerForRequest AnnotateContext client req log
         = (surfaced AnnotateContext req
              (StatusError codes.InvalidArgument (error_Error e)), log))
  ∧ (∀ v m, Decode marshaler body = (v, None) →
       runtime.PopulateQueryParameters
         {| UpdateEntryRequest.DomainId := d; UpdateEntryRequest.AppId := a;
            UpdateEntryRequest.UserId := u; UpdateEntryRequest.EntryUpdate_ := v |}
         query filter_KeyTransparency_UpdateEntry_0 = (m, None) →
       request_KeyTransparency_UpdateEntry_0 marshaler client req pathParams log
       = ((msg (UpdateEntry client m),
           {| runtime.HeaderMD := header (UpdateEntry client m);
              runtime.TrailerMD := trailer (UpdateEntry client m) |},
           err (UpdateEntry client m)),
          (log ++ [CallUpdateEntry m])%list)).
Proof.
  intros Hd Ha Hu Hc req pathParams marshaler.
  assert (serve MarshalerForRequest AnnotateContext client req log
          = handler UpdateEntry_ MarshalerForRequest AnnotateContext client req
              pathParams log) as Hserve.
  { subst req pathParams.
    by rewrite (serve_put_user_path client d a u query hdr body Hd Ha Hu Hc). }
  split; [exact Hserve|]. split.
  - intros v e HD. split.
    + by apply (UpdateEntry_body_rejected marshaler client req pathParams log v e).
    + rewrite Hserve. unfold handler, handler_body, surfaced.
      subst marshaler. destruct (MarshalerForRequest req) as [inbound outbound].
      simpl in HD. destruct (AnnotateContext req); [reflexivity|].
      unfold bind.
      rewrite (UpdateEntry_body_rejected inbound client req pathParams log v e HD).
      reflexivity.
  - intros v m HD HP.
    by apply (UpdateEntry_forwarded marshaler client req pathParams log v d a u m).
Qed.

(** ** GetEntry *)

(** The request function of [GetEntry] forwards exactly when the three
    path parameters [domain_id], [app_id] and [user_id] are present;
    the message it hands to the query-parameter pass holds these three
    values and nothing else. *)
Lemma GetEntry_keyed_by_triple marshaler client req pathParams log :
  match pathParams !! "domain_id", pathParams !! "app_id", pathParams !! "user_id" with
  | Some d, Some a, Some u =>
      match runtime.PopulateQueryParameters
              {| GetEntryRequest.DomainId := d; GetEntryRequest.AppId := a;
                 GetEntryRequest.UserId := u |}
              (http.URL_Query req) filter_KeyTransparency_GetEntry_0 with
      | (m, None) =>
          request_KeyTransparency_GetEntry_0 marshaler client req pathParams log
          = ((msg (GetEntry client m),
              {| runtime.HeaderMD := header (GetEntry client m);
                 runtime.TrailerMD := trailer (GetEntry client m) |},
              err (GetEntry client m)),
             (log ++ [CallGetEntry m])%list)
      | (_, Some e) =>
          request_KeyTransparency_GetEntry_0 marshaler client req pathParams log
          = ((None, metadata0,
              Some (StatusError codes.InvalidArgument (error_Error e))), log)
      end
  | _, _, _ =>
      ∃ message,
        request_KeyTransparency_GetEntry_0 marshaler client req pathParams log
        = ((None, metadata0, Some (StatusError codes.InvalidArgument message)), log)
  end.
Proof.
  unfold_request.
  destruct (pathParams !! "domain_id"); simpl; [|by eauto].
  destruct (pathParams !! "app_id"); simpl; [|by eauto].
  destruct (pathParams !! "user_id"); simpl; [|by eauto].
  destruct (runtime.PopulateQueryParameters _ _ _) as [m [e|]]; simpl.
  - by rewrite Errorf_v.
  - reflexivity.
Qed.

(** Query keys that the filter covers never reach the message. *)
Lemma PopulateQueryParameters_filtered {Msg} `{!runtime.ProtoMessage Msg}
    (m : Msg) values filter :
  Forall (λ kv, utilities.HasCommonPrefix filter (gostring.Split kv.1 ".") = true) values →
  runtime.PopulateQueryParameters m values filter = (m, None).
Proof.
  induction 1 as [|[k vs] values Hk _ IH]; [reflexivity|].
  simpl in *. by rewrite Hk.
Qed.

Lemma GetEntry_filter_covers_triple name :
  name ∈ ["domain_id"; "app_id"; "user_id"] →
  utilities.HasCommonPrefix filter_KeyTransparency_GetEntry_0
    (gostring.Split name ".") = true.
Proof. intros Hin. elem_cases Hin; subst; vm_compute; reflexivity. Qed.

(** C7, at the request that the claim describes: the gateway reads the
    path parameter [domain_id] and fills the field [DomainId]; it knows
    no [directory_id].  A lookup under [/v1/directories/...] is not
    routed, and path parameters that name the directory [directory_id]
    are refused as incomplete; the same triple under the [domain] names
    is forwarded as one [GetEntryRequest]. *)
Theorem GetEntry_reads_domain_id_not_directory_id marshaler client log :
  serve MarshalerForRequest AnnotateContext client
    (plain_request "GET" "/v1/directories/default/apps/app1/users/foo@bar.com" "") log
  = (OtherError "Not Found" 404, log)
  ∧ request_KeyTransparency_GetEntry_0 marshaler client
      (plain_request "GET" "/v1/directories/default/apps/app1/users/foo@bar.com" "")
      {["directory_id" := "default"; "app_id" := "app1"; "user_id" := "foo@bar.com"]}
      log
    = ((None, metadata0,
        Some (StatusError codes.InvalidArgument "missing parameter domain_id")), log)
  ∧ serve MarshalerForRequest AnnotateContext client
      (plain_request "GET" "/v1/domains/default/apps/app1/users/foo@bar.com" "") log
    = handler GetEntry_ MarshalerForRequest AnnotateContext client
        (plain_request "GET" "/v1/domains/default/apps/app1/users/foo@bar.com" "")
        {["domain_id" := "default"; "app_id" := "app1"; "user_id" := "foo@bar.com"]}
        log
  ∧ (request_KeyTransparency_GetEntry_0 marshaler client
       (plain_request "GET" "/v1/domains/default/apps/app1/users/foo@bar.com" "")
       {["domain_id" := "default"; "app_id" := "app1"; "user_id" := "foo@bar.com"]}
       log).2
    = (log ++ [CallGetEntry
                 {| GetEntryRequest.DomainId := "default";
                    GetEntryRequest.AppId := "app1";
                    GetEntryRequest.UserId := "foo@bar.com" |}])%list.
Proof.
  split; [vm_compute; reflexivity|]. split; [vm_compute; reflexivity|].
  split; [vm_compute; reflexivity|]. vm_compute; reflexivity.
Qed.

(** ** The routes *)

(** The templates of the nine routes. *)
Lemma route_templates e :
  runtime.Pattern_String (pattern e) =
  match e with
  | GetDomain_ => "/v1/domains/{domain_id=*}"
  | GetEpoch_ => "/v1/domains/{domain_id=*}/epochs/{epoch=*}"
  | GetLatestEpoch_ => "/v1/domains/{domain_id=*}/epochs:latest"
  | GetEpochStream_ => "/v1/domains/{domain_id=*}/epochs:stream"
  | ListMutations_ => "/v1/domains/{domain_id=*}/epochs/{epoch=*}/mutations"
  | ListMutationsStream_ =>
      "/v1/domains/{domain_id=*}/epochs/{epoch=*}/mutations:stream"
  | GetEntry_ => "/v1/domains/{domain_id=*}/apps/{app_id=*}/users/{user_id=*}"
  | ListEntryHistory_ =>
      "/v1/domains/{domain_id=*}/apps/{app_id=*}/users/{user_id=*}/history"
  | UpdateEntry_ => "/v1/domains/{domain_id=*}/apps/{app_id=*}/users/{user_id=*}"
  end.
Proof. destruct e; vm_compute; reflexivity. Qed.

(** None of the nine calls of [runtime.NewPattern] fails, so
    [runtime.MustPattern] does not panic. *)
Lemma patterns_compile e : pattern e ≠ runtime.invalid_pattern.
Proof. destruct e; vm_compute; discriminate. Qed.

(** C1, at the request that the claim describes: every route of the
    gateway is rooted at [/v1/domains/{domain_id}], with the directory
    bound to the path parameter [domain_id]; nothing is registered
    under [/v1/directories].  [GET /v1/directories/default] is answered
    with 404 and no backend call, while [GET /v1/domains/default]
    reaches the handler of the directory-metadata method. *)
Theorem routes_rooted_at_domains_not_directories client log :
  serve MarshalerForRequest AnnotateContext client
    (plain_request "GET" "/v1/directories/default" "") log
  = (OtherError "Not Found" 404, log)
  ∧ serve MarshalerForRequest AnnotateContext client
      (plain_request "GET" "/v1/domains/default" "") log
    = handler GetDomain_ MarshalerForRequest AnnotateContext client
        (plain_request "GET" "/v1/domains/default" "")
        {["domain_id" := "default"]} log
  ∧ (∀ e, ∃ rest,
       runtime.Pattern_String (pattern e) = "/v1/domains/{domain_id=*}" +:+ rest)
  ∧ (∀ e, "domain_id" ∈ required e ∧ "directory_id" ∉ required e).
Proof.
  split; [vm_compute; reflexivity|]. split; [vm_compute; reflexivity|]. split.
  - intros e. rewrite route_templates. destruct e; eexists; reflexivity.
  - intros e. rewrite required_eq.
    destruct e; (split; [elem_here|intros Hin; elem_cases Hin; discriminate]).
Qed.

(** C2, at the request that the claim describes: the gateway registers
    nine handlers, one per method of the client interface, and the
    method that serves the directory's metadata is [GetDomain]; no
    handler calls a method named [GetDirectory]. *)
Theorem gateway_registers_GetDomain_not_GetDirectory marshaler client log :
  (runtime.handlers (gateway MarshalerForRequest AnnotateContext client) !! "GET"
   = Some (map (λ e, {| runtime.pat := pattern e;
                        runtime.h := handler e MarshalerForRequest AnnotateContext client |})
             [GetDomain_; GetEpoch_; GetLatestEpoch_; GetEpochStream_; ListMutations_;
              ListMutationsStream_; GetEntry_; ListEntryHistory_])
   ∧ runtime.handlers (gateway MarshalerForRequest AnnotateContext client) !! "PUT"
     = Some [{| runtime.pat := pattern UpdateEntry_;
                runtime.h := handler UpdateEntry_ MarshalerForRequest AnnotateContext
                               client |}]
   ∧ ∀ m, m ≠ "GET" → m ≠ "PUT" →
          runtime.handlers (gateway MarshalerForRequest AnnotateContext client) !! m
          = None)
  ∧ (∀ e req pathParams log0,
       (handler e MarshalerForRequest AnnotateContext client req pathParams log0).2 = log0
       ∨ ∃ c, (handler e MarshalerForRequest AnnotateContext client req pathParams log0).2
              = (log0 ++ [c])%list
              ∧ call_endpoint c = e)
  ∧ map method_name endpoints
    = ["GetDomain"; "GetEpoch"; "GetLatestEpoch"; "GetEpochStream"; "ListMutations";
       "ListMutationsStream"; "GetEntry"; "ListEntryHistory"; "UpdateEntry"]
  ∧ ¬ ("GetDirectory" ∈ map method_name endpoints)
  ∧ (request_KeyTransparency_GetDomain_0 marshaler client
       (plain_request "GET" "/v1/domains/default" "") {["domain_id" := "default"]} log).2
    = (log ++ [CallGetDomain {| GetDomainRequest.DomainId := "default" |}])%list.
Proof.
  split; [apply gateway_handlers|]. split; [intros; apply handler_calls_own_method|].
  split; [reflexivity|]. split; [|vm_compute; reflexivity].
  vm_compute. intros Hin.
  repeat (apply elem_of_cons in Hin; destruct Hin as [Hin|Hin]; [discriminate|]).
  by apply elem_of_nil in Hin.
Qed.
(** ** The epoch parameter *)

(** Query keys that repeat the path parameters of the three epoch
    endpoints are covered by their filters. *)
Lemma epoch_filter_covers name :
  name ∈ ["domain_id"; "epoch"] →
  utilities.HasCommonPrefix filter_KeyTransparency_GetEpoch_0 (gostring.Split name ".") = true
  ∧ utilities.HasCommonPrefix filter_KeyTransparency_ListMutations_0
      (gostring.Split name ".") = true
  ∧ utilities.HasCommonPrefix filter_KeyTransparency_ListMutationsStream_0
      (gostring.Split name ".") = true.
Proof. intros Hin. elem_cases Hin; subst; vm_compute; done. Qed.

(** C8, as the code has it: [GetEpoch], [ListMutations] and
    [ListMutationsStream] convert the path parameter [epoch] with
    [runtime.Int64].  The decimal numeral of every [int64], negative
    ones included, converts to that number, and the numeral of an integer
    outside the [int64] range does not.  When the parameter converts,
    the request functions send the call with that epoch to the backend
    (the query repeating at most the path parameters); when it does not,
    they return [InvalidArgument] with the conversion's error and send
    nothing. *)
Theorem epoch_accepted_iff_int64 marshaler client req pathParams d val log :
  pathParams !! "domain_id" = Some d →
  pathParams !! "epoch" = Some val →
  Forall (λ kv, kv.1 ∈ ["domain_id"; "epoch"]) (http.URL_Query req) →
  (∀ z, is_int64 z → runtime.Int64 (strconv.Itoa z) = (z, None))
  ∧ (∀ z, ¬ is_int64 z →
          (runtime.Int64 (strconv.Itoa z)).2
          = Some (NumError "ParseInt" (strconv.Itoa z) ErrRange))
  ∧ match runtime.Int64 val with
    | (z, None) =>
        is_int64 z
        ∧ request_KeyTransparency_GetEpoch_0 marshaler client req pathParams log
          = unary (CallGetEpoch {| GetEpochRequest.DomainId := d;
                                   GetEpochRequest.Epoch := z |})
              (GetEpoch client {| GetEpochRequest.DomainId := d;
                                  GetEpochRequest.Epoch := z |}) log
        ∧ request_KeyTransparency_ListMutations_0 marshaler client req pathParams log
          = unary (CallListMutations {| ListMutationsRequest.DomainId := d;
                                        ListMutationsRequest.Epoch := z |})
              (ListMutations client {| ListMutationsRequest.DomainId := d;
                                       ListMutationsRequest.Epoch := z |}) log
        ∧ request_KeyTransparency_ListMutationsStream_0 marshaler client req pathParams log
          = streaming (CallListMutationsStream {| ListMutationsRequest.DomainId := d;
                                                  ListMutationsRequest.Epoch := z |})
              (ListMutationsStream client {| ListMutationsRequest.DomainId := d;
                                             ListMutationsRequest.Epoch := z |})
              metadata0 log
    | (_, Some err) =>
        let rejected {R} : @Result R * list (@ClientCall EntryUpdate) :=
          ((None, metadata0,
            Some (StatusError codes.InvalidArgument
                    ("type mismatch, parameter: epoch, error: " +:+ error_Error err))),
           log) in
        request_KeyTransparency_GetEpoch_0 marshaler client req pathParams log = rejected
        ∧ request_KeyTransparency_ListMutations_0 marshaler client req pathParams log
          = rejected
        ∧ request_KeyTransparency_ListMutationsStream_0 marshaler client req pathParams log
          = rejected
    end.
Proof.
  intros Hd He Hq. unfold is_int64. split; [|split].
  - intros z Hz. unfold runtime.Int64. rewrite ParseInt_Itoa.
    destruct (Z.leb_spec (- 2 ^ 63) z); [|lia].
    destruct (Z.ltb_spec z (2 ^ 63)); [reflexivity|lia].
  - intros z Hz. unfold runtime.Int64. rewrite ParseInt_Itoa.
    destruct (Z.leb_spec (- 2 ^ 63) z); [|reflexivity].
    destruct (Z.ltb_spec z (2 ^ 63)); [lia|reflexivity].
  - pose proof (ParseInt_range val) as Hr.
    unfold_request. rewrite Hd, He. unfold runtime.Int64 in *.
    destruct (strconv.ParseInt val 0 64) as [z [err|]]; simpl in *.
    + rewrite !Errorf_mismatch. done.
    + split; [exact Hr|].
      rewrite !PopulateQueryParameters_filtered; [done|..];
        (eapply Forall_impl; [exact Hq|]; intros kv Hkv; by apply epoch_filter_covers).
Qed.
End Requests.

Import fixtures.

Lemma path_parameter_errors_are_invalid_argument_witness :
  "user_id" ∈ required GetEntry_
  ∧ ({["domain_id" := "default"; "app_id" := "app1"]} : gmap string string) !! "user_id"
    = None
  ∧ ∃ message,
      request_outcome GetEntry_ fixtures.marshaler fixtures.client
        (plain_request "GET" "/v1/domains/default/apps/app1/users/" "")
        {["domain_id" := "default"; "app_id" := "app1"]} []
      = (Some (StatusError codes.InvalidArgument message), [])
      ∧ message = "missing parameter user_id".
Proof.
  assert ("user_id" ∈ required GetEntry_) as Hin by (rewrite required_eq; elem_here).
  assert (({["domain_id" := "default"; "app_id" := "app1"]} : gmap string string)
            !! "user_id" = None) as Hmiss by reflexivity.
  split; [exact Hin|]. split; [exact Hmiss|].
  destruct (path_parameter_errors_are_invalid_argument
              fixtures.MarshalerForRequest fixtures.AnnotateContext
              GetEntry_ fixtures.client
              (plain_request "GET" "/v1/domains/default/apps/app1/users/" "")
              {["domain_id" := "default"; "app_id" := "app1"]} [] "user_id"
              Hin (or_introl Hmiss)) as (message & Hout & _ & _).
  exists message. split; [exact Hout|].
  vm_compute in Hout. by inversion Hout.
Defined.

Lemma UpdateEntry_put_decodes_body_witness :
  has_byte "/" "default" = false ∧ has_byte "/" "app1" = false
  ∧ has_byte "/" "foo@bar.com" = false ∧ has_byte ":" "foo@bar.com" = false
  ∧ Decode fixtures.marshaler "" = (None, Some (ErrorString "EOF"))
  ∧ serve fixtures.MarshalerForRequest fixtures.AnnotateContext fixtures.client
      (plain_request "PUT" "/v1/domains/default/apps/app1/users/foo@bar.com" "") []
    = (HTTPError (Some metadata0) (StatusError codes.InvalidArgument "EOF"), []).
Proof.
  repeat (split; [reflexivity|]).
  exact (proj2 (proj1 (proj2 (UpdateEntry_put_decodes_body
                   fixtures.MarshalerForRequest fixtures.AnnotateContext fixtures.client
                   "default" "app1" "foo@bar.com" [] ∅ "" []
                   eq_refl eq_refl eq_refl eq_refl))
                  None (ErrorString "EOF") eq_refl)).
Defined.

Lemma epoch_accepted_iff_int64_witness :
  ({["domain_id" := "default"; "epoch" := "-5"]} : gmap string string) !! "domain_id"
  = Some "default"
  ∧ ({["domain_id" := "default"; "epoch" := "-5"]} : gmap string string) !! "epoch"
    = Some "-5"
  ∧ runtime.Int64 "-5" = (-5, None)
  ∧ request_KeyTransparency_GetEpoch_0 fixtures.marshaler fixtures.client
      (plain_request "GET" "/v1/domains/default/epochs/-5" "")
      {["domain_id" := "default"; "epoch" := "-5"]} []
    = unary (CallGetEpoch {| GetEpochRequest.DomainId := "default";
                             GetEpochRequest.Epoch := -5 |})
        (GetEpoch fixtures.client {| GetEpochRequest.DomainId := "default";
                                     GetEpochRequest.Epoch := -5 |}) [].
Proof.
  repeat (split; [reflexivity|]).
  exact (proj1 (proj2 (proj2 (proj2
           (epoch_accepted_iff_int64 fixtures.marshaler fixtures.client
              (plain_request "GET" "/v1/domains/default/epochs/-5" "")
              {["domain_id" := "default"; "epoch" := "-5"]} "default" "-5" []
              eq_refl eq_refl (List.Forall_nil _)))))).
Defined.

(** The numeral of [2^63], an integer, is rejected: the request
    function returns [InvalidArgument], the handler writes that error,
    and nothing is sent to the backend. *)
Lemma epoch_beyond_int64_rejected :
  strconv.Itoa (2 ^ 63) = "9223372036854775808"
  ∧ runtime.Int64 "9223372036854775808"
    = (2 ^ 63 - 1, Some (NumError "ParseInt" "9223372036854775808" ErrRange))
  ∧ request_KeyTransparency_GetEpoch_0 fixtures.marshaler fixtures.client
      (plain_request "GET" "/v1/domains/default/epochs/9223372036854775808" "")
      {["domain_id" := "default"; "epoch" := "9223372036854775808"]} []
    = ((None, metadata0,
        Some (StatusError codes.InvalidArgument
                ("type mismatch, parameter: epoch, error: "
                 +:+ error_Error (NumError "ParseInt" "9223372036854775808" ErrRange)))),
       [])
  ∧ serve fixtures.MarshalerForRequest fixtures.AnnotateContext fixtures.client
      (plain_request "GET" "/v1/domains/default/epochs/9223372036854775808" "") []
    = (HTTPError (Some metadata0)
         (StatusError codes.InvalidArgument
            ("type mismatch, parameter: epoch, error: "
             +:+ error_Error (NumError "ParseInt" "9223372036854775808" ErrRange))),
       []).
Proof. repeat split; vm_compute; reflexivity. Qed.

End gateway_facts.

(* ================================================================== *)
(** * Facts about the routes *)
(* ================================================================== *)

Module routing_facts.
Import keytransparency_proto gateway_spec route_spec gostring_facts gateway_facts.

(** The op list of a template that begins with a literal or with a
    variable. *)
Lemma decompile_cons pool os seg segs :
  decompile pool os = Some (seg :: segs) →
  match seg with
  | Literal s =>
      ∃ k os', os = {| runtime.code := utilities.OpLitPush; runtime.operand := k |} :: os'
               ∧ pool !! Z.to_nat k = Some s ∧ decompile pool os' = Some segs
  | Param i =>
      ∃ k1 k3 os', os = {| runtime.code := utilities.OpPush; runtime.operand := k1 |}
                        :: {| runtime.code := utilities.OpConcatN; runtime.operand := 1 |}
                        :: {| runtime.code := utilities.OpCapture; runtime.operand := k3 |}
                        :: os'
                   ∧ 0 ≤ k3 ∧ i = Z.to_nat k3 ∧ decompile pool os' = Some segs
  end.
Proof.
destruct os as [|[c1 k1] os1]; [done|]. simpl.
destruct (Z.eqb_spec c1 utilities.OpLitPush) as [->|Hne].
- destruct (pool !! Z.to_nat k1) as [s|] eqn:Hs; [|done].
  destruct (decompile pool os1) as [segs'|] eqn:Hd; [|done].
  intros [= <- <-]. by exists k1, os1.
- destruct (Z.eqb_spec c1 utilities.OpPush) as [->|]; [|done].
  destruct os1 as [|[c2 k2] [|[c3 k3] os3]]; try done. simpl.
  destruct (Z.eqb_spec c2 utilities.OpConcatN) as [->|]; [|done].
  destruct (Z.eqb_spec k2 1) as [->|]; [|done].
  destruct (Z.eqb_spec c3 utilities.OpCapture) as [->|]; [|done].
  destruct (Z.leb_spec 0 k3); [|done]. simpl.
  destruct (decompile pool os3) as [segs'|] eqn:Hd; [|done].
  intros [= <- <-]. by exists k1, k3, os3.
Qed.

Lemma decompile_nil pool os : decompile pool os = Some [] → os = [].
Proof.
destruct os as [|o1 os1]; [done|]. simpl. repeat case_match; done.
Qed.

Lemma drop_cons_inv {A} (l : list A) n c l' :
  drop n l = c :: l' → l !! n = Some c ∧ drop (S n) l = l' ∧ (n < length l)%nat.
Proof.
revert n. induction l as [|x l IH]; intros [|n] H; simpl in *; try done.
- simplify_eq. repeat split. lia.
- apply IH in H as (? & ? & ?). repeat split; [done..|lia].
Qed.

(** The op-code machine follows the template: it fails where the walk
    fails, and otherwise ends with the walk's captures, at the position
    of the first component left over. *)
Lemma Match_loop_walk p comps segs : ∀ os st,
  decompile (runtime.pool p) os = Some segs →
  0 ≤ runtime.pos st ≤ gostring.llen comps →
  match walk segs (drop (Z.to_nat (runtime.pos st)) comps) (runtime.captured st) with
  | None => runtime.Match_loop p comps os st = None
  | Some (cap, rest) =>
      ∃ st', runtime.Match_loop p comps os st = Some st'
             ∧ runtime.captured st' = cap
             ∧ runtime.pos st' = gostring.llen comps - gostring.llen rest
  end.
Proof.
induction segs as [|seg segs IH]; intros os st Hd Hpos.
- apply decompile_nil in Hd as ->. simpl. exists st. repeat split.
  unfold gostring.llen in *. rewrite length_drop. lia.
- apply decompile_cons in Hd. destruct seg as [s|i].
  + destruct Hd as (k & os' & -> & Hk & Hd).
    cbn [walk runtime.Match_loop runtime.code runtime.operand].
    change (utilities.OpLitPush =? utilities.OpNop) with false.
    change ((utilities.OpLitPush =? utilities.OpPush)
            || (utilities.OpLitPush =? utilities.OpLitPush)) with true.
    change (utilities.OpLitPush =? utilities.OpLitPush) with true.
    cbv iota. rewrite Hk. cbn [default from_option id andb].
    destruct (drop (Z.to_nat (runtime.pos st)) comps) as [|c comps'] eqn:Hdrop.
    * apply (f_equal length) in Hdrop. rewrite length_drop in Hdrop. simpl in Hdrop.
      unfold gostring.llen in *.
      replace (runtime.pos st >=? Z.of_nat (length comps)) with true by lia. done.
    * apply drop_cons_inv in Hdrop as (Hc & Hrest & Hlt).
      unfold gostring.llen in Hpos.
      replace (runtime.pos st >=? gostring.llen comps) with false
        by (unfold gostring.llen; lia).
      rewrite Hc. cbn [default from_option id].
      destruct (decide (c = s)) as [->|Hne].
      -- rewrite bool_decide_eq_true_2 by done. cbn [negb]. cbv iota.
         specialize (IH os' {| runtime.pos := runtime.pos st + 1;
                               runtime.mstack := (runtime.mstack st ++ [s])%list;
                               runtime.captured := runtime.captured st |} Hd).
         cbn [runtime.pos runtime.captured] in IH.
         replace (Z.to_nat (runtime.pos st + 1)) with (S (Z.to_nat (runtime.pos st)))
           in IH by lia.
         rewrite Hrest in IH. apply IH. unfold gostring.llen. lia.
      -- rewrite bool_decide_eq_false_2 by done. done.
  + destruct Hd as (k1 & k3 & os' & -> & Hk3 & -> & Hd).
    cbn [walk runtime.Match_loop runtime.code runtime.operand].
    change (utilities.OpPush =? utilities.OpNop) with false.
    change ((utilities.OpPush =? utilities.OpPush)
            || (utilities.OpPush =? utilities.OpLitPush)) with true.
    change (utilities.OpPush =? utilities.OpLitPush) with false.
    change (utilities.OpConcatN =? utilities.OpNop) with false.
    change ((utilities.OpConcatN =? utilities.OpPush)
            || (utilities.OpConcatN =? utilities.OpLitPush)) with false.
    change (utilities.OpConcatN =? utilities.OpPushM) with false.
    change (utilities.OpConcatN =? utilities.OpConcatN) with true.
    change (utilities.OpCapture =? utilities.OpNop) with false.
    change ((utilities.OpCapture =? utilities.OpPush)
            || (utilities.OpCapture =? utilities.OpLitPush)) with false.
    change (utilities.OpCapture =? utilities.OpPushM) with false.
    change (utilities.OpCapture =? utilities.OpConcatN) with false.
    change (utilities.OpCapture =? utilities.OpCapture) with true.
    cbv iota. cbn [andb].
    destruct (drop (Z.to_nat (runtime.pos st)) comps) as [|c comps'] eqn:Hdrop.
    * apply (f_equal length) in Hdrop. rewrite length_drop in Hdrop. simpl in Hdrop.
      unfold gostring.llen in *.
      replace (runtime.pos st >=? Z.of_nat (length comps)) with true by lia. done.
    * apply drop_cons_inv in Hdrop as (Hc & Hrest & Hlt).
      unfold gostring.llen in Hpos.
      replace (runtime.pos st >=? gostring.llen comps) with false
        by (unfold gostring.llen; lia).
      cbv iota. rewrite Hc.
      cbn [default from_option id runtime.pos runtime.mstack runtime.captured].
      replace (Z.to_nat (gostring.llen (runtime.mstack st ++ [c]) - 1))
        with (length (runtime.mstack st))
        by (unfold gostring.llen; rewrite length_app; simpl; lia).
      rewrite take_app_length, drop_app_length. cbn [gostring.Join].
      replace (length (runtime.mstack st ++ [c]) - 1)%nat
        with (length (runtime.mstack st)) by (rewrite length_app; simpl; lia).
      rewrite take_app_length, list_lookup_middle by done.
      cbn [default from_option id].
      specialize (IH os' {| runtime.pos := runtime.pos st + 1;
                            runtime.mstack := runtime.mstack st;
                            runtime.captured :=
                              <[Z.to_nat k3 := c]> (runtime.captured st) |} Hd).
      cbn [runtime.pos runtime.captured] in IH.
      replace (Z.to_nat (runtime.pos st + 1)) with (S (Z.to_nat (runtime.pos st)))
        in IH by lia.
      rewrite Hrest in IH. apply IH. unfold gostring.llen. lia.
Qed.

(** [Match] on a pattern whose op list reads back as a template. *)
Lemma Match_template p segs comps vb :
  decompile (runtime.pool p) (runtime.ops p) = Some segs →
  runtime.Match p comps vb
  = if negb (bool_decide (runtime.verb p = vb)) then (None, Some runtime.ErrNotMatch)
    else match walk segs comps (replicate (length (runtime.vars p)) "") with
         | Some (cap, []) => (Some (runtime.bindings_of (runtime.vars p) cap), None)
         | _ => (None, Some runtime.ErrNotMatch)
         end.
Proof.
intros Hd. unfold runtime.Match. destruct (negb _); [done|].
pose proof (Match_loop_walk p comps segs (runtime.ops p)
              {| runtime.pos := 0; runtime.mstack := [];
                 runtime.captured := replicate (length (runtime.vars p)) "" |} Hd) as H.
cbn [runtime.pos runtime.captured] in H. change (drop (Z.to_nat 0) comps) with comps in H.
specialize (H ltac:(unfold gostring.llen; lia)).
destruct (walk segs comps _) as [[cap rest]|].
- destruct H as (st' & -> & <- & Hp). rewrite Hp.
  destruct rest as [|r rest].
  + destruct (Z.ltb_spec (gostring.llen comps - gostring.llen (@nil string))
                (gostring.llen comps)) as [Hlt|_]; [|done].
    unfold gostring.llen in Hlt. cbn [length] in Hlt. lia.
  + destruct (Z.ltb_spec (gostring.llen comps - gostring.llen (r :: rest))
                (gostring.llen comps)) as [_|Hge]; [done|].
    unfold gostring.llen in Hge. cbn [length] in Hge. lia.
- by rewrite H.
Qed.

(** The nine op lists read back as the nine templates. *)
Lemma decompile_pattern e :
  decompile (runtime.pool (pattern e)) (runtime.ops (pattern e)) = Some (template e).
Proof. destruct e; vm_compute; reflexivity. Qed.

Lemma pattern_verb e : runtime.verb (pattern e) = verb_of e.
Proof. by destruct e. Qed.

Lemma pair_Some_inj {A B} (x y : A) (e1 e2 : B) : (Some x, e1) = (Some y, e2) → x = y.
Proof. by intros [= ->]. Qed.

Ltac walk_fails :=
  cbv beta iota;
  lazymatch goal with |- (None, _) = _ → _ => intros ?; discriminate end.

Ltac walk_step :=
  match goal with
  | |- context [match ?c with [] => _ | _ :: _ => _ end] =>
      is_var c; destruct c as [|? ?]; [walk_fails|]
  | |- context [decide (?x = ?s)] =>
      destruct (decide (x = s)) as [->|]; [|walk_fails]
  end.

(** A pattern of the gateway matches exactly the component lists of
    its template with its verb, and binds the template's variables. *)
Lemma Match_shape e comps vb b :
  runtime.Match (pattern e) comps vb = (Some b, None)
  ↔ ∃ v, comps = components e v ∧ vb = verb_of e ∧ b = bindings e v.
Proof.
rewrite (Match_template _ _ _ _ (decompile_pattern e)), pattern_verb.
split.
- case_bool_decide as Hv; [|done]. cbn [negb]. subst vb.
  destruct e; cbn [template walk]; repeat walk_step;
    match goal with
    | |- context [match ?c with [] => _ | _ :: _ => _ end] =>
        destruct c; [|walk_fails]
    end;
    intros <-%pair_Some_inj;
    eexists (Build_ids _ _ _ _); (split; [reflexivity|]); (split; [reflexivity|]);
    vm_compute; reflexivity.
- intros (v & -> & -> & ->). destruct e; vm_compute; reflexivity.
Unshelve. all: exact "".
Qed.

(** [Match] returns either bindings or an error. *)
Lemma Match_cases p comps vb :
  (∃ b, runtime.Match p comps vb = (Some b, None))
  ∨ runtime.Match p comps vb = (None, Some runtime.ErrNotMatch).
Proof. unfold runtime.Match. repeat case_match; eauto. Qed.

Lemma components_inj e1 e2 v1 v2 :
  components e1 v1 = components e2 v2 → verb_of e1 = verb_of e2 →
  http_method e1 = http_method e2 → e1 = e2 ∧ bindings e1 v1 = bindings e2 v2.
Proof.
destruct v1, v2.
destruct e1, e2; cbn [components verb_of http_method domain app user epoch];
  intros Hc Hv Hm;
  try discriminate Hv; try discriminate Hm;
  try (apply (f_equal length) in Hc; discriminate Hc);
  try (by (injection Hc as ?; subst));
  injection Hc as ?; subst; split; reflexivity.
Qed.

(** X1: a compiled pattern of the gateway accepts a list of path
    components and a verb exactly when they are those of its template
    for some values of the variables, and then binds each variable of
    the template to its value, and nothing else. *)
Theorem patterns_match_exactly_their_templates e comps vb b :
  runtime.Match (pattern e) comps vb = (Some b, None)
  ↔ ∃ v, comps = components e v ∧ vb = verb_of e ∧ b = bindings e v.
Proof. apply Match_shape. Qed.

(** X2: no list of components with a verb is matched by the patterns
    of two endpoints that are registered under the same HTTP method, so
    the order of the registrations decides nothing. *)
Theorem routes_of_one_method_do_not_overlap e1 e2 comps vb b1 b2 :
  http_method e1 = http_method e2 →
  runtime.Match (pattern e1) comps vb = (Some b1, None) →
  runtime.Match (pattern e2) comps vb = (Some b2, None) →
  e1 = e2 ∧ b1 = b2.
Proof.
intros Hm (v1 & -> & -> & ->)%Match_shape (v2 & Hc & Hv & ->)%Match_shape.
by apply components_inj.
Qed.

(** ** Serving a request *)

Lemma ServeHTTP_parse {W} (s : runtime.ServeMux W) other (r : http.Request) :
  runtime.ServeHTTP s other r
  = match parse_path (http.URL_Path r) with
    | inl status => other (http.StatusText status) status
    | inr (comps, vb) =>
        match runtime.first_match (default [] (runtime.handlers s !! http.Method r))
                comps vb with
        | Some (hd, pathParams) => runtime.h hd r pathParams
        | None =>
            if existsb
                 (λ mh, negb (bool_decide (mh.1 = http.Method r))
                        && bool_decide (is_Some (runtime.first_match mh.2 comps vb)))
                 (map_to_list (runtime.handlers s))
            then other (http.StatusText http.StatusMethodNotAllowed)
                   http.StatusMethodNotAllowed
            else other (http.StatusText http.StatusNotFound) http.StatusNotFound
        end
    end.
Proof.
unfold runtime.ServeHTTP, parse_path.
destruct (negb _); [done|]. cbv zeta.
destruct (_ =? 0); [done|]. by destruct (_ >? 0).
Qed.

(** The first match is an element of the list, and its pattern
    matches. *)
Lemma first_match_Some {W} (hs : list (runtime.handler W)) comps vb hd b :
  runtime.first_match hs comps vb = Some (hd, b) →
  hd ∈ hs ∧ runtime.Match (runtime.pat hd) comps vb = (Some b, None).
Proof.
induction hs as [|x hs IH]; [done|]. simpl.
destruct (runtime.Match (runtime.pat x) comps vb) as [[b'|] [err|]] eqn:Hm;
  try (intros [? ?]%IH; split; [by right|done]).
intros [= <- <-]. split; [by left|done].
Qed.

Lemma first_match_skip {W} (x : runtime.handler W) hs comps vb :
  runtime.Match (runtime.pat x) comps vb = (None, Some runtime.ErrNotMatch) →
  runtime.first_match (x :: hs) comps vb = runtime.first_match hs comps vb.
Proof. intros H. simpl. by rewrite H. Qed.

Lemma first_match_here {W} (x : runtime.handler W) hs comps vb b :
  runtime.Match (runtime.pat x) comps vb = (Some b, None) →
  runtime.first_match (x :: hs) comps vb = Some (x, b).
Proof. intros H. simpl. by rewrite H. Qed.

(** A request to one endpoint is matched by no other template of the
    same method. *)
Lemma Match_other e e' v :
  e' ≠ e → http_method e' = http_method e →
  runtime.Match (pattern e') (components e v) (verb_of e)
  = (None, Some runtime.ErrNotMatch).
Proof.
intros Hne Hm.
destruct (Match_cases (pattern e') (components e v) (verb_of e)) as [[b Hb]|]; [|done].
apply Match_shape in Hb as (v' & Hc & Hv & _).
destruct (components_inj e e' v v' Hc Hv (eq_sym Hm)) as [-> _]. done.
Qed.

Lemma Match_own e v :
  runtime.Match (pattern e) (components e v) (verb_of e) = (Some (bindings e v), None).
Proof. apply Match_shape. by exists v. Qed.

(** Paths *)

Lemma Split_Join comps :
  comps ≠ [] → Forall (λ c, has_byte "/" c = false) comps →
  gostring.Split (gostring.Join comps "/") "/" = comps.
Proof.
intros Hne Hall. unfold gostring.Split.
induction Hall as [|c comps Hc Hall IH]; [done|].
destruct comps as [|c2 comps].
- simpl. by rewrite Split_go_last.
- change (gostring.Join (c :: c2 :: comps) "/")
    with (c +:+ String "/" (gostring.Join (c2 :: comps) "/")).
  rewrite Split_go_segment by done. f_equal. by apply IH.
Qed.

Lemma path_of_Join e v :
  path_of e v = String "/" (gostring.Join (raw_components e v) "/").
Proof. destruct e; reflexivity. Qed.

Lemma parse_path_of e v :
  addressable e v → parse_path (path_of e v) = inr (components e v, verb_of e).
Proof.
intros (Hd & Ha & Hu & Hp & Hlast).
unfold parse_path. rewrite path_of_Join.
change (gostring.at_ (String "/" ?s) 0) with (gostring.byte "/").
change (gostring.from (String "/" ?s) 1) with s.
change (negb (gostring.byte "/" =? gostring.byte "/")) with false. cbv iota.
rewrite Split_Join; [|by destruct e|].
2:{ destruct e; cbn [raw_components components];
      repeat (apply Forall_cons; split; [done|]); apply Forall_nil_2. }
cbv zeta.
destruct e; cbn [raw_components components length Nat.sub lookup list_lookup
                 default from_option id];
  rewrite ?(LastIndexByte_absent ":" _ Hlast); vm_compute; reflexivity.
Qed.

Section Serving.
Context {EntryUpdate Message : Type}
        `{!runtime.ProtoMessage GetDomainRequest.t,
          !runtime.ProtoMessage GetEpochRequest.t,
          !runtime.ProtoMessage GetLatestEpochRequest.t,
          !runtime.ProtoMessage ListMutationsRequest.t,
          !runtime.ProtoMessage GetEntryRequest.t,
          !runtime.ProtoMessage ListEntryHistoryRequest.t,
          !runtime.ProtoMessage (UpdateEntryRequest.t EntryUpdate)}.
Implicit Types (marshaler : @Marshaler EntryUpdate)
               (client : @KeyTransparencyClient EntryUpdate Message)
               (log : list (@ClientCall EntryUpdate)).
Context (MarshalerForRequest : http.Request → @Marshaler EntryUpdate * @Marshaler EntryUpdate)
        (AnnotateContext : http.Request → option error).

Lemma gateway_registered client m :
  default [] (runtime.handlers (gateway MarshalerForRequest AnnotateContext client) !! m)
  = map (λ e, entry e MarshalerForRequest AnnotateContext client) (registered m).
Proof.
destruct (gateway_handlers MarshalerForRequest AnnotateContext client) as (Hg & Hp & Ho).
unfold registered. destruct (decide (m = "GET")) as [->|Hget]; [by rewrite Hg|].
destruct (decide (m = "PUT")) as [->|Hput]; [by rewrite Hp|].
by rewrite Ho.
Qed.

Lemma registered_method e m : e ∈ registered m → http_method e = m.
Proof.
unfold registered. repeat case_decide; subst; intros Hin;
  [| |by apply elem_of_nil in Hin]; elem_cases Hin; by subst.
Qed.

Lemma registered_own e : e ∈ registered (http_method e).
Proof. destruct e; vm_compute; elem_here. Qed.

Lemma first_match_entries client es e v :
  e ∈ es → (∀ e', e' ∈ es → http_method e' = http_method e) →
  runtime.first_match
    (map (λ e, entry e MarshalerForRequest AnnotateContext client) es)
    (components e v) (verb_of e)
  = Some (entry e MarshalerForRequest AnnotateContext client, bindings e v).
Proof.
induction es as [|x es IH]; intros Hin Hm; [by apply elem_of_nil in Hin|].
rewrite fmap_cons. destruct (decide (x = e)) as [->|Hne].
- apply first_match_here, Match_own.
- rewrite first_match_skip.
  + apply IH.
    * apply elem_of_cons in Hin as [->|]; done.
    * intros e' He'. apply Hm. by right.
  + apply Match_other; [done|]. apply Hm. by left.
Qed.

Lemma first_match_registered client e v :
  runtime.first_match
    (map (λ e, entry e MarshalerForRequest AnnotateContext client)
       (registered (http_method e)))
    (components e v) (verb_of e)
  = Some (entry e MarshalerForRequest AnnotateContext client, bindings e v).
Proof.
apply first_match_entries; [apply registered_own|].
intros e' He'. by apply registered_method.
Qed.

(** A request with the method and the path of an endpoint reaches
    the handler of that endpoint, with the path's values bound. *)
Lemma serve_path_of client e v req :
  addressable e v →
  http.Method req = http_method e →
  http.URL_Path req = path_of e v →
  serve MarshalerForRequest AnnotateContext client req
  = handler e MarshalerForRequest AnnotateContext client req (bindings e v).
Proof.
intros Hv Hm Hp. unfold serve.
rewrite ServeHTTP_parse, Hp, (parse_path_of e v Hv), Hm, gateway_registered,
  first_match_registered.
reflexivity.
Qed.

(** X3: a request whose method and path are those of an endpoint, for
    path values without a slash (and without a colon in the last one),
    is handed to the handler of that endpoint, with exactly the
    template's variables bound to the path values; query, headers and
    body play no part in the routing. *)
Theorem well_formed_requests_reach_their_handler client e v req :
  addressable e v →
  http.Method req = http_method e →
  http.URL_Path req = path_of e v →
  serve MarshalerForRequest AnnotateContext client req
  = handler e MarshalerForRequest AnnotateContext client req (bindings e v).
Proof. apply serve_path_of. Qed.

(** X4: the gateway never answers a request in a third way: for a
    request that is not a form-encoded POST, the multiplexer refuses it
    with status 400, 404 or 405, or hands it to the handler of one
    endpoint registered under the request's method, whose template the
    path has, with the variables of the template bound. *)
Theorem serve_refuses_or_dispatches_to_one_endpoint client req :
  ¬ falls_back req →
  (∃ status, status ∈ [400; 404; 405]
     ∧ serve MarshalerForRequest AnnotateContext client req
       = ret (OtherError (http.StatusText status) status))
  ∨ (∃ e v, http_method e = http.Method req
       ∧ parse_path (http.URL_Path req) = inr (components e v, verb_of e)
       ∧ serve MarshalerForRequest AnnotateContext client req
         = handler e MarshalerForRequest AnnotateContext client req (bindings e v)).
Proof.
intros _. unfold serve. rewrite ServeHTTP_parse.
destruct (parse_path (http.URL_Path req)) as [status|[comps vb]] eqn:Hparse.
- left. exists status. split; [|done].
  unfold parse_path in Hparse. repeat case_match; simplify_eq; set_solver.
- rewrite gateway_registered.
  destruct (runtime.first_match _ comps vb) as [[hd b]|] eqn:Hfm.
  + right. apply first_match_Some in Hfm as [Hin Hm].
    apply list_elem_of_fmap in Hin as (e & -> & He).
    apply Match_shape in Hm as (v & -> & -> & ->).
    exists e, v. split; [by apply registered_method|done].
  + left. destruct (existsb _ _).
    * exists 405. split; [set_solver|done].
    * exists 404. split; [set_solver|done].
Qed.

Lemma existsb_elem_of {A} (f : A → bool) (l : list A) x :
  x ∈ l → f x = true → existsb f l = true.
Proof.
induction l as [|y l IH]; intros Hin Hf; [by apply elem_of_nil in Hin|].
cbn [existsb]. apply elem_of_cons in Hin as [->|Hin]; [by rewrite Hf|].
rewrite IH by done. apply orb_true_r.
Qed.

Lemma gateway_lookup client e :
  runtime.handlers (gateway MarshalerForRequest AnnotateContext client) !! http_method e
  = Some (map (λ e, entry e MarshalerForRequest AnnotateContext client)
            (registered (http_method e))).
Proof.
pose proof (gateway_registered client (http_method e))
  as Hreg.
destruct (gateway_handlers MarshalerForRequest AnnotateContext client) as (Hg & Hpt & _).
destruct e; cbn [http_method] in *;
  first [ rewrite Hg in Hreg |- * | rewrite Hpt in Hreg |- * ];
  cbn [default from_option id] in Hreg; by rewrite Hreg.
Qed.

(** X5: a request on the path of an endpoint with a method other than
    GET and PUT, and that is not a form-encoded POST, is answered with
    405 Method Not Allowed, not with 404, and reaches no handler. *)
Theorem known_path_with_another_method_is_not_allowed client e v req :
  addressable e v →
  http.URL_Path req = path_of e v →
  http.Method req ≠ "GET" → http.Method req ≠ "PUT" →
  ¬ falls_back req →
  serve MarshalerForRequest AnnotateContext client req
  = ret (OtherError "Method Not Allowed" 405).
Proof.
intros Hv Hp Hget Hput _. unfold serve.
rewrite ServeHTTP_parse, Hp, (parse_path_of e v Hv), gateway_registered.
unfold registered at 1. rewrite !decide_False by done.
cbn [map runtime.first_match].
rewrite (existsb_elem_of _ _
           (http_method e,
            map (λ e, entry e MarshalerForRequest AnnotateContext client)
              (registered (http_method e)))); [reflexivity| |].
- apply (proj2 (elem_of_map_to_list
                  (runtime.handlers (gateway MarshalerForRequest AnnotateContext client))
                  _ _)).
  apply gateway_lookup.
- cbn [fst snd]. rewrite first_match_registered.
  rewrite bool_decide_eq_false_2 by (destruct e; cbn [http_method]; congruence).
  cbn [negb andb]. by rewrite bool_decide_eq_true_2.
Qed.

End Serving.

End routing_facts.

(* ================================================================== *)
(** * Facts about the filters of query parameters *)
(* ================================================================== *)

Module filter_facts.
Import keytransparency_proto gateway_spec filter_spec gateway_facts.

Lemma walk_cons da t seq i :
  utilities.HasCommonPrefix_walk da (t :: seq) i
  = match utilities.Encoding da !! t with
    | None => i
    | Some code =>
        let j := utilities.idx (utilities.Base da) i + code in
        if (Z.of_nat (length (utilities.Check da)) <=? j)
           || negb (utilities.idx (utilities.Check da) j =? i + 1)
        then i
        else utilities.HasCommonPrefix_walk da seq j
    end.
Proof. reflexivity. Qed.

(** From a state without outgoing transitions the walk does not move. *)
Lemma walk_leaf da j seq :
  (∀ t code, utilities.Encoding da !! t = Some code →
     (Z.of_nat (length (utilities.Check da)) <=? utilities.idx (utilities.Base da) j + code)
     || negb (utilities.idx (utilities.Check da) (utilities.idx (utilities.Base da) j + code)
              =? j + 1) = true) →
  utilities.HasCommonPrefix_walk da seq j = j.
Proof.
intros Hleaf. destruct seq as [|t seq]; [done|]. rewrite walk_cons.
destruct (utilities.Encoding da !! t) as [code|] eqn:Ht; [|done].
cbv zeta. by rewrite (Hleaf t code Ht).
Qed.

Lemma Encoding_keys e t code :
  utilities.Encoding (filter_of e) !! t = Some code →
  (t, code) ∈ zip (bound_fields e) (seqZ 0 (Z.of_nat (length (bound_fields e)))).
Proof.
destruct e; cbn [filter_of]; unfold filter_KeyTransparency_GetDomain_0,
  filter_KeyTransparency_GetEpoch_0, filter_KeyTransparency_GetLatestEpoch_0,
  filter_KeyTransparency_GetEpochStream_0, filter_KeyTransparency_ListMutations_0,
  filter_KeyTransparency_ListMutationsStream_0, filter_KeyTransparency_GetEntry_0,
  filter_KeyTransparency_ListEntryHistory_0, filter_KeyTransparency_UpdateEntry_0;
  cbn [utilities.Encoding]; intros Hin%elem_of_list_to_map_2; exact Hin.
Qed.

Lemma Encoding_unbound e t :
  t ∉ bound_fields e → utilities.Encoding (filter_of e) !! t = None.
Proof.
intros Hout. destruct (utilities.Encoding (filter_of e) !! t) as [code|] eqn:Ht; [|done].
apply Encoding_keys, elem_of_zip_l in Ht. done.
Qed.

Ltac eval_test :=
  match goal with
  | |- context [if ?c then _ else _] =>
      let r := eval vm_compute in c in
      replace c with r by (vm_compute; reflexivity); cbv iota
  end.

Ltac eval_lookup :=
  match goal with
  | |- context [utilities.Encoding ?da !! ?t] =>
      let r := eval vm_compute in (utilities.Encoding da !! t) in
      replace (utilities.Encoding da !! t) with r by (vm_compute; reflexivity);
      cbv iota beta
  end.

(** The filter of an endpoint covers exactly the field paths that
    begin with one of its bound fields. *)
Lemma HasCommonPrefix_bound e fieldPath :
  utilities.HasCommonPrefix (filter_of e) fieldPath = bound_path e fieldPath.
Proof.
destruct fieldPath as [|t rest]; [destruct e; vm_compute; reflexivity|].
cbn [bound_path]. unfold utilities.HasCommonPrefix.
destruct (decide _) as [Hl|_]; [by destruct e|]. cbv zeta.
rewrite walk_cons. case_bool_decide as Hin.
- destruct e; cbn [bound_fields] in Hin; elem_cases Hin; subst t;
    eval_lookup; cbv zeta; eval_test;
    (rewrite walk_leaf;
     [ vm_compute; reflexivity
     | intros t' code' Ht'; apply Encoding_keys in Ht';
       match type of Ht' with
       | _ ∈ ?l => let r := eval vm_compute in l in change l with r in Ht'
       end;
       elem_cases Ht'; simplify_eq; vm_compute; reflexivity ]).
- rewrite Encoding_unbound by done. destruct e; vm_compute; reflexivity.
Qed.

(** X6: the double array that an endpoint hands to the query pass
    covers a field path exactly when the path begins with one of the
    fields that the endpoint binds from the URL path or the body. *)
Theorem filters_cover_exactly_the_bound_fields e fieldPath :
  utilities.HasCommonPrefix (filter_of e) fieldPath = true
  ↔ ∃ name rest, fieldPath = name :: rest ∧ name ∈ bound_fields e.
Proof.
rewrite HasCommonPrefix_bound. destruct fieldPath as [|name rest]; cbn [bound_path].
- split; [done|]. by intros (? & ? & ? & ?).
- rewrite bool_decide_eq_true. split.
  + intros Hin. by exists name, rest.
  + by intros (? & ? & [= -> ->] & ?).
Qed.

End filter_facts.

(* ================================================================== *)
(** * Facts about the request functions as a family *)
(* ================================================================== *)

Module request_facts.
Import keytransparency_proto gateway_spec route_spec filter_spec handler_spec.
Import gateway_facts filter_facts.

(** Query keys that address a bound field are skipped. *)
Lemma PopulateQueryParameters_unbound {Msg} `{!runtime.ProtoMessage Msg}
    e (m : Msg) values :
  runtime.PopulateQueryParameters m values (filter_of e)
  = runtime.PopulateQueryParameters m (unbound_query e values) (filter_of e).
Proof.
revert m. induction values as [|[key vals] values IH]; intros m; [done|].
cbn [runtime.PopulateQueryParameters unbound_query List.filter fst].
rewrite HasCommonPrefix_bound.
destruct (bound_path e (gostring.Split key ".")) eqn:Hb; cbn [negb].
- apply IH.
- cbn [runtime.PopulateQueryParameters]. rewrite HasCommonPrefix_bound, Hb.
  destruct (runtime.populateFieldValueFromPath m _ vals) as [m' [err|]]; [done|].
  apply IH.
Qed.

Section Requests.
Context {EntryUpdate Message : Type}
        `{!runtime.ProtoMessage GetDomainRequest.t,
          !runtime.ProtoMessage GetEpochRequest.t,
          !runtime.ProtoMessage GetLatestEpochRequest.t,
          !runtime.ProtoMessage ListMutationsRequest.t,
          !runtime.ProtoMessage GetEntryRequest.t,
          !runtime.ProtoMessage ListEntryHistoryRequest.t,
          !runtime.ProtoMessage (UpdateEntryRequest.t EntryUpdate)}.
Implicit Types (marshaler : @Marshaler EntryUpdate)
               (client : @KeyTransparencyClient EntryUpdate Message)
               (log : list (@ClientCall EntryUpdate)).

Ltac unfold_family :=
  unfold request, request_KeyTransparency_GetDomain_0, request_KeyTransparency_GetEpoch_0,
    request_KeyTransparency_GetLatestEpoch_0, request_KeyTransparency_GetEpochStream_0,
    request_KeyTransparency_ListMutations_0, request_KeyTransparency_ListMutationsStream_0,
    request_KeyTransparency_GetEntry_0, request_KeyTransparency_ListEntryHistory_0,
    request_KeyTransparency_UpdateEntry_0,
    finish, param, converted, checked, runtime.String.

(** X7: a query key is skipped when its first element is the proto
    name of a field that the endpoint binds from the URL path or the
    body ([domain_id], [epoch], [app_id], [user_id], [entry_update]): a
    request function returns the same answer and sends the same call
    when these keys are removed from the query.  The filter holds the
    proto names only: a key under another spelling of a bound field,
    such as its JSON name [domainId], is not among the keys removed
    here and is handed to the query pass like any other key. *)
Theorem query_keys_under_bound_proto_names_are_skipped e marshaler client req pathParams log :
  request e marshaler client req pathParams log
  = request e marshaler client (strip_query e req) pathParams log.
Proof.
destruct e; unfold_family; cbn [strip_query http.URL_Query http.Body];
  request_cases pathParams; try reflexivity;
  match goal with
  | |- context [unbound_query ?e _] =>
      pose proof (λ Msg H m,
                    @PopulateQueryParameters_unbound Msg H e m (http.URL_Query req)) as Hq;
      cbn [filter_of] in Hq; rewrite Hq
  end;
  reflexivity.
Qed.

Ltac unfold_answer :=
  unfold unary, streaming, bind, invoke, ret, prod_map, as_message, as_stream, answer,
    unary_answer, stream_answer, refusal, populate; cbn [fst snd fmap option_fmap option_map id].

(** X8: for a client that returns a stream whenever it returns no
    error, a request function either refuses the request with an
    [InvalidArgument] status, empty metadata and no backend call, or
    calls its own backend method exactly once and returns the backend's
    message, metadata and error as they are. *)
Theorem request_refuses_or_relays e marshaler client req pathParams log :
  streams_or_fails client →
  (∃ message, request e marshaler client req pathParams log = (refusal message, log))
  ∨ (∃ call, call_endpoint call = e
       ∧ request e marshaler client req pathParams log
         = (answer client call, (log ++ [call])%list)).
Proof.
intros _.
destruct e; unfold_family; request_cases pathParams;
  rewrite ?Errorf_missing, ?Errorf_mismatch, ?Errorf_v;
  try (left; eexists; reflexivity);
  (destruct (runtime.PopulateQueryParameters _ _ _) as [m [e|]]; cbn;
   rewrite ?Errorf_v; [left; eexists; reflexivity|]);
  right; unfold_answer;
  lazymatch goal with |- context [(log ++ [?c])%list] => exists c end;
  (split; [reflexivity|]); unfold_answer; repeat case_match; simplify_eq/=; reflexivity.
Qed.

Ltac eval_binding :=
  match goal with
  | |- context [bindings ?e ?v !! ?n] =>
      let r := eval vm_compute in (bindings e v !! n) in
      replace (bindings e v !! n) with r by (vm_compute; reflexivity)
  end.

Ltac use_bindings Hpp pathParams :=
  repeat match goal with
         | |- context [pathParams !! ?n] =>
             rewrite (Hpp n) by (rewrite required_eq; elem_here); eval_binding
         end.

(** With the path parameters of a match, an epoch that converts and a
    body that decodes, a request function sends the prepared message
    after the query pass, or refuses with the error of that pass. *)
Lemma request_prepared
    e marshaler client req pathParams v z upd log :
  (∀ name, name ∈ required e → pathParams !! name = bindings e v !! name) →
  ("epoch" ∈ required e → runtime.Int64 (epoch v) = (z, None)) →
  (e = UpdateEntry_ → Decode marshaler (http.Body req) = (upd, None)) →
  request e marshaler client req pathParams log
  = match populate (prepared e v z upd) (http.URL_Query req) (filter_of e) with
    | (call, None) => (answer client call, (log ++ [call])%list)
    | (_, Some err) => (refusal (error_Error err), log)
    end.
Proof.
intros Hpp Hz Hupd. destruct v as [d a u p]. cbn [epoch] in Hz.
destruct e; unfold_family; cbn [prepared populate filter_of domain app user epoch];
  try rewrite (Hupd eq_refl); cbn [fst snd];
  use_bindings Hpp pathParams; cbv beta iota;
  try (rewrite Hz by (rewrite required_eq; elem_here); cbv beta iota);
  (destruct (runtime.PopulateQueryParameters _ _ _) as [m [err|]]; cbn;
   rewrite ?Errorf_v; [reflexivity|]);
  unfold_answer; repeat case_match; simplify_eq/=; reflexivity.
Qed.

(** X9: for a client that returns a stream whenever it returns no
    error: when the path parameters are those of a match, the epoch
    (for the endpoints that have one) converts and the body (for
    [UpdateEntry]) decodes, the request function sends the message
    built from them after the query pass, a streaming endpoint without
    epoch in its path starting from epoch 0; when the query pass fails
    it refuses with the text of that error and sends nothing. *)
Theorem request_with_its_path_parameters
    e marshaler client req pathParams v z upd log :
  streams_or_fails client →
  (∀ name, name ∈ required e → pathParams !! name = bindings e v !! name) →
  ("epoch" ∈ required e → runtime.Int64 (epoch v) = (z, None)) →
  (e = UpdateEntry_ → Decode marshaler (http.Body req) = (upd, None)) →
  request e marshaler client req pathParams log
  = match populate (prepared e v z upd) (http.URL_Query req) (filter_of e) with
    | (call, None) => (answer client call, (log ++ [call])%list)
    | (_, Some err) => (refusal (error_Error err), log)
    end.
Proof. intros _. apply request_prepared. Qed.

(** X10: a request function reads the path parameters only at the
    variables of its template: bindings under other names change
    nothing. *)
Theorem request_reads_only_its_template_variables
    e marshaler client req pathParams pathParams' log :
  (∀ name, name ∈ required e → pathParams !! name = pathParams' !! name) →
  request e marshaler client req pathParams log
  = request e marshaler client req pathParams' log.
Proof.
intros Hpp.
destruct e; unfold_family;
  repeat match goal with
         | |- context [pathParams !! ?n] =>
             rewrite (Hpp n) by (rewrite required_eq; elem_here)
         end;
  reflexivity.
Qed.

(** X11: when a path parameter is missing and those before it in the
    template are present (and, for [UpdateEntry], the body decodes),
    the request is refused with the message that names this parameter,
    and nothing is sent to the backend. *)
Theorem first_missing_parameter_is_reported
    e marshaler client req pathParams name log :
  name ∈ required e →
  pathParams !! name = None →
  (∀ n, n ∈ earlier (required e) name → is_Some (pathParams !! n)) →
  (e = UpdateEntry_ → (Decode marshaler (http.Body req)).2 = None) →
  request e marshaler client req pathParams log
  = (refusal ("missing parameter " +:+ name), log).
Proof.
intros Hin Hmiss Hear Hbody. rewrite required_eq in Hin.
destruct e; elem_cases Hin; subst name; unfold_family;
  try (specialize (Hbody eq_refl);
       destruct (Decode marshaler (http.Body req)) as [upd [err|]]; [done|];
       cbn [fst snd]);
  repeat match goal with
         | |- context [pathParams !! ?n] =>
             first
               [ rewrite Hmiss
               | let x := fresh "x" in
                 let Hx := fresh "Hx" in
                 destruct (Hear n ltac:(vm_compute; elem_here)) as [x Hx]; rewrite Hx ]
         end;
  cbn; rewrite ?Errorf_missing; reflexivity.
Qed.

End Requests.
End request_facts.

(* ================================================================== *)
(** * From the HTTP request to the backend call *)
(* ================================================================== *)

Module end_to_end.
Import keytransparency_proto gateway_spec route_spec filter_spec handler_spec.
Import gateway_facts routing_facts request_facts.

Section Gateway.
Context {EntryUpdate Message : Type}
        `{!runtime.ProtoMessage GetDomainRequest.t,
          !runtime.ProtoMessage GetEpochRequest.t,
          !runtime.ProtoMessage GetLatestEpochRequest.t,
          !runtime.ProtoMessage ListMutationsRequest.t,
          !runtime.ProtoMessage GetEntryRequest.t,
          !runtime.ProtoMessage ListEntryHistoryRequest.t,
          !runtime.ProtoMessage (UpdateEntryRequest.t EntryUpdate)}.
Implicit Types (marshaler : @Marshaler EntryUpdate)
               (client : @KeyTransparencyClient EntryUpdate Message)
               (log : list (@ClientCall EntryUpdate)).
Context (MarshalerForRequest : http.Request → @Marshaler EntryUpdate * @Marshaler EntryUpdate)
        (AnnotateContext : http.Request → option error).

(** A handler is its request function between the two library calls
    and the forwarder. *)
Lemma handler_request e client req pathParams log :
  handler e MarshalerForRequest AnnotateContext client req pathParams log
  = match AnnotateContext req with
    | Some err => (HTTPError None err, log)
    | None =>
        prod_map (written e) id
          (request e (MarshalerForRequest req).1 client req pathParams log)
    end.
Proof.
destruct e; unfold handler, handler_body, request;
  destruct (MarshalerForRequest req) as [inbound outbound];
  (destruct (AnnotateContext req); [reflexivity|]);
  unfold bind, ret, prod_map, as_message, as_stream, written; cbn [fst snd];
  match goal with
  | |- context [let '(_, _) := ?r in _] => destruct r as [[[resp md] [err|]] log']
  end; cbn; try reflexivity; by destruct resp.
Qed.

(** X12: a well-formed REST request goes all the way, for a client
    that returns a stream whenever it returns no error: unless
    [runtime.AnnotateContext] refuses it, the gateway sends the message
    built from the path, the body and the query to the backend method of
    the endpoint, once, and writes the backend's answer (the response
    through the forwarder, an error through [runtime.HTTPError]); when
    the query pass fails it writes [InvalidArgument] and sends
    nothing. *)
Theorem rest_request_reaches_the_backend client e v z upd req log :
  streams_or_fails client →
  addressable e v →
  http.Method req = http_method e →
  http.URL_Path req = path_of e v →
  ("epoch" ∈ required e → runtime.Int64 (epoch v) = (z, None)) →
  (e = UpdateEntry_ →
   Decode (MarshalerForRequest req).1 (http.Body req) = (upd, None)) →
  serve MarshalerForRequest AnnotateContext client req log
  = match AnnotateContext req with
    | Some err => (HTTPError None err, log)
    | None =>
        match populate (prepared e v z upd) (http.URL_Query req) (filter_of e) with
        | (call, None) => (written e (answer client call), (log ++ [call])%list)
        | (_, Some err) =>
            (HTTPError (Some metadata0)
               (StatusError codes.InvalidArgument (error_Error err)), log)
        end
    end.
Proof.
intros _ Hv Hm Hp Hz Hupd.
rewrite (serve_path_of _ _ client e v req Hv Hm Hp), handler_request.
destruct (AnnotateContext req); [reflexivity|].
rewrite (request_prepared e _ client req _ v z upd log); [|done..].
by destruct (populate _ _ _) as [call [err|]].
Qed.

End Gateway.
End end_to_end.

(* ================================================================== *)
(** * Facts about registration and the life of the connection *)
(* ================================================================== *)

Module registration_facts.
Import keytransparency_proto gateway_spec route_spec lifecycle_spec gateway_facts.

Section Registration.
Context {EntryUpdate Message : Type}
        `{!runtime.ProtoMessage GetDomainRequest.t,
          !runtime.ProtoMessage GetEpochRequest.t,
          !runtime.ProtoMessage GetLatestEpochRequest.t,
          !runtime.ProtoMessage ListMutationsRequest.t,
          !runtime.ProtoMessage GetEntryRequest.t,
          !runtime.ProtoMessage ListEntryHistoryRequest.t,
          !runtime.ProtoMessage (UpdateEntryRequest.t EntryUpdate)}.
Context (MarshalerForRequest : http.Request → @Marshaler EntryUpdate * @Marshaler EntryUpdate)
        (AnnotateContext : http.Request → option error)
        (NewKeyTransparencyClient : grpc.ClientConn → @KeyTransparencyClient EntryUpdate Message).
Implicit Types (client : @KeyTransparencyClient EntryUpdate Message)
               (mux : runtime.ServeMux (@M EntryUpdate (@HTTPResponse Message))).

(** Registration appends to what the multiplexer holds. *)
Lemma Register_lookup mux client m :
  runtime.handlers
    (RegisterKeyTransparencyHandlerClient MarshalerForRequest AnnotateContext mux client).1
    !! m
  = match registered m with
    | [] => runtime.handlers mux !! m
    | es =>
        Some (default [] (runtime.handlers mux !! m)
              ++ map (λ e, entry e MarshalerForRequest AnnotateContext client) es)%list
    end.
Proof.
unfold RegisterKeyTransparencyHandlerClient, registered. unfold fst.
destruct (decide (m = "GET")) as [->|Hget]; [|destruct (decide (m = "PUT")) as [->|Hput]].
- rewrite Handle_lookup_ne by done. repeat rewrite Handle_lookup_eq.
  cbn [default from_option id]. rewrite <- !app_assoc. cbn [app].
  cbv [map entry handler pattern]. reflexivity.
- rewrite Handle_lookup_eq. repeat rewrite Handle_lookup_ne by done.
  cbv [map entry handler pattern]. reflexivity.
- repeat rewrite Handle_lookup_ne by done. reflexivity.
Qed.

(** X13: [RegisterKeyTransparencyHandlerClient] never fails, and it
    only adds: under every method the multiplexer holds afterwards the
    handlers it held before together with the gateway's handlers of
    that method (eight under GET, one under PUT, none elsewhere), and
    no others. *)
Theorem registration_adds_to_the_multiplexer mux client m :
  (RegisterKeyTransparencyHandlerClient MarshalerForRequest AnnotateContext mux client).2
  = None
  ∧ default []
      (runtime.handlers
         (RegisterKeyTransparencyHandlerClient MarshalerForRequest AnnotateContext mux
            client).1 !! m)
    ≡ₚ (default [] (runtime.handlers mux !! m)
        ++ map (λ e, entry e MarshalerForRequest AnnotateContext client) (registered m))%list.
Proof.
split; [reflexivity|]. rewrite Register_lookup.
destruct (registered m) as [|e es]; [|reflexivity].
cbn [map]. by rewrite app_nil_r.
Qed.

End Registration.

(** ** The goroutine that closes the connection *)

Lemma wake_conns w g c :
  grpc.conns (wake w g) !! c
  = if decide (c = grpc.w_conn g) then closed (grpc.conns w !! c)
    else grpc.conns w !! c.
Proof.
unfold wake, grpc.Close, closed.
destruct (decide (c = grpc.w_conn g)) as [->|Hne].
- destruct (grpc.conns w !! grpc.w_conn g) as [[]|] eqn:Hc; cbn; rewrite ?Hc; try done.
  by rewrite lookup_insert_eq.
- destruct (grpc.conns w !! grpc.w_conn g) as [[]|] eqn:Hc; cbn; try done.
  by rewrite lookup_insert_ne.
Qed.

Lemma wake_parked w g : grpc.parked (wake w g) = grpc.parked w.
Proof.
unfold wake, grpc.Close. by destruct (grpc.conns w !! grpc.w_conn g) as [[]|].
Qed.

Lemma wake_log w g :
  grpc.grpclog (wake w g)
  = if decide (grpc.conns w !! grpc.w_conn g = Some grpc.Open) then grpc.grpclog w
    else (grpc.grpclog w
          ++ ["Failed to close conn to " +:+ grpc.w_endpoint g
              +:+ ": grpc: the client connection is closing"])%list.
Proof.
unfold wake, grpc.Close.
destruct (grpc.conns w !! grpc.w_conn g) as [[]|]; case_decide; try done;
  unfold grpc.Printf; cbn [grpc.grpclog]; do 2 f_equal;
  cbn; by rewrite gostring_facts.append_nil_r.
Qed.

Lemma closed_idemp s : closed (closed s) = closed s.
Proof. by destruct s. Qed.

Lemma drain_conns gs : ∀ w c,
  grpc.conns (foldl wake w gs) !! c
  = if decide (c ∈ map grpc.w_conn gs) then closed (grpc.conns w !! c)
    else grpc.conns w !! c.
Proof.
induction gs as [|g gs IH]; intros w c; cbn [foldl map].
- rewrite decide_False; [done|]. apply not_elem_of_nil.
- rewrite IH, wake_conns.
  repeat case_decide; subst; rewrite ?closed_idemp; try done; exfalso;
    match goal with
    | H : _ ∉ _ :: _ |- _ => apply H; first [by left | by right]
    | H : _ ∈ _ :: _ |- _ => apply elem_of_cons in H as [?|?]; done
    end.
Qed.

Lemma drain_parked gs : ∀ w, grpc.parked (foldl wake w gs) = grpc.parked w.
Proof.
induction gs as [|g gs IH]; intros w; [done|]. cbn [foldl]. by rewrite IH, wake_parked.
Qed.

Lemma drain_log_prefix gs : ∀ w, grpc.grpclog w `prefix_of` grpc.grpclog (foldl wake w gs).
Proof.
induction gs as [|g gs IH]; intros w; [done|]. cbn [foldl].
etrans; [|apply IH]. rewrite wake_log. destruct (decide _); [done|].
by apply prefix_app_r.
Qed.

Lemma drain_log_quiet gs : ∀ w,
  NoDup (map grpc.w_conn gs) →
  (∀ g, g ∈ gs → grpc.conns w !! grpc.w_conn g = Some grpc.Open) →
  grpc.grpclog (foldl wake w gs) = grpc.grpclog w.
Proof.
induction gs as [|g gs IH]; intros w Hnd Hopen; [done|]. cbn [foldl].
cbn [map] in Hnd. apply NoDup_cons in Hnd as [Hg Hnd].
rewrite IH; [|done|].
- rewrite wake_log, decide_True; [done|]. apply Hopen. by left.
- intros g' Hg'. rewrite wake_conns, decide_False.
  + apply Hopen. by right.
  + intros Heq. apply Hg. rewrite <- Heq. by apply list_elem_of_fmap_2.
Qed.

Lemma ctx_Done_drain ctx w :
  ctx_Done ctx w
  = foldl wake {| grpc.conns := grpc.conns w; grpc.parked := asleep ctx w;
                  grpc.grpclog := grpc.grpclog w |} (woken ctx w).
Proof. reflexivity. Qed.

Lemma woken_elem_of ctx w g :
  g ∈ woken ctx w ↔ g ∈ grpc.parked w ∧ ctx `prefix_of` grpc.w_ctx g.
Proof.
unfold woken, context.under. rewrite !list_elem_of_In, filter_In, bool_decide_eq_true.
reflexivity.
Qed.

(** X14: when a context is done, the goroutines parked on it or on a
    context derived from it have all run, and no others: the goroutines
    parked on other contexts stay parked, in their order; every
    connection that a woken goroutine waited for is shut down if it
    existed, the other connections are untouched; the log only grows,
    and it does not grow at all when the connections awaited under the
    context are distinct and still open. *)
Theorem ctx_Done_closes_the_connections_awaited_under_ctx ctx w :
  grpc.parked (ctx_Done ctx w) = asleep ctx w
  ∧ (∀ g, g ∈ grpc.parked (ctx_Done ctx w)
          ↔ g ∈ grpc.parked w ∧ ¬ ctx `prefix_of` grpc.w_ctx g)
  ∧ (∀ c, grpc.conns (ctx_Done ctx w) !! c
          = if decide (c ∈ awaited ctx w)
            then closed (grpc.conns w !! c)
            else grpc.conns w !! c)
  ∧ (∀ c, c ∈ awaited ctx w
          ↔ ∃ g, g ∈ grpc.parked w ∧ ctx `prefix_of` grpc.w_ctx g ∧ grpc.w_conn g = c)
  ∧ grpc.grpclog w `prefix_of` grpc.grpclog (ctx_Done ctx w)
  ∧ (NoDup (awaited ctx w) →
     (∀ g, g ∈ grpc.parked w → ctx `prefix_of` grpc.w_ctx g →
           grpc.conns w !! grpc.w_conn g = Some grpc.Open) →
     grpc.grpclog (ctx_Done ctx w) = grpc.grpclog w).
Proof.
rewrite ctx_Done_drain.
set (w0 := {| grpc.conns := grpc.conns w; grpc.parked := asleep ctx w;
              grpc.grpclog := grpc.grpclog w |}).
split; [by rewrite drain_parked|].
split.
{ intros g. rewrite drain_parked. cbn [grpc.parked w0]. unfold asleep, context.under.
  rewrite !list_elem_of_In, filter_In, negb_true_iff, bool_decide_eq_false.
  reflexivity. }
split; [intros c; by rewrite drain_conns|].
split.
{ intros c. unfold awaited. rewrite list_elem_of_fmap. split.
  - intros (g & -> & Hg). apply woken_elem_of in Hg as [? ?]. by exists g.
  - intros (g & Hg & Hctx & <-). exists g. split; [done|]. by apply woken_elem_of. }
split; [exact (drain_log_prefix (woken ctx w) w0)|].
intros Hnd Hopen. rewrite drain_log_quiet; [done|done|].
intros g Hg. apply woken_elem_of in Hg as [? ?]. by apply Hopen.
Qed.

Section FromEndpoint.
Context {EntryUpdate Message : Type}
        `{!runtime.ProtoMessage GetDomainRequest.t,
          !runtime.ProtoMessage GetEpochRequest.t,
          !runtime.ProtoMessage GetLatestEpochRequest.t,
          !runtime.ProtoMessage ListMutationsRequest.t,
          !runtime.ProtoMessage GetEntryRequest.t,
          !runtime.ProtoMessage ListEntryHistoryRequest.t,
          !runtime.ProtoMessage (UpdateEntryRequest.t EntryUpdate)}.
Context (MarshalerForRequest : http.Request → @Marshaler EntryUpdate * @Marshaler EntryUpdate)
        (AnnotateContext : http.Request → option error)
        (NewKeyTransparencyClient : grpc.ClientConn → @KeyTransparencyClient EntryUpdate Message).

(** X15: after a successful dial with no goroutine parked before,
    [RegisterKeyTransparencyHandlerFromEndpoint] returns no error, has
    registered the handlers over a client of the dialled connection,
    leaves that connection open and logs nothing; when its context, or
    a context that it is derived from, is done afterwards the
    connection is shut down, without a log line; when any other context
    is done nothing changes, and the connection stays open. *)
Theorem FromEndpoint_connection_lives_until_ctx_is_done
    dial_err ctx (mux : runtime.ServeMux (@M EntryUpdate (@HTTPResponse Message)))
    endpoint opts w :
  dial_err endpoint opts = None →
  grpc.parked w = [] →
  ∃ w',
    RegisterKeyTransparencyHandlerFromEndpoint MarshalerForRequest AnnotateContext
      NewKeyTransparencyClient dial_err ctx mux endpoint opts w
    = (None,
       (RegisterKeyTransparencyHandlerClient MarshalerForRequest AnnotateContext mux
          (NewKeyTransparencyClient (grpc.fresh w))).1,
       w')
    ∧ grpc.conns w' = <[grpc.fresh w := grpc.Open]> (grpc.conns w)
    ∧ grpc.grpclog w' = grpc.grpclog w
    ∧ ctx_Done ctx w'
      = {| grpc.conns := <[grpc.fresh w := grpc.Shutdown]> (grpc.conns w);
           grpc.parked := []; grpc.grpclog := grpc.grpclog w |}
    ∧ (∀ ctx', ctx' `prefix_of` ctx → ctx_Done ctx' w' = ctx_Done ctx w')
    ∧ (∀ ctx', ¬ ctx' `prefix_of` ctx → ctx_Done ctx' w' = w').
Proof.
intros Hdial Hparked.
unfold RegisterKeyTransparencyHandlerFromEndpoint, grpc.Dial.
rewrite Hdial. cbn. eexists. split; [reflexivity|]. split; [reflexivity|].
split; [reflexivity|].
unfold ctx_Done, grpc.park. cbn [grpc.conns grpc.parked grpc.grpclog].
rewrite Hparked, app_nil_l. cbn [List.filter grpc.w_ctx].
assert (∀ ctx', ctx' `prefix_of` ctx → context.under ctx' ctx = true) as Hunder.
{ intros ctx' Hp. by apply bool_decide_eq_true. }
assert (∀ ctx', ¬ ctx' `prefix_of` ctx → context.under ctx' ctx = false) as Hother.
{ intros ctx' Hp. by apply bool_decide_eq_false. }
split; [|split].
- rewrite (Hunder ctx) by done. cbn [negb foldl grpc.w_conn grpc.w_endpoint].
  unfold grpc.Close. cbn [grpc.conns grpc.parked grpc.grpclog].
  rewrite lookup_insert_eq. by rewrite insert_insert_eq.
- intros ctx' Hp. by rewrite (Hunder ctx' Hp), (Hunder ctx).
- intros ctx' Hp. rewrite (Hother ctx' Hp). reflexivity.
Qed.

End FromEndpoint.

End registration_facts.

(* ================================================================== *)
(** * Facts about the monitor's dialling *)
(* ================================================================== *)

Module dial_facts.
Import net_spec net_facts.

Lemma transportCreds_host_port url host port insecure :
  host_port url host port →
  monitor_main.transportCreds url insecure
  = (Some (if insecure
           then credentials.NewTLS
                  {| tls.InsecureSkipVerify := true; tls.ServerName := "";
                     tls.RootCAs := None |}
           else credentials.NewClientTLSFromCert None host), None).
Proof.
intros Hform%SplitHostPort_spec. unfold monitor_main.transportCreds.
rewrite Hform. by destruct insecure.
Qed.

(** X16: [dial] on a kt-url that is not of the form [host:port]
    returns the address error without dialling, whatever the dialler
    would have done; on a well-formed kt-url it dials that very string
    with one option, the transport credentials for the host. *)
Theorem dial_checks_the_address_before_dialling dial_err url insecure w :
  ((¬ ∃ host port, host_port url host port) →
   ∃ why, monitor_main.dial dial_err url insecure w = (None, Some (AddrError why url), w))
  ∧ (∀ host port, host_port url host port →
       monitor_main.dial dial_err url insecure w
       = grpc.Dial dial_err url
           [grpc.WithTransportCredentials
              (if insecure
               then credentials.NewTLS
                      {| tls.InsecureSkipVerify := true; tls.ServerName := "";
                         tls.RootCAs := None |}
               else credentials.NewClientTLSFromCert None host)] w).
Proof.
split.
- intros Hform. unfold monitor_main.dial, monitor_main.transportCreds.
  destruct (net.SplitHostPort url) as [[h p] [err|]] eqn:Hs.
  + apply SplitHostPort_error in Hs as (_ & _ & why & ->). by exists why.
  + destruct Hform. exists h, p. by apply SplitHostPort_spec.
- intros host port Hform. unfold monitor_main.dial.
  by rewrite (transportCreds_host_port url host port insecure Hform).
Qed.

(** X17: the transport credentials of two well-formed kt-urls are
    the same when the insecure flag is set, and when the hosts are the
    same: the port plays no part. *)
Theorem credentials_depend_on_the_host_only url1 url2 host1 host2 port1 port2 insecure :
  host_port url1 host1 port1 → host_port url2 host2 port2 →
  (insecure = true ∨ host1 = host2) →
  monitor_main.transportCreds url1 insecure = monitor_main.transportCreds url2 insecure.
Proof.
intros H1 H2 Hsame.
rewrite (transportCreds_host_port _ _ _ _ H1), (transportCreds_host_port _ _ _ _ H2).
destruct Hsame as [->| ->]; reflexivity.
Qed.

End dial_facts.

(* ================================================================== *)
(** * The theorems at sample requests *)
(* ================================================================== *)

Module examples.
Import keytransparency_proto gateway_spec route_spec filter_spec handler_spec.
Import lifecycle_spec net_spec fixtures sample.
Import gateway_facts routing_facts request_facts end_to_end registration_facts dial_facts.

Lemma epoch7_addressable : addressable GetEpoch_ epoch7.
Proof. repeat split. Qed.

Lemma delete_is_served_directly : ¬ falls_back delete_epoch7.
Proof. intros [Hpost _]. discriminate Hpost. Qed.

Lemma client_streams : streams_or_fails client.
Proof. split; intros r; discriminate. Qed.

Lemma routes_of_one_method_do_not_overlap_witness :
  http_method GetEpoch_ = http_method GetEpoch_
  ∧ runtime.Match (pattern GetEpoch_) (components GetEpoch_ epoch7) ""
    = (Some (bindings GetEpoch_ epoch7), None)
  ∧ GetEpoch_ = GetEpoch_ ∧ bindings GetEpoch_ epoch7 = bindings GetEpoch_ epoch7.
Proof.
assert (runtime.Match (pattern GetEpoch_) (components GetEpoch_ epoch7) ""
        = (Some (bindings GetEpoch_ epoch7), None)) as Hm by (vm_compute; reflexivity).
split; [reflexivity|]. split; [exact Hm|].
exact (routes_of_one_method_do_not_overlap GetEpoch_ GetEpoch_ _ _ _ _ eq_refl Hm Hm).
Defined.

Lemma well_formed_requests_reach_their_handler_witness :
  addressable GetEpoch_ epoch7
  ∧ http.Method get_epoch7 = http_method GetEpoch_
  ∧ http.URL_Path get_epoch7 = path_of GetEpoch_ epoch7
  ∧ serve MarshalerForRequest AnnotateContext client get_epoch7
    = handler GetEpoch_ MarshalerForRequest AnnotateContext client get_epoch7
        (bindings GetEpoch_ epoch7).
Proof.
split; [exact epoch7_addressable|]. split; [reflexivity|]. split; [reflexivity|].
exact (well_formed_requests_reach_their_handler MarshalerForRequest AnnotateContext
         client GetEpoch_ epoch7 get_epoch7 epoch7_addressable eq_refl eq_refl).
Defined.

Lemma serve_refuses_or_dispatches_to_one_endpoint_witness :
  ¬ falls_back delete_epoch7
  ∧ ((∃ status, status ∈ [400; 404; 405]
        ∧ serve MarshalerForRequest AnnotateContext client delete_epoch7
          = ret (OtherError (http.StatusText status) status))
     ∨ (∃ e v, http_method e = http.Method delete_epoch7
          ∧ parse_path (http.URL_Path delete_epoch7) = inr (components e v, verb_of e)
          ∧ serve MarshalerForRequest AnnotateContext client delete_epoch7
            = handler e MarshalerForRequest AnnotateContext client delete_epoch7
                (bindings e v))).
Proof.
split; [exact delete_is_served_directly|].
exact (serve_refuses_or_dispatches_to_one_endpoint MarshalerForRequest AnnotateContext
         client delete_epoch7 delete_is_served_directly).
Defined.

Lemma known_path_with_another_method_is_not_allowed_witness :
  addressable GetEpoch_ epoch7
  ∧ http.URL_Path delete_epoch7 = path_of GetEpoch_ epoch7
  ∧ http.Method delete_epoch7 ≠ "GET" ∧ http.Method delete_epoch7 ≠ "PUT"
  ∧ ¬ falls_back delete_epoch7
  ∧ serve MarshalerForRequest AnnotateContext client delete_epoch7
    = ret (OtherError "Method Not Allowed" 405).
Proof.
assert (http.Method delete_epoch7 ≠ "GET") as Hget by discriminate.
assert (http.Method delete_epoch7 ≠ "PUT") as Hput by discriminate.
split; [exact epoch7_addressable|]. split; [reflexivity|].
split; [exact Hget|]. split; [exact Hput|]. split; [exact delete_is_served_directly|].
exact (known_path_with_another_method_is_not_allowed MarshalerForRequest AnnotateContext
         client GetEpoch_ epoch7 delete_epoch7 epoch7_addressable eq_refl Hget Hput
         delete_is_served_directly).
Defined.

(** A query key under the proto name of the bound field is skipped,
    one under its JSON name is not: the query pass stores it. *)
Lemma proto_name_is_skipped_json_name_is_not :
  request GetDomain_ marshaler client
    (get_default_with "domain_id" "other")
    (bindings GetDomain_ epoch7) []
  = (answer client (CallGetDomain {| GetDomainRequest.DomainId := "default" |}),
     [CallGetDomain {| GetDomainRequest.DomainId := "default" |}])
  ∧ request GetDomain_ marshaler client
      (get_default_with "domainId" "other")
      (bindings GetDomain_ epoch7) []
    = (answer client (CallGetDomain {| GetDomainRequest.DomainId := "other" |}),
       [CallGetDomain {| GetDomainRequest.DomainId := "other" |}]).
Proof. split; vm_compute; reflexivity. Qed.

Lemma epoch7_bound name :
  name ∈ required GetEpoch_ →
  bindings GetEpoch_ epoch7 !! name = bindings GetEpoch_ epoch7 !! name.
Proof. reflexivity. Qed.

Lemma epoch7_converts : "epoch" ∈ required GetEpoch_ → runtime.Int64 (epoch epoch7) = (7, None).
Proof. intros _. vm_compute. reflexivity. Qed.

Lemma not_UpdateEntry upd :
  GetEpoch_ = UpdateEntry_ → Decode marshaler (http.Body get_epoch7) = (upd, None).
Proof. discriminate. Qed.

Lemma request_refuses_or_relays_witness :
  streams_or_fails client
  ∧ ((∃ message,
        request GetEpochStream_ marshaler client get_epoch7 no_epoch []
        = (refusal message, []))
     ∨ (∃ call, call_endpoint call = GetEpochStream_
          ∧ request GetEpochStream_ marshaler client get_epoch7 no_epoch []
            = (answer client call, ([] ++ [call])%list))).
Proof.
split; [exact client_streams|].
exact (request_refuses_or_relays GetEpochStream_ marshaler client get_epoch7 no_epoch []
         client_streams).
Defined.

Lemma request_with_its_path_parameters_witness :
  streams_or_fails client
  ∧ runtime.Int64 "7" = (7, None)
  ∧ request GetEpoch_ marshaler client get_epoch7 (bindings GetEpoch_ epoch7) []
    = match populate (prepared GetEpoch_ epoch7 7 None) (http.URL_Query get_epoch7)
              (filter_of GetEpoch_) with
      | (call, None) => (answer client call, ([] ++ [call])%list)
      | (_, Some err) => (refusal (error_Error err), [])
      end.
Proof.
split; [exact client_streams|]. split; [vm_compute; reflexivity|].
exact (request_with_its_path_parameters GetEpoch_ marshaler client get_epoch7
         (bindings GetEpoch_ epoch7) epoch7 7 None [] client_streams epoch7_bound
         epoch7_converts (not_UpdateEntry None)).
Defined.

Lemma with_extra_agrees name :
  name ∈ required GetEpoch_ → with_extra !! name = bindings GetEpoch_ epoch7 !! name.
Proof.
rewrite required_eq. intros Hin. elem_cases Hin; subst; vm_compute; reflexivity.
Qed.

Lemma request_reads_only_its_template_variables_witness :
  with_extra !! "extra" = Some "x"
  ∧ bindings GetEpoch_ epoch7 !! "extra" = None
  ∧ request GetEpoch_ marshaler client get_epoch7 with_extra []
    = request GetEpoch_ marshaler client get_epoch7 (bindings GetEpoch_ epoch7) [].
Proof.
split; [reflexivity|]. split; [reflexivity|].
exact (request_reads_only_its_template_variables GetEpoch_ marshaler client get_epoch7
         with_extra (bindings GetEpoch_ epoch7) [] with_extra_agrees).
Defined.

Lemma epoch_required : "epoch" ∈ required GetEpoch_.
Proof. rewrite required_eq. elem_here. Qed.

Lemma no_epoch_earlier n :
  n ∈ earlier (required GetEpoch_) "epoch" → is_Some (no_epoch !! n).
Proof.
assert (earlier (required GetEpoch_) "epoch" = ["domain_id"]) as -> by reflexivity.
intros Hin. elem_cases Hin; subst. by eexists.
Qed.

Lemma not_UpdateEntry_body :
  GetEpoch_ = UpdateEntry_ → (Decode marshaler (http.Body get_epoch7)).2 = None.
Proof. discriminate. Qed.

Lemma first_missing_parameter_is_reported_witness :
  "epoch" ∈ required GetEpoch_
  ∧ no_epoch !! "epoch" = None
  ∧ request GetEpoch_ marshaler client get_epoch7 no_epoch []
    = (refusal "missing parameter epoch", []).
Proof.
split; [exact epoch_required|]. split; [reflexivity|].
exact (first_missing_parameter_is_reported GetEpoch_ marshaler client get_epoch7 no_epoch
         "epoch" [] epoch_required eq_refl no_epoch_earlier not_UpdateEntry_body).
Defined.

Lemma rest_request_reaches_the_backend_witness :
  streams_or_fails client
  ∧ addressable GetEpoch_ epoch7
  ∧ runtime.Int64 "7" = (7, None)
  ∧ serve MarshalerForRequest AnnotateContext client get_epoch7 []
    = (ForwardResponseMessage {| runtime.HeaderMD := []; runtime.TrailerMD := [] |}
         (Some "GetEpoch"),
       [CallGetEpoch {| GetEpochRequest.DomainId := "default";
                        GetEpochRequest.Epoch := 7 |}]).
Proof.
split; [exact client_streams|].
split; [exact epoch7_addressable|]. split; [vm_compute; reflexivity|].
exact (rest_request_reaches_the_backend MarshalerForRequest AnnotateContext client
         GetEpoch_ epoch7 7 None get_epoch7 [] client_streams epoch7_addressable eq_refl
         eq_refl epoch7_converts (not_UpdateEntry None)).
Defined.

Lemma world1_open g :
  g ∈ grpc.parked world1 → ctx1 `prefix_of` grpc.w_ctx g →
  grpc.conns world1 !! grpc.w_conn g = Some grpc.Open.
Proof. intros Hin _. cbn in Hin. elem_cases Hin; subst; reflexivity. Qed.

Lemma world1_NoDup : NoDup (awaited ctx1 world1).
Proof. apply NoDup_singleton. Qed.

Lemma ctx_Done_closes_the_connections_awaited_under_ctx_witness :
  NoDup (awaited ctx1 world1)
  ∧ grpc.conns (ctx_Done ctx1 world1) !! 0%nat = Some grpc.Shutdown
  ∧ grpc.conns (ctx_Done ctx1 world1) !! 1%nat = Some grpc.Open
  ∧ grpc.parked (ctx_Done ctx1 world1)
    = [{| grpc.w_ctx := ctx2; grpc.w_conn := 1%nat; grpc.w_endpoint := "localhost:8081" |}]
  ∧ grpc.grpclog (ctx_Done ctx1 world1) = grpc.grpclog world1.
Proof.
split; [exact world1_NoDup|].
destruct (ctx_Done_closes_the_connections_awaited_under_ctx ctx1 world1)
  as (Hparked & _ & Hconns & _ & _ & Hquiet).
split; [rewrite (Hconns 0%nat); reflexivity|].
split; [rewrite (Hconns 1%nat); reflexivity|].
split; [rewrite Hparked; reflexivity|].
exact (Hquiet world1_NoDup world1_open).
Defined.

Lemma ctx2_is_not_above_ctx1 : ¬ ctx2 `prefix_of` ctx1.
Proof. intros [k Hk]. discriminate Hk. Qed.

Lemma FromEndpoint_connection_lives_until_ctx_is_done_witness :
  dial_ok "localhost:8080" [] = None
  ∧ grpc.parked world0 = []
  ∧ ∃ w',
      RegisterKeyTransparencyHandlerFromEndpoint MarshalerForRequest AnnotateContext
        new_client dial_ok ctx1 mux "localhost:8080" [] world0
      = (None,
         (RegisterKeyTransparencyHandlerClient MarshalerForRequest AnnotateContext mux
            client).1, w')
      ∧ grpc.conns w' !! grpc.fresh world0 = Some grpc.Open
      ∧ grpc.conns (ctx_Done ctx1 w') !! grpc.fresh world0 = Some grpc.Shutdown
      ∧ grpc.conns (ctx_Done ctx2 w') !! grpc.fresh world0 = Some grpc.Open.
Proof.
split; [reflexivity|]. split; [reflexivity|].
destruct (FromEndpoint_connection_lives_until_ctx_is_done MarshalerForRequest
            AnnotateContext new_client dial_ok ctx1 mux "localhost:8080" [] world0
            eq_refl eq_refl) as (w' & Hreg & Hconns & _ & Hdone & _ & Hother).
exists w'. split; [exact Hreg|].
rewrite Hdone, (Hother ctx2 ctx2_is_not_above_ctx1), Hconns. cbn [grpc.conns].
repeat split; apply lookup_insert_eq.
Defined.

Lemma localhost_has_no_port : ¬ ∃ host port, host_port "localhost" host port.
Proof.
intros (host & port & Hform). apply net_facts.SplitHostPort_spec in Hform.
discriminate Hform.
Qed.

Lemma localhost_443 : host_port "localhost:443" "localhost" "443".
Proof. repeat (split; [reflexivity|]). left. split; reflexivity. Qed.

Lemma localhost_8080 : host_port "localhost:8080" "localhost" "8080".
Proof. repeat (split; [reflexivity|]). left. split; reflexivity. Qed.

Lemma dial_checks_the_address_before_dialling_witness :
  (¬ ∃ host port, host_port "localhost" host port)
  ∧ host_port "localhost:443" "localhost" "443"
  ∧ (∃ why, monitor_main.dial dial_ok "localhost" false world0
            = (None, Some (AddrError why "localhost"), world0))
  ∧ monitor_main.dial dial_ok "localhost:443" false world0
    = grpc.Dial dial_ok "localhost:443"
        [grpc.WithTransportCredentials (credentials.NewClientTLSFromCert None "localhost")]
        world0.
Proof.
split; [exact localhost_has_no_port|]. split; [exact localhost_443|]. split.
- exact (proj1 (dial_checks_the_address_before_dialling dial_ok "localhost" false world0)
           localhost_has_no_port).
- exact (proj2 (dial_checks_the_address_before_dialling dial_ok "localhost:443" false
                  world0) "localhost" "443" localhost_443).
Defined.

Lemma credentials_depend_on_the_host_only_witness :
  host_port "localhost:443" "localhost" "443"
  ∧ host_port "localhost:8080" "localhost" "8080"
  ∧ monitor_main.transportCreds "localhost:443" false
    = monitor_main.transportCreds "localhost:8080" false.
Proof.
split; [exact localhost_443|]. split; [exact localhost_8080|].
exact (credentials_depend_on_the_host_only _ _ _ _ _ _ false localhost_443 localhost_8080
         (or_intror eq_refl)).
Defined.

End examples.
